(** * MagiskHide process monitor: a shallow embedding of
      native/jni/magiskhide/proc_monitor.cpp

    The development follows the source file top to bottom: the global
    data structures, the package-database parser, the spawner registry,
    [detach_pid], [check_pid] and one iteration of the [proc_monitor]
    loop.  Kernel and /proc observations are inputs to the model; every
    ptrace, wait, kill and fork request the code issues is recorded in a
    system-call log. *)

From Stdlib Require Import ZArith Ascii String Bool Lia.
From stdpp Require Import base option list gmap.

Local Open Scope Z_scope.

(** ** Text *)

(** C character data is a list of bytes; [str] turns a literal into one. *)
Abbreviation text := (list ascii).

Definition str (s : string) : text := list_ascii_of_string s.

Definition NUL : ascii := ascii_of_nat 0.
Definition DQUOTE : ascii := ascii_of_nat 34.
Definition EQUALS : ascii := ascii_of_nat 61.
Definition BLANK : ascii := ascii_of_nat 32.
#[global] Arguments NUL : simpl never.
#[global] Arguments DQUOTE : simpl never.
#[global] Arguments EQUALS : simpl never.
#[global] Arguments BLANK : simpl never.

#[global] Instance ascii_eq_decision : EqDecision ascii := ascii_dec.

(** ** All data structures *)

(** [set<pair<string, string>> hide_set], in iteration order. *)
Abbreviation hide_set_t := (list (list ascii * list ascii)).

(** The fields of [struct stat] the monitor reads. *)
Record stat := mkStat { st_dev : Z; st_ino : Z; st_uid : Z }.

#[global] Instance stat_eq_decision : EqDecision stat.
Proof. solve_decision. Defined.

(** [#define PID_MAX 32768] *)
Definition PID_MAX : Z := 32768.

(** ** Outcomes

    [Fault] stands for the behaviours C++ leaves undefined and the model
    refuses to continue through: a store through a null pointer, an access
    outside a buffer, a [bitset] index outside [0, PID_MAX).  [Timeout] is
    fuel exhaustion of the model itself, shown below never to happen. *)
Inductive result (A : Type) : Type :=
| Ok (a : A)
| Fault
| Timeout.
Arguments Ok {A} a.
Arguments Fault {A}.
Arguments Timeout {A}.

Definition rbind {A B} (r : result A) (k : A -> result B) : result B :=
  match r with
  | Ok a => k a
  | Fault => Fault
  | Timeout => Timeout
  end.

(** ** Utils: the package-database parser *)

Module Parser.

(** [strchr]: the buffer is addressed by offsets. *)
Inductive scan : Type :=
| Found (i : nat)
| Null
| Outside.

Fixpoint strchr_at (l : text) (c : ascii) (i : nat) : scan :=
  match l with
  | [] => Outside
  | x :: l' =>
      if bool_decide (x = c) then Found i
      else if bool_decide (x = NUL) then Null
      else strchr_at l' c (S i)
  end.

Definition strchr (b : text) (p : nat) (c : ascii) : scan :=
  strchr_at (drop p b) c p.

(** [string_view(p, n)] *)
Definition view (b : text) (p n : nat) : text := take n (drop p b).

(** Modelled from the spec: [str_starts] of the utility library, absent from
    the sources; 'records are lines starting [<package ]'. *)
Fixpoint str_starts (s pre : text) {struct pre} : bool :=
  match pre with
  | [] => true
  | p :: pre' =>
      match s with
      | [] => false
      | c :: s' => bool_decide (c = p) && str_starts s' pre'
      end
  end.

(** [uid_proc_map[uid].emplace_back(proc)] *)
Definition emplace_back (uid : Z) (proc : text) (m : gmap Z (list text))
  : gmap Z (list text) :=
  <[uid := default [] (m !! uid) ++ [proc]]> m.

Section WithParseInt.

(** [parse_int] of the utility library is absent from the sources. *)
Variable parse_int : text -> Z.

(** The [key == 'name'] loop over [hide_set]. *)
Definition match_pkg (hs : hide_set_t) (value pkg : text) : text :=
  match List.find (fun h => bool_decide (h.1 = value)) hs with
  | Some h => h.1
  | None => pkg
  end.

(** The [userId] / [sharedUserId] loop over [hide_set]. *)
Definition add_procs (hs : hide_set_t) (pkg : text) (uid : Z)
    (m : gmap Z (list text)) : gmap Z (list text) :=
  foldl (fun m h => if bool_decide (h.1 = pkg) then emplace_back uid h.2 m else m)
        m hs.

(** What one [key='value'] pair does once it has been cut out of the line:
    [None] is the early [return true]. *)
Definition on_attribute (hs : hide_set_t) (key value : text)
    (pkg : text) (m : gmap Z (list text))
  : option (text * gmap Z (list text)) :=
  if bool_decide (key = str "name") then
    let pkg' := match_pkg hs value pkg in
    if bool_decide (pkg' = []) then None else Some (pkg', m)
  else if bool_decide (key = str "userId") || bool_decide (key = str "sharedUserId") then
    Some (pkg, add_procs hs pkg (parse_int value) m)
  else Some (pkg, m).

(** The [for (char *tok = start; *tok;)] loop.  [b] is the line buffer,
    [tok] an offset into it. *)
Fixpoint attr_loop (fuel : nat) (hs : hide_set_t) (b : text) (tok : nat)
    (pkg : text) (m : gmap Z (list text)) : result (gmap Z (list text)) :=
  match fuel with
  | O => Timeout
  | S fuel' =>
      match b !! tok with
      | None => Fault
      | Some c =>
          if bool_decide (c = NUL) then Ok m
          else
            match strchr b tok EQUALS with
            | Outside => Fault
            | Null => Ok m                                   (* break *)
            | Found eql =>
                let b1 := <[eql := NUL]> b in                (* *eql = '\0' *)
                let key := view b1 tok (eql - tok) in
                let eql2 := (eql + 2)%nat in                 (* eql += 2 *)
                match strchr b1 eql2 DQUOTE with
                | Outside => Fault
                | Null => Fault                              (* *tok = '\0' through nullptr *)
                | Found q =>
                    let b2 := <[q := NUL]> b1 in             (* *tok = '\0' *)
                    let value := view b2 eql2 (q - eql2) in
                    let tok' := (q + 2)%nat in               (* tok += 2 *)
                    match on_attribute hs key value pkg m with
                    | None => Ok m                           (* return true *)
                    | Some (pkg', m') => attr_loop fuel' hs b2 tok' pkg' m'
                    end
                end
            end
      end
  end.

(** [parse_packages_xml]: [s] is the line without its C terminator; the
    buffer behind the [string_view] carries the terminator at [s.length()]. *)
Definition parse_packages_xml (hs : hide_set_t) (s : text)
    (m : gmap Z (list text)) : result (gmap Z (list text)) :=
  if negb (str_starts s (str "<package ")) then Ok m
  else
    let b := <[(length s - 1)%nat := NUL]> (s ++ [NUL]) in   (* remove trailing '>' *)
    attr_loop (length s) hs b 9 [] m.

(** Modelled from the spec: [file_readline] of the utility library, absent
    from the sources; 'the package database is consumed as a sequence of
    records'.  The callback is run on each line in turn until it returns
    [false], which [parse_packages_xml] never does. *)
Fixpoint file_readline (hs : hide_set_t) (lines : list text)
    (m : gmap Z (list text)) : result (gmap Z (list text)) :=
  match lines with
  | [] => Ok m
  | l :: rest => rbind (parse_packages_xml hs l m) (file_readline hs rest)
  end.

(** [update_uid_map]: [uid_proc_map.clear()] and a full re-read. *)
Definition update_uid_map (hs : hide_set_t) (lines : list text)
    (m : gmap Z (list text)) : result (gmap Z (list text)) :=
  file_readline hs lines ∅.

(** The reading of a record attribute by attribute; the byte-level loop is
    shown below to compute it on every line built by [package_line]. *)
Fixpoint run_attrs (hs : hide_set_t) (kvs : list (text * text)) (pkg : text)
    (m : gmap Z (list text)) : gmap Z (list text) :=
  match kvs with
  | [] => m
  | kv :: rest =>
      match on_attribute hs kv.1 kv.2 pkg m with
      | None => m
      | Some (pkg', m') => run_attrs hs rest pkg' m'
      end
  end.

End WithParseInt.

(** Decimal reading used to run the parser on examples: digits only, [-1]
    on anything else. *)
Definition digit_value (c : ascii) : option Z :=
  let n := Z.of_nat (nat_of_ascii c) in
  if (48 <=? n) && (n <=? 57) then Some (n - 48) else None.

Fixpoint parse_int_from (val : Z) (s : text) : Z :=
  match s with
  | [] => val
  | c :: s' =>
      match digit_value c with
      | Some d => parse_int_from (val * 10 + d) s'
      | None => -1
      end
  end.

Definition parse_decimal (s : text) : Z := parse_int_from 0 s.

(** Building lines: [key='value']. *)
Definition attribute (kv : text * text) : text :=
  kv.1 ++ [EQUALS; DQUOTE] ++ kv.2 ++ [DQUOTE].

Fixpoint attributes (kvs : list (text * text)) : text :=
  match kvs with
  | [] => []
  | [kv] => attribute kv
  | kv :: rest => attribute kv ++ [BLANK] ++ attributes rest
  end.

Definition package_line (kvs : list (text * text)) : text :=
  str "<package " ++ attributes kvs ++ str ">".

(** Keys hold no [=], values no double quote, neither holds a NUL. *)
Definition wf_attr (kv : text * text) : Prop :=
  Forall (fun c => c <> EQUALS /\ c <> NUL) kv.1 /\
  Forall (fun c => c <> DQUOTE /\ c <> NUL) kv.2.

(** What lies at [tok] while [kvs] remain to be read: after each closing
    quote one more byte, a blank or the NUL put in place of ['>']; behind
    the last attribute the terminator of the line. *)
Fixpoint laid_out (kvs : list (text * text)) : text :=
  match kvs with
  | [] => [NUL]
  | kv :: rest =>
      attribute kv ++ [match rest with [] => NUL | _ => BLANK end]
        ++ laid_out rest
  end.

Definition is_uid_key (k : text) : Prop :=
  k = str "userId" \/ k = str "sharedUserId".

#[global] Instance is_uid_key_dec k : Decision (is_uid_key k).
Proof. unfold is_uid_key. apply _. Defined.

End Parser.

(** ** Process state *)

(** [bitset<PID_MAX>]: entry [i] is bit [i] of the integer.  [operator[]]
    does no range check; an index outside [0, PID_MAX) is a [Fault]. *)
Module Bitset.

Definition in_range (i : Z) : bool := (0 <=? i) && (i <? PID_MAX).

Definition get (b : Z) (i : Z) : result bool :=
  if in_range i then Ok (Z.testbit b i) else Fault.

Definition set (b : Z) (i : Z) (v : bool) : result Z :=
  if in_range i then Ok (if v then Z.setbit b i else Z.clearbit b i) else Fault.

(** Membership as a proposition, for statements. *)
Definition mem (b : Z) (i : Z) : Prop := Z.testbit b i = true.

End Bitset.

(** Requests made to the kernel, in the order the code makes them. *)
Inductive syscall : Type :=
| PtraceAttach (pid : Z)
| PtraceSetOptions (pid opts : Z)
| PtraceCont (pid sig : Z)
| PtraceDetach (pid sig : Z)
| PtraceGetEventMsg (pid : Z)
| WaitPid (pid : Z) (nohang : bool)
| TgKill (pid tid sig : Z)
| ForkHideDaemon (pid : Z).

#[global] Instance syscall_eq_decision : EqDecision syscall.
Proof. solve_decision. Defined.

Record state := mkState {
  zygote_map : gmap Z stat;              (* zygote pid -> mnt ns *)
  uid_proc_map : gmap Z (list text);     (* uid -> list of process *)
  attaches : Z;                          (* true if pid is monitored *)
  detaches : Z;                          (* true if tid should be detached *)
  calls : list syscall
}.

(** What /proc and the kernel answer while one function runs. *)
Record procfs := mkProcfs {
  cmdline : Z -> option text;     (* /proc/pid/cmdline after fopen and fgets; None: fopen failed *)
  lstat_proc : Z -> option stat;  (* lstat('/proc/pid') *)
  stat_mnt_ns : Z -> option stat; (* stat('/proc/pid/ns/mnt') *)
  task_dir : Z -> list Z;         (* the tids crawl_procfs hands out for /proc/pid/task *)
  waitable : Z -> bool;           (* waitpid(tid, nullptr, __WALL | __WNOTHREAD | WNOHANG) == tid *)
  stack_stat : stat               (* what the local [struct stat st] holds before any call fills it *)
}.

(** State and fault monad of the monitor thread. *)
Definition M (A : Type) : Type := state -> result (A * state).

#[global] Instance M_ret : MRet M := fun A a s => Ok (a, s).
#[global] Instance M_bind : MBind M := fun A B k c s =>
  match c s with
  | Ok (a, s') => k a s'
  | Fault => Fault
  | Timeout => Timeout
  end.

Definition get_state : M state := fun s => Ok (s, s).

Definition call (c : syscall) : M unit := fun s =>
  Ok (tt, mkState (zygote_map s) (uid_proc_map s) (attaches s) (detaches s) (calls s ++ [c])).

Definition set_zygote_map (zm : gmap Z stat) : M unit := fun s =>
  Ok (tt, mkState zm (uid_proc_map s) (attaches s) (detaches s) (calls s)).

(** [attaches[i]] read and write, [detaches[i]] read and write. *)
Definition attaches_get (i : Z) : M bool := fun s =>
  rbind (Bitset.get (attaches s) i) (fun v => Ok (v, s)).

Definition attaches_set (i : Z) (v : bool) : M unit := fun s =>
  rbind (Bitset.set (attaches s) i v) (fun a =>
    Ok (tt, mkState (zygote_map s) (uid_proc_map s) a (detaches s) (calls s))).

Definition detaches_get (i : Z) : M bool := fun s =>
  rbind (Bitset.get (detaches s) i) (fun v => Ok (v, s)).

Definition detaches_set (i : Z) (v : bool) : M unit := fun s =>
  rbind (Bitset.set (detaches s) i v) (fun d =>
    Ok (tt, mkState (zygote_map s) (uid_proc_map s) (attaches s) d (calls s))).

Fixpoint for_each {A} (l : list A) (body : A -> M unit) : M unit :=
  match l with
  | [] => mret tt
  | x :: l' => body x ;; for_each l' body
  end.

(** Signal numbers, ptrace events and options, and the wait-status macros
    of the platform headers (Linux, bionic). *)
Definition SIGTRAP : Z := 5.
Definition SIGSTOP : Z := 19.

Definition PTRACE_EVENT_FORK : Z := 1.
Definition PTRACE_EVENT_VFORK : Z := 2.
Definition PTRACE_EVENT_CLONE : Z := 3.
Definition PTRACE_EVENT_EXEC : Z := 4.
Definition PTRACE_EVENT_EXIT : Z := 6.

Definition PTRACE_O_TRACEFORK : Z := Z.shiftl 1 PTRACE_EVENT_FORK.
Definition PTRACE_O_TRACEVFORK : Z := Z.shiftl 1 PTRACE_EVENT_VFORK.
Definition PTRACE_O_TRACECLONE : Z := Z.shiftl 1 PTRACE_EVENT_CLONE.
Definition PTRACE_O_TRACEEXEC : Z := Z.shiftl 1 PTRACE_EVENT_EXEC.
Definition PTRACE_O_TRACEEXIT : Z := Z.shiftl 1 PTRACE_EVENT_EXIT.

Definition WTERMSIG (s : Z) : Z := Z.land s 127.
Definition WIFSTOPPED (s : Z) : bool := WTERMSIG s =? 127.
Definition WSTOPSIG (s : Z) : Z := Z.shiftr (Z.land s 65280) 8.

(** [#define WEVENT(s) (((s) & 0xffff0000) >> 16)] *)
Definition WEVENT (s : Z) : Z := Z.shiftr (Z.land s 4294901760) 16.

(** C [strncmp(a, b, n) == 0] on strings given without their terminators. *)
Fixpoint strncmp_eq (a b : text) (n : nat) : bool :=
  match n with
  | O => true
  | S n' =>
      match a, b with
      | [], [] => true
      | x :: a', y :: b' => bool_decide (x = y) && strncmp_eq a' b' n'
      | _, _ => false
      end
  end.

(** [read_ns(pid, st)]: the result of [stat] on /proc/pid/ns/mnt, and [*st]
    afterwards, which a failed [stat] leaves as it was. *)
Definition read_ns (fs : procfs) (pid : Z) (st : stat) : Z * stat :=
  match stat_mnt_ns fs pid with
  | Some ns => (0, ns)
  | None => (-1, st)
  end.

(** ** Ptrace Madness *)

(** The body of the [crawl_procfs] callback in [detach_pid]. *)
Definition detach_thread (fs : procfs) (pid tid : Z) : M unit :=
  if bool_decide (tid ≠ pid) then
    call (WaitPid tid true) ;;
    (* Check if we should force a SIGSTOP *)
    if waitable fs tid then call (PtraceDetach tid 0)
    else detaches_set tid true ;; call (TgKill pid tid SIGSTOP)
  else mret tt.

(** [detach_pid(pid, signal)] *)
Definition detach_pid (fs : procfs) (pid : Z) (signal : Z) : M unit :=
  attaches_set pid false ;;
  call (PtraceDetach pid signal) ;;
  (* Detach all child threads too *)
  for_each (task_dir fs pid) (detach_thread fs pid).

(** The threads [detach_pid] cannot detach on the spot: they get a
    [detaches] entry and a [SIGSTOP]. *)
Definition stop_requested (fs : procfs) (pid tid : Z) : bool :=
  bool_decide (tid ≠ pid) && negb (waitable fs tid).

(** What [detach_pid] asks of the kernel for one task-directory entry. *)
Definition thread_calls (fs : procfs) (pid tid : Z) : list syscall :=
  if bool_decide (tid ≠ pid) then
    WaitPid tid true ::
      (if waitable fs tid then [PtraceDetach tid 0] else [TgKill pid tid SIGSTOP])
  else [].

(** [detaches] after the walk over the task directory. *)
Definition mark_stops (fs : procfs) (pid : Z) (tids : list Z) (d : Z) : Z :=
  foldl (fun d tid => if stop_requested fs pid tid then Z.setbit d tid else d) d tids.

(** The loop over [zygote_map] in [check_pid]: [false] when some registered
    zygote has the inode and device of [st]. *)
Definition mnt_ns_separated (zm : gmap Z stat) (st : stat) : bool :=
  negb (existsb (fun zit => (st_ino zit.2 =? st_ino st) && (st_dev zit.2 =? st_dev st))
                (map_to_list zm)).

(** What [check_pid] decides for a PID. *)
Inductive verdict : Type :=
| Target        (* detach_pid(pid, SIGSTOP) and hide_daemon *)
| NotTarget.    (* fall through to detach_pid(pid) *)

(** The loop over [it->second]: the first entry equal to [cmdline] decides. *)
Fixpoint match_procs (procs : list text) (cmd : text) (separated : bool) : verdict :=
  match procs with
  | [] => NotTarget
  | s :: rest =>
      if bool_decide (s = cmd) then
        (* Double check whether ns is separated *)
        if separated then Target else NotTarget   (* [break] *)
      else match_procs rest cmd separated
  end.

(** The [struct stat st] of [check_pid] after [lstat(path, &st)]. *)
Definition st_after_lstat (fs : procfs) (pid : Z) : stat :=
  default (stack_stat fs) (lstat_proc fs pid).

(** The same variable after [read_ns(pid, &st)], whose result is dropped. *)
Definition st_after_read_ns (fs : procfs) (pid : Z) : stat :=
  (read_ns fs pid (st_after_lstat fs pid)).2.

Definition classify (fs : procfs) (pid : Z) (cmd : text) (s : state) : verdict :=
  let uid := st_uid (st_after_lstat fs pid) mod 100000 in
  match uid_proc_map s !! uid with
  | Some procs =>
      match_procs procs cmd (mnt_ns_separated (zygote_map s) (st_after_read_ns fs pid))
  | None => NotTarget
  end.

Definition check_pid (fs : procfs) (pid : Z) : M bool :=
  match cmdline fs pid with
  | None => mret true                      (* Process killed unexpectedly, ignore *)
  | Some cmd =>
      if strncmp_eq cmd (str "zygote") 6 then mret false
      else
        s ← get_state;
        match classify fs pid cmd s with
        | Target =>
            detach_pid fs pid SIGSTOP ;;
            call (ForkHideDaemon pid) ;;
            mret true
        | NotTarget =>
            detach_pid fs pid 0 ;;
            mret true
        end
  end.

(** [new_zygote(pid)] *)
Definition new_zygote (fs : procfs) (pid : Z) : M unit :=
  let (rc, st) := read_ns fs pid (stack_stat fs) in
  if negb (rc =? 0) then mret tt
  else
    s ← get_state;
    match zygote_map s !! pid with
    | Some _ =>
        (* Update namespace info *)
        set_zygote_map (<[pid := st]> (zygote_map s))
    | None =>
        set_zygote_map (<[pid := st]> (zygote_map s)) ;;
        call (PtraceAttach pid) ;;
        call (WaitPid pid false) ;;
        call (PtraceSetOptions pid
                (Z.lor (Z.lor PTRACE_O_TRACEFORK PTRACE_O_TRACEVFORK) PTRACE_O_TRACEEXIT)) ;;
        call (PtraceCont pid 0)
    end.

(** One return of [waitpid(-1, &status, __WALL | __WNOTHREAD)], with the
    event message the kernel holds for it and the /proc view at that time. *)
Record wake := mkWake {
  w_pid : Z;
  w_status : Z;
  w_msg : Z;
  w_fs : procfs
}.

(** The [RunFinally] body once [detach] is set. *)
Definition detach_task (pid : Z) : M unit :=
  (* Non of our business now *)
  attaches_set pid false ;;
  detaches_set pid false ;;
  call (PtraceDetach pid 0).

(** One iteration of the [for (;;)] loop of [proc_monitor]. *)
Definition proc_monitor_step (w : wake) : M unit :=
  let pid := w_pid w in
  let status := w_status w in
  if pid <? 0 then mret tt
  else
    skip ← (if negb (WIFSTOPPED status) then mret true else detaches_get pid);
    if skip : bool then detach_task pid
    else if (WSTOPSIG status =? SIGTRAP) && negb (WEVENT status =? 0) then
      call (PtraceGetEventMsg pid) ;;
      s ← get_state;
      if bool_decide (is_Some (zygote_map s !! pid)) then
        (* Zygote event *)
        if (WEVENT status =? PTRACE_EVENT_FORK) || (WEVENT status =? PTRACE_EVENT_VFORK) then
          attaches_set (w_msg w) true ;;
          call (PtraceCont pid 0)
        else
          set_zygote_map (delete pid (zygote_map s)) ;;
          detach_task pid
      else
        if WEVENT status =? PTRACE_EVENT_CLONE then
          a ← attaches_get pid;
          if a : bool then
            done ← check_pid (w_fs w) pid;
            if done : bool then mret tt else call (PtraceCont pid 0)
          else call (PtraceCont pid 0)
        else detach_task pid
    else if WSTOPSIG status =? SIGSTOP then
      call (PtraceSetOptions pid
              (Z.lor (Z.lor PTRACE_O_TRACECLONE PTRACE_O_TRACEEXEC) PTRACE_O_TRACEEXIT)) ;;
      call (PtraceCont pid 0)
    else
      (* Not caused by us, resend signal *)
      call (PtraceCont pid (WSTOPSIG status)).

(** The loop over a finite run of wake-ups. *)
Fixpoint proc_monitor (ws : list wake) (s : state) : result state :=
  match ws with
  | [] => Ok s
  | w :: rest =>
      match proc_monitor_step w s with
      | Ok (_, s') => proc_monitor rest s'
      | Fault => Fault
      | Timeout => Timeout
      end
  end.

Import Parser.

(** ** Vocabulary for the statements *)

(** The requests made between two states of the monitor. *)
Definition new_calls (s s' : state) : list syscall :=
  drop (length (calls s)) (calls s').

(** The wait status of a ptrace-stop: signal [sig] and, for event stops,
    the event code in the upper half. *)
Definition stop_status (sig event : Z) : Z :=
  Z.lor (Z.lor (Z.shiftl event 16) (Z.shiftl sig 8)) 127.

(** The wake-up is a FORK or VFORK event stop of a registered zygote that
    gets past the first test of the loop. *)
Definition is_zygote_fork (w : wake) (s : state) : bool :=
  Bitset.in_range (w_pid w) && WIFSTOPPED (w_status w) &&
  negb (Z.testbit (detaches s) (w_pid w)) &&
  (WSTOPSIG (w_status w) =? SIGTRAP) &&
  ((WEVENT (w_status w) =? PTRACE_EVENT_FORK) ||
   (WEVENT (w_status w) =? PTRACE_EVENT_VFORK)) &&
  bool_decide (is_Some (zygote_map s !! w_pid w)).

(** The wake-up is a CLONE event stop of a PID that is no zygote and is in
    [attaches]: the loop calls [check_pid]. *)
Definition is_classified (w : wake) (s : state) : bool :=
  Bitset.in_range (w_pid w) && WIFSTOPPED (w_status w) &&
  negb (Z.testbit (detaches s) (w_pid w)) &&
  (WSTOPSIG (w_status w) =? SIGTRAP) &&
  (WEVENT (w_status w) =? PTRACE_EVENT_CLONE) &&
  bool_decide (zygote_map s !! w_pid w = None) &&
  Z.testbit (attaches s) (w_pid w).

(** The requests of a first registration in [new_zygote]. *)
Definition attach_calls (pid : Z) : list syscall :=
  [PtraceAttach pid; WaitPid pid false;
   PtraceSetOptions pid
     (Z.lor (Z.lor PTRACE_O_TRACEFORK PTRACE_O_TRACEVFORK) PTRACE_O_TRACEEXIT);
   PtraceCont pid 0].

(** A /proc in which only the mount-namespace link answers, with [o]. *)
Definition observed_ns (o : option stat) : procfs :=
  mkProcfs (fun _ => None) (fun _ => None) (fun _ => o) (fun _ => [])
           (fun _ => false) (mkStat 0 0 0).

(** The later of two observations that is not missing. *)
Definition latest (o1 o2 : option stat) : option stat :=
  match o2 with
  | Some _ => o2
  | None => o1
  end.


(** The pass reaches [detach_pid], which walks /proc/pid/task: the loop
    calls [check_pid], the command line can be read and does not start
    with zygote. *)
Definition walks_task_dir (w : wake) (s : state) : bool :=
  is_classified w s &&
  match cmdline (w_fs w) (w_pid w) with
  | Some cmd => negb (strncmp_eq cmd (str "zygote") 6)
  | None => false
  end.

(** What the kernel has to grant for a wake-up: a fork event names a child
    that is not waiting in [detaches], and, in a pass in which [detach_pid]
    walks the task directory, that directory lists no thread to be stopped
    that is in [attaches].  Nothing is asked of any other wake-up. *)
Definition kernel_consistent (w : wake) (s : state) : bool :=
  (if is_zygote_fork w s then negb (Z.testbit (detaches s) (w_msg w)) else true) &&
  (if walks_task_dir w s
   then forallb (fun tid => if stop_requested (w_fs w) (w_pid w) tid
                            then negb (Z.testbit (attaches s) tid) else true)
                (task_dir (w_fs w) (w_pid w))
   else true).

Fixpoint consistent_run (ws : list wake) (s : state) : bool :=
  match ws with
  | [] => true
  | w :: rest =>
      kernel_consistent w s &&
      match proc_monitor_step w s with
      | Ok (_, s') => consistent_run rest s'
      | _ => true
      end
  end.


(** ** Scenarios

    The literal inputs of the specification's scenarios, and some records
    of the package database. *)
Module Scenario.

(** Rule set [{('com.x', 'com.x')}]. *)
Definition rules : hide_set_t := [(str "com.x", str "com.x")].

(** [<package name='com.x' userId='10123'>] *)
Definition record_com_x : text :=
  package_line [(str "name", str "com.x"); (str "userId", str "10123")].

(** [<package name='com.x>]: the value of [name] is never closed. *)
Definition record_unclosed : text :=
  str "<package name=" ++ [DQUOTE] ++ str "com.x>".

(** [<package name>]: no [=] at all. *)
Definition record_no_equals : text := str "<package name>".

(** [<package name='com.x' name='com.y' userId='10123'>] *)
Definition record_two_names : list (text * text) :=
  [(str "name", str "com.x"); (str "name", str "com.y");
   (str "userId", str "10123")].

(** [<package name='com.y' userId='10123'>] *)
Definition record_other_pkg : list (text * text) :=
  [(str "name", str "com.y"); (str "userId", str "10123")].

(** [<package userId='10123' name='com.x'>] *)
Definition record_uid_first : list (text * text) :=
  [(str "userId", str "10123"); (str "name", str "com.x")].

(** A rule whose package name is empty. *)
Definition rules_empty_pkg : hide_set_t := [([], str "p")].

(** Spawner 100 with mount namespace (5,7); the rule of scenario 1 joined
    with the package database. *)
Definition spawner_ns : stat := mkStat 5 7 0.
Definition registry : gmap Z stat := {[ 100 := spawner_ns ]}.
Definition uid_map : gmap Z (list text) := {[ 10123 := [str "com.x"] ]}.

(** The monitor after discovery, and with [pid] in [attaches]. *)
Definition idle : state := mkState registry uid_map 0 0 [].
Definition candidate (pid : Z) : state :=
  mkState registry uid_map (Z.setbit 0 pid) 0 [].

(** A /proc in which nothing can be read. *)
Definition no_proc : procfs :=
  mkProcfs (fun _ => None) (fun _ => None) (fun _ => None) (fun _ => [])
           (fun _ => false) (mkStat 0 0 0).

(** A /proc with one process: its command line, owner, mount namespace,
    threads, and which of the threads are waitable. *)
Definition one_process (pid : Z) (cmd : text) (uid : Z) (ns : stat)
    (tids ready : list Z) : procfs :=
  mkProcfs (fun p => if p =? pid then Some cmd else None)
           (fun p => if p =? pid then Some (mkStat 4 (65536 + pid) uid) else None)
           (fun p => if p =? pid then Some ns else None)
           (fun p => if p =? pid then tids else [])
           (fun t => bool_decide (t ∈ ready))
           (mkStat 0 0 0).

(** Scenario 1: child 101, command line com.x, uid 1010123, namespace (5,9). *)
Definition fs_baseline : procfs :=
  one_process 101 (str "com.x") 1010123 (mkStat 5 9 0) [101] [].

(** Scenario 2: the same child still in namespace (5,7). *)
Definition fs_same_ns : procfs :=
  one_process 101 (str "com.x") 1010123 (mkStat 5 7 0) [101] [].

(** Scenario 1 again, but [stat] on /proc/101/ns/mnt fails; [lstat] on
    /proc/101 has given device 4 and inode 65637. *)
Definition fs_unread_ns : procfs :=
  mkProcfs (fun p => if p =? 101 then Some (str "com.x") else None)
           (fun p => if p =? 101 then Some (mkStat 4 65637 1010123) else None)
           (fun _ => None)
           (fun p => if p =? 101 then [101] else [])
           (fun _ => false)
           (mkStat 0 0 0).

(** Scenario 3: child 102 with command line zygote64. *)
Definition fs_zygote_child : procfs :=
  one_process 102 (str "zygote64") 0 (mkStat 5 7 0) [102] [].

(** Scenario 6: target 101 with threads 101, 151, 152; 151 is waitable. *)
Definition fs_fan_out : procfs :=
  one_process 101 (str "com.x") 1010123 (mkStat 5 9 0) [101; 151; 152] [151].

(** Wake-ups: a fork event of a spawner, the first stop of a child, a
    clone event. *)
Definition wake_fork (zygote child : Z) : wake :=
  mkWake zygote (stop_status SIGTRAP PTRACE_EVENT_FORK) child no_proc.
Definition wake_sigstop (pid : Z) : wake :=
  mkWake pid (stop_status SIGSTOP 0) 0 no_proc.
Definition wake_clone (pid thread : Z) (fs : procfs) : wake :=
  mkWake pid (stop_status SIGTRAP PTRACE_EVENT_CLONE) thread fs.

(** Scenario 6 up to the detach of thread 152 under the [detaches] rule. *)
Definition run_fan_out : list wake :=
  [wake_fork 100 101; wake_sigstop 101; wake_clone 101 151 fs_fan_out;
   wake_sigstop 152].


End Scenario.

(** * The rest of the monitor thread

    The functions of the file the statements above do not need, and the
    vocabulary for what is proved about them further down. *)

(** ** More on the package database *)

(** The lines [parse_packages_xml] looks into. *)
Definition is_package_line (s : text) : bool := str_starts s (str "<package ").

(** [p] is the process name of some rule. *)
Definition rule_proc (hs : hide_set_t) (p : text) : Prop :=
  exists pkg, In (pkg, p) hs.

(** The map after the records [recs], each a list of attributes, have been
    read one after the other into [m]. *)
Definition read_records (parse_int : text -> Z) (hs : hide_set_t)
    (recs : list (list (text * text))) (m : gmap Z (list text))
  : gmap Z (list text) :=
  foldl (fun acc kvs => run_attrs parse_int hs kvs [] acc) m recs.

(** The process names of the rules for package [pkg], in rule order. *)
Definition procs_of (hs : hide_set_t) (pkg : text) : list text :=
  map snd (List.filter (fun h => bool_decide (h.1 = pkg)) hs).

(** [m'] is [m] with process names of rules appended to some of its lists:
    nothing is removed, reordered or left empty. *)
Definition grows_by_rules (hs : hide_set_t) (m m' : gmap Z (list text)) : Prop :=
  forall uid, exists extra,
    Forall (rule_proc hs) extra /\
    m' !! uid = match extra with
                | [] => m !! uid
                | _ :: _ => Some (default [] (m !! uid) ++ extra)
                end.

(** The attribute-by-attribute reading that also tells whether the record
    was left early ([inl]) or read to its end ([inr], with the package
    selected so far). *)
Fixpoint scan_attrs (parse_int : text -> Z) (hs : hide_set_t)
    (kvs : list (text * text)) (pkg : text) (m : gmap Z (list text))
  : gmap Z (list text) + (text * gmap Z (list text)) :=
  match kvs with
  | [] => inr (pkg, m)
  | kv :: rest =>
      match on_attribute parse_int hs kv.1 kv.2 pkg m with
      | None => inl m
      | Some (pkg', m') => scan_attrs parse_int hs rest pkg' m'
      end
  end.

(** Attributes each followed by a blank. *)
Definition spaced (kvs : list (text * text)) : text :=
  flat_map (fun kv => attribute kv ++ [BLANK]) kvs.

(** ** Discovery of zygotes *)

(** What the crawl over /proc sees: the numeric entries [crawl_procfs]
    hands out, and for /proc/pid/stat either that it cannot be opened or
    the value [fscanf] leaves in [ppid]. *)
Record proctable := mkProctable {
  proc_pids : list Z;
  stat_ppid : Z -> option Z
}.

(** [parse_ppid(pid)] *)
Definition parse_ppid (pt : proctable) (pid : Z) : Z :=
  match stat_ppid pt pid with
  | None => -1
  | Some ppid => ppid
  end.

(** The callback of [check_zygote] for one entry of /proc. *)
Definition check_zygote_entry (pt : proctable) (fs : procfs) (pid : Z) : M unit :=
  match cmdline fs pid with
  | Some buf =>
      if strncmp_eq buf (str "zygote") 6 && (parse_ppid pt pid =? 1)
      then new_zygote fs pid
      else mret tt
  | None => mret tt
  end.

(** [check_zygote()] *)
Definition check_zygote (pt : proctable) (fs : procfs) : M unit :=
  for_each (proc_pids pt) (check_zygote_entry pt fs).

(** The mount namespace [check_zygote] registers for [pid], if it does. *)
Definition zygote_ns (pt : proctable) (fs : procfs) (pid : Z) : option stat :=
  match cmdline fs pid with
  | Some buf =>
      if strncmp_eq buf (str "zygote") 6 && (parse_ppid pt pid =? 1)
      then stat_mnt_ns fs pid
      else None
  | None => None
  end.

(** ** Async signal handlers *)

Definition IN_CLOSE_WRITE : Z := 8.

(** What the handler finds: the result of [poll], the mask and name of the
    event [read] delivers, the lines of packages.xml and /proc. *)
Record inotify_input := mkInotify {
  poll_ret : Z;
  event_mask : Z;
  event_name : text;
  packages_xml : list text;
  seen_procs : proctable;
  seen_fs : procfs
}.

(** [update_uid_map()] on the state of the thread. *)
Definition update_uid_map_st (parse_int : text -> Z) (hs : hide_set_t)
    (lines : list text) : M unit := fun s =>
  rbind (update_uid_map parse_int hs lines (uid_proc_map s)) (fun m =>
    Ok (tt, mkState (zygote_map s) m (attaches s) (detaches s) (calls s))).

(** The event is a close-after-write of a file named packages.xml. *)
Definition is_packages_event (i : inotify_input) : bool :=
  negb (Z.land (event_mask i) IN_CLOSE_WRITE =? 0) &&
  bool_decide (event_name i = str "packages.xml").

(** [inotify_event(int)] *)
Definition inotify_event (parse_int : text -> Z) (hs : hide_set_t)
    (i : inotify_input) : M unit :=
  if poll_ret i <=? 0 then mret tt    (* Nothing to read *)
  else
    (if is_packages_event i then update_uid_map_st parse_int hs (packages_xml i)
     else mret tt) ;;
    check_zygote (seen_procs i) (seen_fs i).

(** ** The branches of the loop body *)

(** [s] with further requests logged. *)
Definition add_calls (s : state) (l : list syscall) : state :=
  mkState (zygote_map s) (uid_proc_map s) (attaches s) (detaches s) (calls s ++ l).

(** The woken PID gets past [!WIFSTOPPED(status) || detaches[pid]]. *)
Definition passes_first_test (w : wake) (s : state) : bool :=
  Bitset.in_range (w_pid w) && WIFSTOPPED (w_status w) &&
  negb (Z.testbit (detaches s) (w_pid w)).

(** [WSTOPSIG(status) == SIGTRAP && WEVENT(status)] *)
Definition is_event_stop (w : wake) : bool :=
  (WSTOPSIG (w_status w) =? SIGTRAP) && negb (WEVENT (w_status w) =? 0).

(** [case PTRACE_EVENT_FORK: case PTRACE_EVENT_VFORK:] *)
Definition is_fork_event (w : wake) : bool :=
  (WEVENT (w_status w) =? PTRACE_EVENT_FORK) ||
  (WEVENT (w_status w) =? PTRACE_EVENT_VFORK).

(** The options a child is armed with at its first stop. *)
Definition child_options : Z :=
  Z.lor (Z.lor PTRACE_O_TRACECLONE PTRACE_O_TRACEEXEC) PTRACE_O_TRACEEXIT.

(** Every way one pass of the loop body can end without a fault, with the
    state it leaves. *)
Inductive step_case (w : wake) (s : state) : state -> Prop :=
| case_wait_failed :
    w_pid w < 0 ->
    step_case w s s
| case_detach_now :
    Bitset.in_range (w_pid w) = true ->
    WIFSTOPPED (w_status w) = false \/ Z.testbit (detaches s) (w_pid w) = true ->
    step_case w s
      (mkState (zygote_map s) (uid_proc_map s)
         (Z.clearbit (attaches s) (w_pid w)) (Z.clearbit (detaches s) (w_pid w))
         (calls s ++ [PtraceDetach (w_pid w) 0]))
| case_zygote_fork :
    is_zygote_fork w s = true ->
    Bitset.in_range (w_msg w) = true ->
    step_case w s
      (mkState (zygote_map s) (uid_proc_map s)
         (Z.setbit (attaches s) (w_msg w)) (detaches s)
         (calls s ++ [PtraceGetEventMsg (w_pid w); PtraceCont (w_pid w) 0]))
| case_zygote_gone :
    passes_first_test w s = true -> is_event_stop w = true ->
    is_Some (zygote_map s !! w_pid w) -> is_fork_event w = false ->
    step_case w s
      (mkState (delete (w_pid w) (zygote_map s)) (uid_proc_map s)
         (Z.clearbit (attaches s) (w_pid w)) (Z.clearbit (detaches s) (w_pid w))
         (calls s ++ [PtraceGetEventMsg (w_pid w); PtraceDetach (w_pid w) 0]))
| case_clone_unattached :
    passes_first_test w s = true -> is_event_stop w = true ->
    zygote_map s !! w_pid w = None ->
    WEVENT (w_status w) = PTRACE_EVENT_CLONE ->
    Z.testbit (attaches s) (w_pid w) = false ->
    step_case w s
      (add_calls s [PtraceGetEventMsg (w_pid w); PtraceCont (w_pid w) 0])
| case_vanished :
    is_classified w s = true ->
    cmdline (w_fs w) (w_pid w) = None ->
    step_case w s (add_calls s [PtraceGetEventMsg (w_pid w)])
| case_still_zygote cmd :
    is_classified w s = true ->
    cmdline (w_fs w) (w_pid w) = Some cmd ->
    strncmp_eq cmd (str "zygote") 6 = true ->
    step_case w s
      (add_calls s [PtraceGetEventMsg (w_pid w); PtraceCont (w_pid w) 0])
| case_target cmd :
    is_classified w s = true ->
    cmdline (w_fs w) (w_pid w) = Some cmd ->
    strncmp_eq cmd (str "zygote") 6 = false ->
    classify (w_fs w) (w_pid w) cmd s = Target ->
    Forall (fun tid => stop_requested (w_fs w) (w_pid w) tid = true ->
                       Bitset.in_range tid = true)
           (task_dir (w_fs w) (w_pid w)) ->
    step_case w s
      (mkState (zygote_map s) (uid_proc_map s)
         (Z.clearbit (attaches s) (w_pid w))
         (mark_stops (w_fs w) (w_pid w) (task_dir (w_fs w) (w_pid w)) (detaches s))
         (calls s ++ [PtraceGetEventMsg (w_pid w); PtraceDetach (w_pid w) SIGSTOP]
            ++ flat_map (thread_calls (w_fs w) (w_pid w)) (task_dir (w_fs w) (w_pid w))
            ++ [ForkHideDaemon (w_pid w)]))
| case_not_target cmd :
    is_classified w s = true ->
    cmdline (w_fs w) (w_pid w) = Some cmd ->
    strncmp_eq cmd (str "zygote") 6 = false ->
    classify (w_fs w) (w_pid w) cmd s = NotTarget ->
    Forall (fun tid => stop_requested (w_fs w) (w_pid w) tid = true ->
                       Bitset.in_range tid = true)
           (task_dir (w_fs w) (w_pid w)) ->
    step_case w s
      (mkState (zygote_map s) (uid_proc_map s)
         (Z.clearbit (attaches s) (w_pid w))
         (mark_stops (w_fs w) (w_pid w) (task_dir (w_fs w) (w_pid w)) (detaches s))
         (calls s ++ [PtraceGetEventMsg (w_pid w); PtraceDetach (w_pid w) 0]
            ++ flat_map (thread_calls (w_fs w) (w_pid w)) (task_dir (w_fs w) (w_pid w))))
| case_other_event :
    passes_first_test w s = true -> is_event_stop w = true ->
    zygote_map s !! w_pid w = None ->
    WEVENT (w_status w) <> PTRACE_EVENT_CLONE ->
    step_case w s
      (mkState (zygote_map s) (uid_proc_map s)
         (Z.clearbit (attaches s) (w_pid w)) (Z.clearbit (detaches s) (w_pid w))
         (calls s ++ [PtraceGetEventMsg (w_pid w); PtraceDetach (w_pid w) 0]))
| case_first_stop :
    passes_first_test w s = true -> is_event_stop w = false ->
    WSTOPSIG (w_status w) = SIGSTOP ->
    step_case w s
      (add_calls s [PtraceSetOptions (w_pid w) child_options; PtraceCont (w_pid w) 0])
| case_signal :
    passes_first_test w s = true -> is_event_stop w = false ->
    WSTOPSIG (w_status w) <> SIGSTOP ->
    step_case w s (add_calls s [PtraceCont (w_pid w) (WSTOPSIG (w_status w))]).

(** The invariant of the registry: whoever is in [zygote_map] has been
    attached to. *)
Definition registered_attached (s : state) : Prop :=
  forall pid, is_Some (zygote_map s !! pid) -> In (PtraceAttach pid) (calls s).

(** ** A device at start-up *)

Module Startup.

(** /proc with init, spawner 100 started by init with command line
    zygote64 in mount namespace (5,7), and an entry 200 whose stat file
    cannot be opened. *)
Definition procs : proctable :=
  mkProctable [1; 100; 200]
    (fun p => if p =? 100 then Some 1 else if p =? 1 then Some 0 else None).
Definition fs : procfs :=
  Scenario.one_process 100 (str "zygote64") 0 Scenario.spawner_ns [100] [].

(** The monitor before discovery. *)
Definition fresh : state := mkState ∅ ∅ 0 0 [].

(** packages.xml has been written and closed. *)
Definition packages_written : inotify_input :=
  mkInotify 1 IN_CLOSE_WRITE (str "packages.xml") [Scenario.record_com_x]
    procs fs.

End Startup.

(** * Facts about the parser *)

Lemma Ok_inj {A} (a b : A) : Ok a = Ok b -> a = b.
Proof.
  intros H. exact (f_equal (fun r => match r with Ok x => x | _ => a end) H).
Qed.

Section ParserFacts.

Local Open Scope nat_scope.

Variable parse_int : text -> Z.
Variable hs : hide_set_t.

(** [strchr] only answers with offsets at or after its start, inside the
    buffer. *)
Lemma strchr_at_found l c i j :
  strchr_at l c i = Found j -> i <= j < i + length l.
Proof.
  revert i; induction l as [|x l IH]; intros i; simpl; [discriminate|].
  repeat case_bool_decide; intros Hs.
  - injection Hs as <-. lia.
  - discriminate.
  - apply IH in Hs. lia.
Qed.

Lemma strchr_found b p c j :
  strchr b p c = Found j -> p <= j < length b.
Proof.
  unfold strchr; intros H. apply strchr_at_found in H.
  rewrite length_drop in H. lia.
Qed.

(** A scan over a stretch free of the wanted byte and of terminators stops
    right behind it. *)
Lemma strchr_at_skip l c r i :
  Forall (fun x => x <> c /\ x <> NUL) l ->
  strchr_at (l ++ c :: r) c i = Found (i + length l).
Proof.
  revert i; induction l as [|x l IH]; intros i Hl; simpl.
  - rewrite bool_decide_eq_true_2 by done. f_equal; lia.
  - inversion Hl as [|? ? [Hc Hn] Hl']; subst.
    rewrite bool_decide_eq_false_2 by done.
    rewrite bool_decide_eq_false_2 by done.
    rewrite IH by done. f_equal; lia.
Qed.

Lemma str_starts_length s pre :
  str_starts s pre = true -> length pre <= length s.
Proof.
  revert s; induction pre as [|p pre IH]; intros [|c s]; simpl; try lia;
    try discriminate.
  intros [_ Hs]%andb_true_iff. apply IH in Hs. lia.
Qed.

(** The loop always comes to an end on the fuel [parse_packages_xml] gives
    it: every round moves [tok] forward. *)
Lemma attr_loop_terminates fuel b tok pkg m :
  tok <= length b + 1 ->
  length b + 2 <= fuel + tok ->
  attr_loop parse_int fuel hs b tok pkg m <> Timeout.
Proof.
  revert b tok pkg m; induction fuel as [|fuel IH]; intros b tok pkg m Htok Hlen.
  - lia.
  - simpl. destruct (b !! tok) as [c|] eqn:Hc; simpl; [|done].
    case_bool_decide; [done|].
    destruct (strchr b tok EQUALS) as [eql| |] eqn:Heq; simpl; try done.
    destruct (strchr (<[eql:=NUL]> b) (eql + 2) DQUOTE) as [q| |] eqn:Hq;
      simpl; try done.
    destruct (on_attribute parse_int hs _ _ pkg m) as [[pkg' m']|];
      simpl; [|done].
    apply strchr_found in Heq, Hq.
    rewrite !length_insert in *.
    apply IH; rewrite !length_insert; lia.
Qed.

Theorem parse_packages_xml_terminates s m :
  parse_packages_xml parse_int hs s m <> Timeout.
Proof.
  unfold parse_packages_xml.
  destruct (str_starts s (str "<package ")) eqn:Hpre; simpl; [|done].
  apply str_starts_length in Hpre. simpl in Hpre.
  apply attr_loop_terminates; rewrite length_insert, length_app; simpl; lia.
Qed.

Lemma file_readline_terminates lines m :
  file_readline parse_int hs lines m <> Timeout.
Proof.
  revert m; induction lines as [|l rest IH]; intros m; simpl; [done|].
  pose proof (parse_packages_xml_terminates l m) as Hl.
  destruct (parse_packages_xml parse_int hs l m); simpl; [apply IH|done|done].
Qed.

Lemma attr_loop_round fuel b tok k x v y r pkg m :
  drop tok b = k ++ EQUALS :: x :: v ++ DQUOTE :: y :: r ->
  Forall (fun c => c <> EQUALS /\ c <> NUL) k ->
  Forall (fun c => c <> DQUOTE /\ c <> NUL) v ->
  exists b' tok',
    drop tok' b' = r /\
    attr_loop parse_int (S fuel) hs b tok pkg m =
      match on_attribute parse_int hs k v pkg m with
      | None => Ok m
      | Some (pkg', m') => attr_loop parse_int fuel hs b' tok' pkg' m'
      end.
Proof.
  intros Hd Hk Hv.
  set (eql := tok + length k).
  set (q := eql + 2 + length v).
  exists (<[q:=NUL]> (<[eql:=NUL]> b)), (q + 2).
  assert (Hfrom : forall n, drop (tok + n) b = drop n (drop tok b))
    by (intros n; rewrite drop_drop; done).
  split.
  - rewrite !drop_insert_lt by (unfold q, eql; lia).
    replace (q + 2) with (tok + (length k + (2 + (length v + 2))))
      by (unfold q, eql; lia).
    rewrite Hfrom, Hd, drop_app_add. simpl. rewrite ?drop_0.
    rewrite drop_app_add. done.
  - cbn [attr_loop].
    assert (Hhead : exists c, b !! tok = Some c /\ c <> NUL).
    { pose proof (lookup_drop b tok 0) as Hl. rewrite Nat.add_0_r in Hl.
      rewrite <- Hl, Hd. destruct Hk as [|c k' [_ Hc] _]; simpl; eauto. }
    destruct Hhead as (c & -> & Hc).
    rewrite bool_decide_eq_false_2 by done.
    assert (Heq : strchr b tok EQUALS = Found eql).
    { unfold strchr. rewrite Hd. by apply strchr_at_skip. }
    rewrite Heq.
    assert (Hkey : view (<[eql:=NUL]> b) tok (eql - tok) = k).
    { unfold view. rewrite drop_insert_ge by (unfold eql; lia).
      replace (eql - tok) with (length k) by (unfold eql; lia).
      rewrite take_insert_ge by lia. rewrite Hd. apply take_app_length. }
    rewrite Hkey.
    assert (Hq : strchr (<[eql:=NUL]> b) (eql + 2) DQUOTE = Found q).
    { unfold strchr. rewrite drop_insert_lt by lia.
      replace (eql + 2) with (tok + (length k + 2)) by (unfold eql; lia).
      rewrite Hfrom, Hd, drop_app_add. simpl. rewrite ?drop_0.
      rewrite strchr_at_skip by done. f_equal. unfold q, eql. lia. }
    rewrite Hq.
    assert (Hval : view (<[q:=NUL]> (<[eql:=NUL]> b)) (eql + 2) (q - (eql + 2)) = v).
    { unfold view. rewrite drop_insert_ge by (unfold q; lia).
      replace (q - (eql + 2)) with (length v) by (unfold q; lia).
      rewrite take_insert_ge by lia.
      rewrite drop_insert_lt by lia.
      replace (eql + 2) with (tok + (length k + 2)) by (unfold eql; lia).
      rewrite Hfrom, Hd, drop_app_add. simpl. rewrite ?drop_0. apply take_app_length. }
    rewrite Hval. done.
Qed.

Theorem attr_loop_laid_out kvs :
  forall fuel b tok pkg m junk,
    Forall wf_attr kvs ->
    drop tok b = laid_out kvs ++ junk ->
    length kvs < fuel ->
    attr_loop parse_int fuel hs b tok pkg m = Ok (run_attrs parse_int hs kvs pkg m).
Proof.
  induction kvs as [|[k v] rest IH]; intros fuel b tok pkg m junk Hwf Hd Hfuel.
  - destruct fuel as [|fuel]; [lia|]. cbn [attr_loop].
    pose proof (lookup_drop b tok 0) as Hl. rewrite Nat.add_0_r, Hd in Hl.
    simpl in Hl. rewrite <- Hl. by rewrite bool_decide_eq_true_2.
  - destruct fuel as [|fuel]; [simpl in Hfuel; lia|].
    inversion Hwf as [|? ? [Hk Hv] Hrest]; subst. simpl in Hk, Hv.
    assert (Hshape : laid_out ((k, v) :: rest) ++ junk =
                     k ++ EQUALS :: DQUOTE :: v ++ DQUOTE ::
                       match rest with [] => NUL | _ => BLANK end ::
                       (laid_out rest ++ junk)).
    { cbn [laid_out]. unfold attribute. cbn [fst snd].
      repeat (rewrite <- app_assoc; simpl). done. }
    rewrite Hshape in Hd.
    destruct (attr_loop_round fuel b tok k DQUOTE v _ _ pkg m Hd Hk Hv)
      as (b' & tok' & Hd' & ->).
    cbn [run_attrs fst snd].
    destruct (on_attribute parse_int hs k v pkg m) as [[pkg' m']|]; [|done].
    apply (IH fuel b' tok' pkg' m' junk); [done|done|simpl in Hfuel; lia].
Qed.

Lemma str_starts_app pre r : str_starts (pre ++ r) pre = true.
Proof.
  induction pre as [|p pre IH]; simpl; [done|].
  by rewrite bool_decide_eq_true_2, IH.
Qed.

Lemma laid_out_attributes kvs :
  attributes kvs ++ [NUL; NUL] =
  laid_out kvs ++ match kvs with [] => [NUL] | _ => [] end.
Proof.
  induction kvs as [|kv [|kv' rest] IH]; [done| |].
  - simpl. by rewrite <- !app_assoc.
  - change (attributes (kv :: kv' :: rest))
      with (attribute kv ++ [BLANK] ++ attributes (kv' :: rest)).
    change (laid_out (kv :: kv' :: rest))
      with (attribute kv ++ [BLANK] ++ laid_out (kv' :: rest)).
    rewrite <- !app_assoc, IH. done.
Qed.

Lemma attributes_length kvs : length kvs <= length (attributes kvs).
Proof.
  induction kvs as [|kv [|kv' rest] IH]; [done| |].
  - simpl. unfold attribute. rewrite !length_app. simpl. lia.
  - change (attributes (kv :: kv' :: rest))
      with (attribute kv ++ [BLANK] ++ attributes (kv' :: rest)).
    rewrite !length_app. simpl in *. lia.
Qed.

(** On a line built by [package_line] from well-formed attributes the
    byte-level parser returns what the attribute-by-attribute reading
    gives. *)
Theorem parse_package_line kvs m :
  Forall wf_attr kvs ->
  parse_packages_xml parse_int hs (package_line kvs) m = Ok (run_attrs parse_int hs kvs [] m).
Proof.
  intros Hwf. unfold parse_packages_xml, package_line.
  rewrite str_starts_app. cbn [negb].
  pose proof (attributes_length kvs) as Hlen.
  set (P := str "<package ").
  assert (HP : length P = 9) by done.
  apply (attr_loop_laid_out kvs _ _ _ _ _
           (match kvs with [] => [NUL] | _ => [] end) Hwf).
  - rewrite <- laid_out_attributes.
    replace ((P ++ attributes kvs ++ str ">") ++ [NUL])
      with ((P ++ attributes kvs) ++ str ">" ++ [NUL])
      by (by rewrite <- !app_assoc).
    replace (length (P ++ attributes kvs ++ str ">") - 1)
      with (length (P ++ attributes kvs) + 0)
      by (rewrite !length_app; simpl; lia).
    rewrite insert_app_r. simpl. by rewrite drop_0.
  - rewrite !length_app, HP. simpl. lia.
Qed.

(** *** Consequences for the order of attributes *)

Lemma on_attribute_other k v pkg m :
  k <> str "name" -> ~ is_uid_key k ->
  on_attribute parse_int hs k v pkg m = Some (pkg, m).
Proof.
  intros Hn Hu. unfold on_attribute.
  rewrite bool_decide_eq_false_2 by done.
  rewrite !bool_decide_eq_false_2 by (intros ?; apply Hu; unfold is_uid_key; auto).
  done.
Qed.

Lemma on_attribute_uid k v pkg m :
  is_uid_key k ->
  on_attribute parse_int hs k v pkg m =
    Some (pkg, add_procs hs pkg (parse_int v) m).
Proof.
  intros Hu. unfold on_attribute.
  rewrite bool_decide_eq_false_2 by (destruct Hu as [-> | ->]; by vm_compute).
  destruct Hu as [-> | ->].
  - by rewrite bool_decide_eq_true_2.
  - rewrite (bool_decide_eq_true_2 (_ = str "sharedUserId")) by done.
    by rewrite orb_true_r.
Qed.

Lemma on_attribute_name v pkg m :
  on_attribute parse_int hs (str "name") v pkg m =
    if bool_decide (match_pkg hs v pkg = []) then None
    else Some (match_pkg hs v pkg, m).
Proof. unfold on_attribute. by rewrite bool_decide_eq_true_2. Qed.

(** A record without [userId] and [sharedUserId] adds nothing. *)
Lemma run_attrs_no_uid kvs pkg m :
  Forall (fun kv => ~ is_uid_key kv.1) kvs -> run_attrs parse_int hs kvs pkg m = m.
Proof.
  revert pkg; induction kvs as [|[k v] rest IH]; intros pkg Hno; [done|].
  inversion Hno as [|? ? Hk Hrest]; subst. cbn [run_attrs fst snd] in *.
  destruct (decide (k = str "name")) as [->|Hn].
  - rewrite on_attribute_name. case_bool_decide; [done|]. by apply IH.
  - rewrite on_attribute_other by done. by apply IH.
Qed.

(** With no package selected, a uid attribute adds nothing unless some rule
    has the empty package name. *)
Lemma add_procs_no_pkg uid m :
  Forall (fun h => h.1 <> []) hs -> add_procs hs [] uid m = m.
Proof.
  unfold add_procs. generalize hs as l, m as m0.
  induction l as [|h l IH]; intros m0 Hl; [done|].
  inversion Hl as [|? ? Hh Hl']; subst. simpl.
  rewrite bool_decide_eq_false_2 by done. by apply IH.
Qed.

Lemma match_pkg_found v pkg :
  match_pkg hs v pkg <> pkg -> exists proc, In (v, proc) hs.
Proof.
  unfold match_pkg.
  destruct (List.find _ hs) as [[p proc]|] eqn:Hf; [|done].
  intros _. apply List.find_some in Hf as [Hin Heq].
  apply bool_decide_eq_true in Heq. simpl in Heq. subst. eauto.
Qed.

Lemma match_pkg_none v pkg :
  Forall (fun h => h.1 <> v) hs -> match_pkg hs v pkg = pkg.
Proof.
  intros Hno. unfold match_pkg.
  destruct (List.find _ hs) as [h|] eqn:Hf; [|done].
  apply List.find_some in Hf as [Hin Heq].
  apply bool_decide_eq_true in Heq.
  rewrite Forall_forall in Hno. apply list_elem_of_In in Hin.
  by apply Hno in Hin.
Qed.

Lemma run_attrs_changes kvs m :
  Forall (fun h => h.1 <> []) hs ->
  run_attrs parse_int hs kvs [] m <> m ->
  exists pre v mid k u post,
    kvs = pre ++ (str "name", v) :: mid ++ (k, u) :: post /\
    is_uid_key k /\ (exists proc, In (v, proc) hs).
Proof.
  intros Hhs. induction kvs as [|[k v] rest IH]; intros Hne; [done|].
  cbn [run_attrs fst snd] in Hne.
  destruct (decide (k = str "name")) as [->|Hn].
  - rewrite on_attribute_name in Hne. case_bool_decide as Hpkg; [done|].
    destruct (decide (Forall (fun kv => ~ is_uid_key kv.1) rest)) as [Hall|Hex].
    + by rewrite run_attrs_no_uid in Hne.
    + apply not_Forall_Exists in Hex; [|apply _].
      apply Exists_exists in Hex as ([k' u] & Hin & Hu).
      apply list_elem_of_split in Hin as (mid & post & ->).
      exists [], v, mid, k', u, post. split; [done|]. split.
      * simpl in Hu. by apply dec_stable.
      * by apply (match_pkg_found v []).
  - assert (Hstep : on_attribute parse_int hs k v [] m = Some ([], m)).
    { destruct (decide (is_uid_key k)) as [Hu|Hu].
      - by rewrite on_attribute_uid, add_procs_no_pkg.
      - by apply on_attribute_other. }
    rewrite Hstep in Hne.
    destruct (IH Hne) as (pre & v' & mid & k' & u & post & -> & Hu & Hin).
    by exists ((k, v) :: pre), v', mid, k', u, post.
Qed.

(** Attributes other than [name] leave the selected package as it is. *)
Lemma run_attrs_no_name pre pkg m :
  Forall (fun kv => kv.1 <> str "name") pre ->
  exists m', forall rest, run_attrs parse_int hs (pre ++ rest) pkg m = run_attrs parse_int hs rest pkg m'.
Proof.
  revert m; induction pre as [|[k v] pre IH]; intros m Hpre; [by exists m|].
  inversion Hpre as [|? ? Hk Hpre']; subst. simpl in Hk.
  destruct (decide (is_uid_key k)) as [Hu|Hu].
  - destruct (IH (add_procs hs pkg (parse_int v) m) Hpre') as [m' Hm'].
    exists m'. intros rest. cbn [app run_attrs fst snd].
    by rewrite on_attribute_uid.
  - destruct (IH m Hpre') as [m' Hm'].
    exists m'. intros rest. cbn [app run_attrs fst snd].
    by rewrite on_attribute_other.
Qed.

End ParserFacts.

(** * The package database *)

Section PackageDatabase.

Variable parse_int : text -> Z.
Variable hs : hide_set_t.

(** C3 (the code departs from it): a record whose attribute value has no
    closing double quote does not merely end the parsing of that record.
    the search for the closing quote answers [nullptr] and the store [*tok = '\0'] goes
    through it, whatever the rules, the map and the lines that follow; a
    record without [=], which the loop does test for, ends quietly. *)
Theorem C3_unclosed_value_faults (m : gmap Z (list text)) (rest : list text) :
  parse_packages_xml parse_int hs Scenario.record_unclosed m = Fault /\
  file_readline parse_int hs (Scenario.record_unclosed :: rest) m = Fault /\
  update_uid_map parse_int hs (Scenario.record_unclosed :: rest) m = Fault /\
  parse_packages_xml parse_int hs Scenario.record_no_equals m = Ok m.
Proof. repeat split; reflexivity. Qed.

(** C7: refreshing [uid_proc_map] twice in a row from the same package
    database gives exactly what one refresh gives, for every database and
    every rule set, because each refresh clears the map and builds it again
    in full:
    (1) two refreshes in a row are one refresh, a fault included;
    (2) cleared: what the map held before has no part in the result;
    (3) rebuilt in full: when the record lines of the database are
    well-formed records, the result is the map obtained by reading every
    one of them, in file order, into the empty map; lines that are no
    records are passed over;
    (4) the refresh always comes to an end. *)
Theorem C7_refresh_twice_is_refresh_once (f : list text) (m : gmap Z (list text)) :
  rbind (update_uid_map parse_int hs f m) (update_uid_map parse_int hs f) =
    update_uid_map parse_int hs f m /\
  (forall m', update_uid_map parse_int hs f m' = update_uid_map parse_int hs f m) /\
  (forall recs,
     Forall (Forall wf_attr) recs ->
     List.filter is_package_line f = map package_line recs ->
     update_uid_map parse_int hs f m = Ok (read_records parse_int hs recs ∅)) /\
  update_uid_map parse_int hs f m <> Timeout.
Proof.
  refine (conj _ (conj _ (conj _ _))).
  - unfold update_uid_map.
    destruct (file_readline parse_int hs f ∅) as [m1| |] eqn:Hf; simpl; done.
  - done.
  - intros recs Hwf Hrecs. unfold update_uid_map.
    generalize (∅ : gmap Z (list text)) as m0.
    revert recs Hwf Hrecs. induction f as [|l f IH]; intros recs Hwf Hrecs m0.
    + destruct recs; [done|discriminate Hrecs].
    + cbn [List.filter] in Hrecs. cbn [file_readline].
      destruct (is_package_line l) eqn:Hl.
      * destruct recs as [|kvs recs]; [discriminate Hrecs|].
        cbn [map] in Hrecs. injection Hrecs as -> Hrecs.
        inversion Hwf as [|? ? Hkvs Hrest]; subst.
        rewrite (parse_package_line parse_int hs) by done. simpl.
        by apply IH.
      * unfold parse_packages_xml at 1. unfold is_package_line in Hl.
        rewrite Hl. simpl. by apply IH.
  - apply file_readline_terminates.
Qed.

(** C10 as amended: on records of well-formed attributes,
    (1) when no rule has an empty package name, a record adds entries to
    [uid_proc_map] only if a [name] attribute naming a rule's package comes
    before a [userId] or [sharedUserId] attribute; and
    (2) when the first [name] attribute of a record names no rule's package,
    the record is read as if it ended there: whatever follows is skipped. *)
Theorem C10_name_before_uid :
  (forall kvs m m',
     Forall wf_attr kvs ->
     Forall (fun h => h.1 <> []) hs ->
     parse_packages_xml parse_int hs (package_line kvs) m = Ok m' ->
     m' <> m ->
     exists pre v mid k u post,
       kvs = pre ++ (str "name", v) :: mid ++ (k, u) :: post /\
       is_uid_key k /\ (exists proc, In (v, proc) hs)) /\
  (forall pre v rest m,
     Forall wf_attr (pre ++ (str "name", v) :: rest) ->
     Forall (fun kv => kv.1 <> str "name") pre ->
     Forall (fun h => h.1 <> v) hs ->
     parse_packages_xml parse_int hs (package_line (pre ++ (str "name", v) :: rest)) m =
     parse_packages_xml parse_int hs (package_line (pre ++ [(str "name", v)])) m).
Proof.
  split.
  - intros kvs m m' Hwf Hhs Hparse Hne.
    rewrite (parse_package_line parse_int hs) in Hparse by done.
    injection Hparse as <-. exact (run_attrs_changes parse_int hs kvs m Hhs Hne).
  - intros pre v rest m Hwf Hpre Hv.
    assert (Hwf' : Forall wf_attr (pre ++ [(str "name", v)])).
    { apply Forall_app in Hwf as [Hp Hr]. apply Forall_app. split; [done|].
      inversion Hr; subst. by constructor. }
    rewrite !(parse_package_line parse_int hs) by done.
    destruct (run_attrs_no_name parse_int hs pre [] m Hpre) as [m1 Hm1].
    rewrite !Hm1. cbn [run_attrs fst snd].
    rewrite on_attribute_name, match_pkg_none by done.
    by rewrite bool_decide_eq_true_2.
Qed.

End PackageDatabase.

Lemma C7_refresh_twice_is_refresh_once_witness :
  update_uid_map parse_decimal Scenario.rules
    [str "<packages>"; Scenario.record_com_x; str "</packages>"]
    {[ 7 := [str "stale"] ]} =
  Ok Scenario.uid_map.
Proof.
  apply (proj1 (proj2 (proj2 (C7_refresh_twice_is_refresh_once
                                parse_decimal Scenario.rules
                                [str "<packages>"; Scenario.record_com_x;
                                 str "</packages>"]
                                {[ 7 := [str "stale"] ]})))
           [[(str "name", str "com.x"); (str "userId", str "10123")]]).
  - repeat constructor; vm_compute; by intros [=].
  - reflexivity.
Defined.

Lemma C10_name_before_uid_witness :
  parse_packages_xml parse_decimal Scenario.rules
    (package_line ([] ++ (str "name", str "com.y") :: [(str "userId", str "10123")])) ∅ =
  parse_packages_xml parse_decimal Scenario.rules
    (package_line ([] ++ [(str "name", str "com.y")])) ∅.
Proof.
  apply (proj2 (C10_name_before_uid parse_decimal Scenario.rules)).
  - repeat constructor; vm_compute; by intros [=].
  - constructor.
  - repeat constructor. vm_compute. by intros [=].
Defined.

(** C10 as stated fails twice over.  A [name] attribute naming no rule's
    package does not end the record when an earlier [name] attribute has
    selected a package; and a record with no [name] attribute at all adds
    entries when a rule has the empty package name. *)
Lemma C10_counterexample :
  ~ (forall hs pre v rest m,
       Forall wf_attr (pre ++ (str "name", v) :: rest) ->
       Forall (fun h => h.1 <> v) hs ->
       parse_packages_xml parse_decimal hs
         (package_line (pre ++ (str "name", v) :: rest)) m =
       parse_packages_xml parse_decimal hs
         (package_line (pre ++ [(str "name", v)])) m) /\
  ~ (forall hs kvs m m',
       Forall wf_attr kvs ->
       parse_packages_xml parse_decimal hs (package_line kvs) m = Ok m' ->
       m' <> m ->
       exists pre v mid k u post,
         kvs = pre ++ (str "name", v) :: mid ++ (k, u) :: post /\ is_uid_key k).
Proof.
  split.
  - intros Hclaim.
    assert (Hwf : Forall wf_attr ([(str "name", str "com.x")] ++
                    (str "name", str "com.y") :: [(str "userId", str "10123")]))
      by (repeat constructor; vm_compute; by intros [=]).
    assert (Hno : Forall (fun h : text * text => h.1 <> str "com.y") Scenario.rules)
      by (repeat constructor; vm_compute; by intros [=]).
    pose proof (Hclaim Scenario.rules _ _ _ ∅ Hwf Hno) as Heq.
    assert (Hl : parse_packages_xml parse_decimal Scenario.rules
                   (package_line Scenario.record_two_names) ∅
                 = Ok {[ 10123 := [str "com.x"] ]}) by (vm_compute; reflexivity).
    assert (Hr : parse_packages_xml parse_decimal Scenario.rules
                   (package_line [(str "name", str "com.x"); (str "name", str "com.y")]) ∅
                 = Ok ∅) by (vm_compute; reflexivity).
    change (package_line ([(str "name", str "com.x")] ++
              (str "name", str "com.y") :: [(str "userId", str "10123")]))
      with (package_line Scenario.record_two_names) in Heq.
    change (package_line ([(str "name", str "com.x")] ++ [(str "name", str "com.y")]))
      with (package_line [(str "name", str "com.x"); (str "name", str "com.y")])
      in Heq.
    rewrite Hl, Hr in Heq. apply Ok_inj in Heq.
    apply (f_equal (fun mp => mp !! 10123)) in Heq.
    by rewrite lookup_singleton_eq, lookup_empty in Heq.
  - intros Hclaim.
    destruct (Hclaim Scenario.rules_empty_pkg [(str "userId", str "10123")] ∅
                {[ 10123 := [str "p"] ]})
      as (pre & v & mid & k & u & post & Hsplit & _).
    + repeat constructor; vm_compute; by intros [=].
    + vm_compute. reflexivity.
    + intros Hmaps. apply (f_equal (fun mp => mp !! 10123)) in Hmaps.
      by rewrite lookup_singleton_eq, lookup_empty in Hmaps.
    + destruct pre as [|? [|? ?]]; discriminate Hsplit.
Qed.

(** * Facts about the trace loop *)

Section MonitorFacts.

Lemma bind_Ok {A B} (c : M A) (k : A -> M B) s a s' :
  c s = Ok (a, s') -> (c ≫= k) s = k a s'.
Proof. intros H. unfold mbind, M_bind. by rewrite H. Qed.

Lemma bind_Fault {A B} (c : M A) (k : A -> M B) s :
  c s = Fault -> (c ≫= k) s = Fault.
Proof. intros H. unfold mbind, M_bind. by rewrite H. Qed.

Lemma state_eta s :
  mkState (zygote_map s) (uid_proc_map s) (attaches s) (detaches s) (calls s) = s.
Proof. by destruct s. Qed.

(** ** [detach_pid] *)

Lemma detach_thread_spec fs pid tid s :
  (stop_requested fs pid tid = true -> Bitset.in_range tid = true) ->
  detach_thread fs pid tid s =
    Ok (tt, mkState (zygote_map s) (uid_proc_map s) (attaches s)
              (if stop_requested fs pid tid then Z.setbit (detaches s) tid
               else detaches s)
              (calls s ++ thread_calls fs pid tid)).
Proof.
  unfold detach_thread, stop_requested, thread_calls. intros Hr.
  destruct (bool_decide (tid ≠ pid)); simpl in *.
  - destruct (waitable fs tid); simpl in *.
    + unfold mbind, M_bind, call. simpl. by rewrite <- app_assoc.
    + unfold mbind, M_bind, call, detaches_set, rbind, Bitset.set. simpl.
      rewrite Hr by done. simpl. by rewrite <- app_assoc.
  - unfold mret, M_ret. by rewrite app_nil_r, state_eta.
Qed.

Lemma detach_thread_fault fs pid tid s :
  stop_requested fs pid tid = true -> Bitset.in_range tid = false ->
  detach_thread fs pid tid s = Fault.
Proof.
  unfold detach_thread, stop_requested. intros [Hne Hw]%andb_true_iff Hr.
  rewrite Hne. apply negb_true_iff in Hw. rewrite Hw.
  unfold mbind, M_bind, call, detaches_set, rbind, Bitset.set. simpl.
  by rewrite Hr.
Qed.

Lemma detach_thread_cases fs pid tid s :
  detach_thread fs pid tid s = Fault \/
  exists s', detach_thread fs pid tid s = Ok (tt, s').
Proof.
  destruct (stop_requested fs pid tid) eqn:Hs;
    [destruct (Bitset.in_range tid) eqn:Hr|].
  - right. eexists. apply detach_thread_spec. done.
  - left. by apply detach_thread_fault.
  - right. eexists. apply detach_thread_spec. by rewrite Hs.
Qed.

Lemma for_each_detach_thread fs pid tids :
  forall s,
    Forall (fun tid => stop_requested fs pid tid = true -> Bitset.in_range tid = true) tids ->
    for_each tids (detach_thread fs pid) s =
      Ok (tt, mkState (zygote_map s) (uid_proc_map s) (attaches s)
                (mark_stops fs pid tids (detaches s))
                (calls s ++ flat_map (thread_calls fs pid) tids)).
Proof.
  induction tids as [|tid tids IH]; intros s Hr.
  - simpl. unfold mret, M_ret. by rewrite app_nil_r, state_eta.
  - inversion Hr as [|? ? Htid Hrest]; subst.
    cbn [for_each]. rewrite (bind_Ok _ _ _ _ _ (detach_thread_spec fs pid tid s Htid)).
    rewrite IH by done. simpl. by rewrite <- app_assoc.
Qed.

Lemma for_each_detach_thread_fault fs pid tid tids :
  forall s,
    In tid tids -> stop_requested fs pid tid = true -> Bitset.in_range tid = false ->
    for_each tids (detach_thread fs pid) s = Fault.
Proof.
  induction tids as [|t tids IH]; intros s Hin Hs Hr; [done|].
  cbn [for_each].
  destruct (detach_thread_cases fs pid t s) as [Hf|[s' Hok]].
  - by apply bind_Fault.
  - rewrite (bind_Ok _ _ _ _ _ Hok).
    destruct Hin as [->|Hin]; [|by apply IH].
    by rewrite detach_thread_fault in Hok.
Qed.

Theorem detach_pid_spec fs pid signal s :
  Bitset.in_range pid = true ->
  Forall (fun tid => stop_requested fs pid tid = true -> Bitset.in_range tid = true)
         (task_dir fs pid) ->
  detach_pid fs pid signal s =
    Ok (tt, mkState (zygote_map s) (uid_proc_map s)
              (Z.clearbit (attaches s) pid)
              (mark_stops fs pid (task_dir fs pid) (detaches s))
              (calls s ++ PtraceDetach pid signal ::
                 flat_map (thread_calls fs pid) (task_dir fs pid))).
Proof.
  intros Hpid Htids. unfold detach_pid.
  assert (H1 : attaches_set pid false s =
               Ok (tt, mkState (zygote_map s) (uid_proc_map s)
                         (Z.clearbit (attaches s) pid) (detaches s) (calls s))).
  { unfold attaches_set, rbind, Bitset.set. by rewrite Hpid. }
  rewrite (bind_Ok _ _ _ _ _ H1).
  erewrite bind_Ok by reflexivity.
  rewrite for_each_detach_thread by done. simpl.
  by rewrite <- app_assoc.
Qed.

Lemma detach_pid_fault_pid fs pid signal s :
  Bitset.in_range pid = false -> detach_pid fs pid signal s = Fault.
Proof.
  intros Hpid. unfold detach_pid. apply bind_Fault.
  unfold attaches_set, rbind, Bitset.set. by rewrite Hpid.
Qed.

Lemma detach_pid_fault_tid fs pid signal tid s :
  In tid (task_dir fs pid) ->
  stop_requested fs pid tid = true -> Bitset.in_range tid = false ->
  detach_pid fs pid signal s = Fault.
Proof.
  intros Hin Hs Hr. unfold detach_pid.
  destruct (Bitset.in_range pid) eqn:Hpid.
  - assert (H1 : attaches_set pid false s =
                 Ok (tt, mkState (zygote_map s) (uid_proc_map s)
                           (Z.clearbit (attaches s) pid) (detaches s) (calls s))).
    { unfold attaches_set, rbind, Bitset.set. by rewrite Hpid. }
    rewrite (bind_Ok _ _ _ _ _ H1).
    erewrite bind_Ok by reflexivity.
    by apply (for_each_detach_thread_fault fs pid tid).
  - apply bind_Fault. unfold attaches_set, rbind, Bitset.set. by rewrite Hpid.
Qed.

(** ** [detach_task], [check_pid] and the loop body *)

Lemma in_range_spec i : Bitset.in_range i = true <-> 0 <= i < PID_MAX.
Proof. unfold Bitset.in_range. rewrite andb_true_iff. lia. Qed.

Lemma in_range_false i : Bitset.in_range i = false <-> ~ (0 <= i < PID_MAX).
Proof. rewrite <- in_range_spec. by destruct (Bitset.in_range i). Qed.

Lemma detach_task_spec pid s :
  Bitset.in_range pid = true ->
  detach_task pid s =
    Ok (tt, mkState (zygote_map s) (uid_proc_map s)
              (Z.clearbit (attaches s) pid) (Z.clearbit (detaches s) pid)
              (calls s ++ [PtraceDetach pid 0])).
Proof.
  intros Hr. unfold detach_task, mbind, M_bind, attaches_set, detaches_set,
    call, rbind, Bitset.set. simpl. by rewrite Hr.
Qed.

Lemma detach_task_fault pid s :
  Bitset.in_range pid = false -> detach_task pid s = Fault.
Proof.
  intros Hr. unfold detach_task, mbind, M_bind, attaches_set, rbind, Bitset.set.
  by rewrite Hr.
Qed.

(** The first test of the loop: no ptrace-stop, or the PID is in
    [detaches]. *)
Lemma proc_monitor_step_skip w s :
  0 <= w_pid w ->
  WIFSTOPPED (w_status w) = false \/
    Bitset.get (detaches s) (w_pid w) = Ok true ->
  proc_monitor_step w s = detach_task (w_pid w) s.
Proof.
  intros Hpid Hskip. unfold proc_monitor_step.
  rewrite (proj2 (Z.ltb_ge _ _)) by done.
  destruct (WIFSTOPPED (w_status w)) eqn:Hst; simpl.
  - destruct Hskip as [|Hd]; [done|].
    unfold mbind at 1, M_bind at 1, detaches_get, rbind. by rewrite Hd.
  - done.
Qed.

(** A woken PID outside the bitsets: whichever way the first test goes, the
    loop indexes with it. *)
Lemma proc_monitor_step_out_of_range w s :
  PID_MAX <= w_pid w -> proc_monitor_step w s = Fault.
Proof.
  intros Hpid.
  assert (Hr : Bitset.in_range (w_pid w) = false)
    by (apply in_range_false; lia).
  unfold proc_monitor_step.
  rewrite (proj2 (Z.ltb_ge _ _)) by (unfold PID_MAX in Hpid; lia).
  destruct (WIFSTOPPED (w_status w)) eqn:Hst; simpl.
  - unfold mbind, M_bind, detaches_get, rbind, Bitset.get. by rewrite Hr.
  - by apply detach_task_fault.
Qed.

(** Past the first test. *)
Lemma proc_monitor_step_past_skip w s :
  Bitset.in_range (w_pid w) = true ->
  WIFSTOPPED (w_status w) = true ->
  Z.testbit (detaches s) (w_pid w) = false ->
  (WSTOPSIG (w_status w) =? SIGTRAP) = true ->
  (WEVENT (w_status w) =? 0) = false ->
  proc_monitor_step w s =
    let s1 := mkState (zygote_map s) (uid_proc_map s) (attaches s) (detaches s)
                      (calls s ++ [PtraceGetEventMsg (w_pid w)]) in
    let pid := w_pid w in
    if bool_decide (is_Some (zygote_map s !! pid)) then
      if (WEVENT (w_status w) =? PTRACE_EVENT_FORK) ||
         (WEVENT (w_status w) =? PTRACE_EVENT_VFORK) then
        (attaches_set (w_msg w) true ;; call (PtraceCont pid 0)) s1
      else
        (set_zygote_map (delete pid (zygote_map s)) ;; detach_task pid) s1
    else if WEVENT (w_status w) =? PTRACE_EVENT_CLONE then
      if Z.testbit (attaches s) pid then
        (done ← check_pid (w_fs w) pid;
         if done : bool then mret tt else call (PtraceCont pid 0)) s1
      else call (PtraceCont pid 0) s1
    else detach_task pid s1.
Proof.
  intros Hr Hst Hd Hsig Hev. unfold proc_monitor_step.
  apply in_range_spec in Hr as Hr'.
  rewrite (proj2 (Z.ltb_ge _ _)) by lia.
  rewrite Hst, Hsig, Hev. simpl.
  unfold mbind at 1, M_bind at 1, detaches_get, rbind, Bitset.get.
  rewrite Hr, Hd. simpl.
  unfold mbind at 1, M_bind at 1, call. simpl.
  unfold mbind at 1, M_bind at 1, get_state. simpl.
  destruct (bool_decide (is_Some (zygote_map s !! w_pid w))).
  { destruct (_ || _); reflexivity. }
  destruct (WEVENT (w_status w) =? PTRACE_EVENT_CLONE); [|reflexivity].
  unfold mbind at 1, M_bind at 1, attaches_get, rbind, Bitset.get. simpl.
  rewrite Hr. simpl.
  destruct (Z.testbit (attaches s) (w_pid w)); reflexivity.
Qed.

Lemma proc_monitor_step_zygote_fork w s :
  is_zygote_fork w s = true ->
  proc_monitor_step w s =
    (attaches_set (w_msg w) true ;; call (PtraceCont (w_pid w) 0))
      (mkState (zygote_map s) (uid_proc_map s) (attaches s) (detaches s)
               (calls s ++ [PtraceGetEventMsg (w_pid w)])).
Proof.
  unfold is_zygote_fork. rewrite !andb_true_iff, negb_true_iff.
  intros [[[[[Hr Hst] Hd] Hsig] Hev] Hz].
  rewrite proc_monitor_step_past_skip; try done.
  - cbv zeta. by rewrite Hz, Hev.
  - apply orb_true_iff in Hev as [Hev|Hev]; apply Z.eqb_eq in Hev;
      rewrite Hev; done.
Qed.

Lemma proc_monitor_step_classified w s :
  is_classified w s = true ->
  proc_monitor_step w s =
    (done ← check_pid (w_fs w) (w_pid w);
     if done : bool then mret tt else call (PtraceCont (w_pid w) 0))
      (mkState (zygote_map s) (uid_proc_map s) (attaches s) (detaches s)
               (calls s ++ [PtraceGetEventMsg (w_pid w)])).
Proof.
  unfold is_classified. rewrite !andb_true_iff, negb_true_iff.
  intros [[[[[[Hr Hst] Hd] Hsig] Hev] Hz] Ha].
  rewrite proc_monitor_step_past_skip; try done.
  - cbv zeta. apply bool_decide_eq_true in Hz.
    rewrite bool_decide_eq_false_2 by (rewrite Hz; by intros [? ?]).
    by rewrite Hev, Ha.
  - apply Z.eqb_eq in Hev. by rewrite Hev.
Qed.

Lemma detach_pid_inv fs pid signal s u s1 :
  detach_pid fs pid signal s = Ok (u, s1) ->
  Bitset.in_range pid = true /\
  Forall (fun tid => stop_requested fs pid tid = true -> Bitset.in_range tid = true)
         (task_dir fs pid) /\
  s1 = mkState (zygote_map s) (uid_proc_map s)
         (Z.clearbit (attaches s) pid)
         (mark_stops fs pid (task_dir fs pid) (detaches s))
         (calls s ++ PtraceDetach pid signal ::
            flat_map (thread_calls fs pid) (task_dir fs pid)).
Proof.
  intros Hok.
  destruct (Bitset.in_range pid) eqn:Hpid;
    [|by rewrite detach_pid_fault_pid in Hok].
  split; [done|].
  destruct (decide (Forall (fun tid => stop_requested fs pid tid = true ->
                                       Bitset.in_range tid = true)
                           (task_dir fs pid))) as [Hall|Hex].
  - split; [done|].
    rewrite detach_pid_spec in Hok by done. by injection Hok as _ <-.
  - apply not_Forall_Exists in Hex; [|apply _].
    apply Exists_exists in Hex as (tid & Hin & Hbad).
    apply list_elem_of_In in Hin. unfold compose in Hbad. cbv beta in Hbad.
    destruct (stop_requested fs pid tid) eqn:Hs;
      [|exfalso; apply Hbad; intros Hx; discriminate Hx].
    destruct (Bitset.in_range tid) eqn:Hr;
      [exfalso; apply Hbad; intros _; reflexivity|].
    by rewrite (detach_pid_fault_tid fs pid signal tid) in Hok.
Qed.

Lemma new_calls_app s zm um a d l :
  new_calls s (mkState zm um a d (calls s ++ l)) = l.
Proof. unfold new_calls. simpl. apply drop_app_length. Qed.

Lemma new_calls_none s zm um a d :
  new_calls s (mkState zm um a d (calls s)) = [].
Proof. unfold new_calls. apply drop_ge. simpl. lia. Qed.

Lemma new_calls_same s : new_calls s s = [].
Proof. unfold new_calls. apply drop_ge. lia. Qed.

(** The requests [detach_pid] makes for threads: non-blocking waits,
    signal-less detaches, directed stops. *)
Lemma thread_calls_kinds fs pid tids c :
  In c (flat_map (thread_calls fs pid) tids) ->
  (exists tid, c = WaitPid tid true) \/
  (exists tid, tid <> pid /\ c = PtraceDetach tid 0) \/
  (exists tid, c = TgKill pid tid SIGSTOP).
Proof.
  rewrite in_flat_map. intros (tid & _ & Hc). unfold thread_calls in Hc.
  case_bool_decide as Hne; [|done].
  destruct (waitable fs tid); simpl in Hc;
    destruct Hc as [<-|[<-|[]]]; eauto.
Qed.

Lemma check_pid_vanished fs pid s :
  cmdline fs pid = None -> check_pid fs pid s = Ok (true, s).
Proof. intros Hc. unfold check_pid. by rewrite Hc. Qed.

Lemma check_pid_zygote fs pid cmd s :
  cmdline fs pid = Some cmd -> strncmp_eq cmd (str "zygote") 6 = true ->
  check_pid fs pid s = Ok (false, s).
Proof. intros Hc Hz. unfold check_pid. by rewrite Hc, Hz. Qed.

Lemma check_pid_classify fs pid cmd s :
  cmdline fs pid = Some cmd -> strncmp_eq cmd (str "zygote") 6 = false ->
  check_pid fs pid s =
    match classify fs pid cmd s with
    | Target =>
        (detach_pid fs pid SIGSTOP ;; call (ForkHideDaemon pid) ;; mret true) s
    | NotTarget => (detach_pid fs pid 0 ;; mret true) s
    end.
Proof.
  intros Hc Hz. unfold check_pid. rewrite Hc, Hz.
  unfold mbind at 1, M_bind at 1, get_state.
  by destruct (classify fs pid cmd s).
Qed.

(** [mnt_ns_separated] says that no registered zygote has the inode and
    device of [st]. *)
Lemma mnt_ns_separated_spec zm st :
  mnt_ns_separated zm st = true <->
  forall z zst, zm !! z = Some zst ->
    ~ (st_ino zst = st_ino st /\ st_dev zst = st_dev st).
Proof.
  unfold mnt_ns_separated. rewrite negb_true_iff, <- not_true_iff_false.
  rewrite existsb_exists. split.
  - intros Hno z zst Hz [Hi Hd]. apply Hno. exists (z, zst). split.
    + apply list_elem_of_In. by apply elem_of_map_to_list.
    + simpl. rewrite Hi, Hd, !Z.eqb_refl. done.
  - intros Hall ([z zst] & Hin & Hsame).
    apply list_elem_of_In, elem_of_map_to_list in Hin.
    simpl in Hsame. apply andb_true_iff in Hsame as [Hi Hd].
    apply Z.eqb_eq in Hi, Hd. by apply (Hall z zst).
Qed.

Lemma match_procs_target procs cmd sep :
  match_procs procs cmd sep = Target -> sep = true.
Proof.
  induction procs as [|p procs IH]; simpl; [done|].
  case_bool_decide; [by destruct sep|done].
Qed.

Lemma match_procs_shared procs cmd :
  match_procs procs cmd false = NotTarget.
Proof.
  induction procs as [|p procs IH]; simpl; [done|].
  by case_bool_decide.
Qed.

Lemma match_procs_iff procs cmd sep :
  match_procs procs cmd sep = Target <-> In cmd procs /\ sep = true.
Proof.
  induction procs as [|p procs IH]; simpl.
  - split; [done|by intros [[] _]].
  - case_bool_decide as Hp.
    + subst. destruct sep; split; try done; [by intros _; split; [left|]|].
      by intros [_ ?].
    + rewrite IH. split; [intros [? ?]; split; [by right|done]|].
      intros [[?|?] ?]; [done|by split].
Qed.

Lemma classify_target fs pid cmd s :
  classify fs pid cmd s = Target ->
  mnt_ns_separated (zygote_map s) (st_after_read_ns fs pid) = true.
Proof.
  unfold classify. destruct (uid_proc_map s !! _); [|done].
  apply match_procs_target.
Qed.

Lemma classify_shared fs pid cmd s :
  mnt_ns_separated (zygote_map s) (st_after_read_ns fs pid) = false ->
  classify fs pid cmd s = NotTarget.
Proof.
  intros Hsh. unfold classify. destruct (uid_proc_map s !! _); [|done].
  rewrite Hsh. apply match_procs_shared.
Qed.

(** ** [new_zygote] *)

Lemma new_zygote_spec fs pid s :
  new_zygote fs pid s =
    Ok (tt, match stat_mnt_ns fs pid with
            | None => s
            | Some st =>
                mkState (<[pid := st]> (zygote_map s)) (uid_proc_map s)
                  (attaches s) (detaches s)
                  (match zygote_map s !! pid with
                   | Some _ => calls s
                   | None => calls s ++ attach_calls pid
                   end)
            end).
Proof.
  unfold new_zygote, read_ns. destruct (stat_mnt_ns fs pid) as [st|]; [|done].
  cbn [negb Z.eqb]. unfold mbind at 1, M_bind at 1, get_state.
  destruct (zygote_map s !! pid); [done|].
  unfold mbind, M_bind, set_zygote_map, call, attach_calls. simpl.
  by rewrite <- !app_assoc.
Qed.

(** ** The two bitsets along the loop *)



Lemma mark_stops_mem fs pid tids :
  forall d i,
    Forall (fun tid => stop_requested fs pid tid = true -> Bitset.in_range tid = true)
           tids ->
    Z.testbit (mark_stops fs pid tids d) i = true ->
    Z.testbit d i = true \/ (In i tids /\ stop_requested fs pid i = true).
Proof.
  induction tids as [|t tids IH]; intros d i Hall Hbit; [by left|].
  inversion Hall as [|? ? Ht Hrest]; subst.
  unfold mark_stops in Hbit. simpl in Hbit. fold (mark_stops fs pid tids) in Hbit.
  apply IH in Hbit as [Hbit|[Hin Hs]]; [|right; split; [by right|done]|done].
  destruct (stop_requested fs pid t) eqn:Hst; [|by left].
  specialize (Ht eq_refl). apply in_range_spec in Ht.
  rewrite Z.setbit_eqb in Hbit by lia.
  apply orb_true_iff in Hbit as [Heq|Hbit]; [|by left].
  apply Z.eqb_eq in Heq. subst. right. split; [by left|done].
Qed.


End MonitorFacts.

(** * The trace loop *)

Section TraceLoop.

(** C5: when the wait status is no ptrace-stop, or the woken PID is in
    [detaches], the loop body does nothing but clear the PID's entries in
    [attaches] and [detaches] and detach it with signal 0; the PID is then
    in neither set.  The PID is one the bitsets can hold. *)
Theorem C5_unconditional_detach (w : wake) (s : state) :
  Bitset.in_range (w_pid w) = true ->
  WIFSTOPPED (w_status w) = false \/ Bitset.mem (detaches s) (w_pid w) ->
  proc_monitor_step w s =
    Ok (tt, mkState (zygote_map s) (uid_proc_map s)
              (Z.clearbit (attaches s) (w_pid w))
              (Z.clearbit (detaches s) (w_pid w))
              (calls s ++ [PtraceDetach (w_pid w) 0])) /\
  ~ Bitset.mem (Z.clearbit (attaches s) (w_pid w)) (w_pid w) /\
  ~ Bitset.mem (Z.clearbit (detaches s) (w_pid w)) (w_pid w).
Proof.
  intros Hr Hskip. apply in_range_spec in Hr as Hr'.
  split; [|split].
  - rewrite proc_monitor_step_skip; [by apply detach_task_spec|lia|].
    destruct Hskip as [Hst|Hd]; [by left|right].
    unfold Bitset.get. by rewrite Hr, Hd.
  - unfold Bitset.mem. rewrite Z.clearbit_eq by lia. done.
  - unfold Bitset.mem. rewrite Z.clearbit_eq by lia. done.
Qed.

(** C9: an entry of [attaches] or [detaches] can be read or written
    exactly when its index is at least 0 and below 32768.  At or above
    32768, the child PID of a zygote's fork event, a thread [detach_pid]
    has to stop, and the woken PID itself each lead the code to index a
    bitset out of bounds. *)
Theorem C9_bitset_index_bounds :
  (forall b i, (exists v, Bitset.get b i = Ok v) <-> 0 <= i < 32768) /\
  (forall b i v, (exists b', Bitset.set b i v = Ok b') <-> 0 <= i < 32768) /\
  (forall b i v, 32768 <= i -> Bitset.get b i = Fault /\ Bitset.set b i v = Fault) /\
  (forall w s, is_zygote_fork w s = true -> 32768 <= w_msg w ->
     proc_monitor_step w s = Fault) /\
  (forall fs pid signal tid s,
     In tid (task_dir fs pid) -> stop_requested fs pid tid = true ->
     32768 <= tid -> detach_pid fs pid signal s = Fault) /\
  (forall w s, 32768 <= w_pid w -> proc_monitor_step w s = Fault).
Proof.
  assert (Hout : forall i, 32768 <= i -> Bitset.in_range i = false).
  { intros i Hi. apply in_range_false. unfold PID_MAX. lia. }
  assert (Hin : forall i, Bitset.in_range i = true <-> 0 <= i < 32768)
    by apply in_range_spec.
  refine (conj _ (conj _ (conj _ (conj _ (conj _ _))))).
  - intros b i. unfold Bitset.get. rewrite <- Hin.
    destruct (Bitset.in_range i); split; eauto;
      try (intros [v Hv]; done); intros Hx; discriminate Hx.
  - intros b i v. unfold Bitset.set. rewrite <- Hin.
    destruct (Bitset.in_range i); split; eauto;
      try (intros [b' Hb']; done); intros Hx; discriminate Hx.
  - intros b i v Hi. unfold Bitset.get, Bitset.set. by rewrite Hout.
  - intros w s Hfork Hmsg. rewrite proc_monitor_step_zygote_fork by done.
    apply bind_Fault. unfold attaches_set, rbind, Bitset.set. simpl.
    by rewrite Hout.
  - intros fs pid signal tid s Hi Hs Htid.
    apply (detach_pid_fault_tid fs pid signal tid); auto.
  - intros w s Hpid. apply proc_monitor_step_out_of_range. unfold PID_MAX. lia.
Qed.

(** C1 as amended: when the command line of the PID starts with zygote,
    [check_pid] makes no request and returns [false] with the state as it
    was; the loop then resumes the tracee with [PTRACE_CONT].  The PID
    stays traced and stays in [attaches], and [zygote_map] is unchanged. *)
Theorem C1_zygote_cmdline_is_resumed (fs : procfs) (pid : Z) (cmd : text) (s : state) :
  cmdline fs pid = Some cmd ->
  strncmp_eq cmd (str "zygote") 6 = true ->
  check_pid fs pid s = Ok (false, s) /\
  forall w, w_pid w = pid -> w_fs w = fs -> is_classified w s = true ->
    proc_monitor_step w s =
      Ok (tt, mkState (zygote_map s) (uid_proc_map s) (attaches s) (detaches s)
                (calls s ++ [PtraceGetEventMsg pid; PtraceCont pid 0])).
Proof.
  intros Hc Hz. split; [by apply (check_pid_zygote fs pid cmd)|].
  intros w <- <- Hw. rewrite proc_monitor_step_classified by done.
  erewrite bind_Ok by (by apply (check_pid_zygote _ _ cmd)).
  unfold call. simpl. by rewrite <- app_assoc.
Qed.

(** C4 as amended: when /proc/pid/cmdline cannot be opened, [check_pid]
    makes no request and returns [true] with the state as it was: no
    detach and no handoff.  The loop goes on to its next wait without
    resuming the PID, and the PID stays in [attaches]. *)
Theorem C4_vanished_cmdline_is_ignored (fs : procfs) (pid : Z) (s : state) :
  cmdline fs pid = None ->
  check_pid fs pid s = Ok (true, s) /\
  forall w, w_pid w = pid -> w_fs w = fs -> is_classified w s = true ->
    proc_monitor_step w s =
      Ok (tt, mkState (zygote_map s) (uid_proc_map s) (attaches s) (detaches s)
                (calls s ++ [PtraceGetEventMsg pid])) /\
    Bitset.mem (attaches s) pid.
Proof.
  intros Hc. split; [by apply check_pid_vanished|].
  intros w <- <- Hw. split.
  - rewrite proc_monitor_step_classified by done.
    erewrite bind_Ok by (by apply check_pid_vanished). done.
  - unfold is_classified in Hw. by apply andb_true_iff in Hw as [_ Ha].
Qed.

End TraceLoop.

Lemma C5_unconditional_detach_witness :
  proc_monitor_step (Scenario.wake_sigstop 152)
    (mkState Scenario.registry Scenario.uid_map 0 (Z.setbit 0 152) []) =
  Ok (tt, mkState Scenario.registry Scenario.uid_map
            (Z.clearbit 0 152) (Z.clearbit (Z.setbit 0 152) 152)
            [PtraceDetach 152 0]).
Proof.
  apply (C5_unconditional_detach (Scenario.wake_sigstop 152)
           (mkState Scenario.registry Scenario.uid_map 0 (Z.setbit 0 152) [])).
  - reflexivity.
  - right. reflexivity.
Defined.

Lemma C9_bitset_index_bounds_witness :
  proc_monitor_step (Scenario.wake_fork 100 40000) Scenario.idle = Fault.
Proof.
  apply (proj1 (proj2 (proj2 (proj2 C9_bitset_index_bounds)))).
  - reflexivity.
  - simpl. lia.
Defined.

Lemma C1_zygote_cmdline_is_resumed_witness :
  check_pid Scenario.fs_zygote_child 102 (Scenario.candidate 102) =
  Ok (false, Scenario.candidate 102).
Proof.
  apply (C1_zygote_cmdline_is_resumed Scenario.fs_zygote_child 102
           (str "zygote64") (Scenario.candidate 102)).
  - reflexivity.
  - reflexivity.
Defined.

Lemma C4_vanished_cmdline_is_ignored_witness :
  check_pid Scenario.no_proc 101 (Scenario.candidate 101) =
  Ok (true, Scenario.candidate 101).
Proof.
  apply (C4_vanished_cmdline_is_ignored Scenario.no_proc 101 (Scenario.candidate 101)).
  reflexivity.
Defined.

(** * Classification and registration *)

Section Classification.

(** C2 (the code departs from it): [check_pid] drops the result of
    [read_ns], which [new_zygote] tests.
    (1) While /proc/pid/ns/mnt can be read, the claim holds of the identity
    read: the PID is detached with [SIGSTOP] or handed to the hide daemon
    only if that identity differs in inode or device from the entry of
    every PID in [zygote_map].
    (2) When it agrees with some entry, a readable command line not
    starting with zygote ends in [detach_pid(pid)] without signal and
    without hide daemon.
    (3) When the read fails, no identity has been read, and yet a PID whose
    command line is in the list of its uid is detached with [SIGSTOP] and
    handed to the hide daemon as soon as what [lstat] on /proc/pid left in
    the same [struct stat] differs from every entry of [zygote_map].
    (4) [new_zygote] makes the same read and gives up when it fails. *)
Theorem C2_unread_mnt_ns_is_handed_off :
  (forall fs pid s b s' ns,
     stat_mnt_ns fs pid = Some ns ->
     check_pid fs pid s = Ok (b, s') ->
     In (PtraceDetach pid SIGSTOP) (new_calls s s') \/
       In (ForkHideDaemon pid) (new_calls s s') ->
     forall z zst, zygote_map s !! z = Some zst ->
       ~ (st_ino zst = st_ino ns /\ st_dev zst = st_dev ns)) /\
  (forall fs pid cmd s z zst ns,
     stat_mnt_ns fs pid = Some ns ->
     cmdline fs pid = Some cmd ->
     strncmp_eq cmd (str "zygote") 6 = false ->
     Bitset.in_range pid = true ->
     Forall (fun tid => stop_requested fs pid tid = true ->
                        Bitset.in_range tid = true) (task_dir fs pid) ->
     zygote_map s !! z = Some zst ->
     st_ino zst = st_ino ns ->
     st_dev zst = st_dev ns ->
     exists s',
       check_pid fs pid s = Ok (true, s') /\
       new_calls s s' =
         PtraceDetach pid 0 :: flat_map (thread_calls fs pid) (task_dir fs pid) /\
       ~ In (ForkHideDaemon pid) (new_calls s s') /\
       ~ In (PtraceDetach pid SIGSTOP) (new_calls s s') /\
       ~ Bitset.mem (attaches s') pid /\
       zygote_map s' = zygote_map s) /\
  (forall fs pid cmd s procs,
     stat_mnt_ns fs pid = None ->
     cmdline fs pid = Some cmd ->
     strncmp_eq cmd (str "zygote") 6 = false ->
     Bitset.in_range pid = true ->
     Forall (fun tid => stop_requested fs pid tid = true ->
                        Bitset.in_range tid = true) (task_dir fs pid) ->
     uid_proc_map s !! (st_uid (st_after_lstat fs pid) mod 100000) = Some procs ->
     In cmd procs ->
     (forall z zst, zygote_map s !! z = Some zst ->
        ~ (st_ino zst = st_ino (st_after_lstat fs pid) /\
           st_dev zst = st_dev (st_after_lstat fs pid))) ->
     exists s',
       check_pid fs pid s = Ok (true, s') /\
       new_calls s s' =
         PtraceDetach pid SIGSTOP ::
           flat_map (thread_calls fs pid) (task_dir fs pid) ++
           [ForkHideDaemon pid]) /\
  (forall fs pid s,
     stat_mnt_ns fs pid = None -> new_zygote fs pid s = Ok (tt, s)).
Proof.
  assert (Hplain : forall fs pid,
            ~ In (ForkHideDaemon pid)
                (PtraceDetach pid 0 :: flat_map (thread_calls fs pid) (task_dir fs pid)) /\
            ~ In (PtraceDetach pid SIGSTOP)
                (PtraceDetach pid 0 :: flat_map (thread_calls fs pid) (task_dir fs pid))).
  { intros fs pid. split; intros [Hhd|Htl]; try discriminate Hhd;
      apply thread_calls_kinds in Htl as [[t Ht]|[(t & _ & Ht)|[t Ht]]];
      discriminate Ht. }
  assert (Hread : forall fs pid ns,
            stat_mnt_ns fs pid = Some ns -> st_after_read_ns fs pid = ns).
  { intros fs pid ns Hns. unfold st_after_read_ns, read_ns. by rewrite Hns. }
  assert (Hunread : forall fs pid,
            stat_mnt_ns fs pid = None ->
            st_after_read_ns fs pid = st_after_lstat fs pid).
  { intros fs pid Hns. unfold st_after_read_ns, read_ns. by rewrite Hns. }
  refine (conj _ (conj _ (conj _ _))).
  - intros fs pid s b s' ns Hns Hok Hcalls.
    rewrite <- (Hread fs pid ns Hns).
    destruct (cmdline fs pid) as [cmd|] eqn:Hc.
    2:{ rewrite check_pid_vanished in Hok by done. injection Hok as _ <-.
        rewrite new_calls_same in Hcalls. by destruct Hcalls. }
    destruct (strncmp_eq cmd (str "zygote") 6) eqn:Hz.
    { rewrite (check_pid_zygote fs pid cmd) in Hok by done. injection Hok as _ <-.
      rewrite new_calls_same in Hcalls. by destruct Hcalls. }
    rewrite (check_pid_classify fs pid cmd) in Hok by done.
    destruct (classify fs pid cmd s) eqn:Hcl.
    + apply classify_target in Hcl. by apply mnt_ns_separated_spec.
    + unfold mbind, M_bind in Hok.
      destruct (detach_pid fs pid 0 s) as [[u s1]| |] eqn:Hd; try done.
      apply detach_pid_inv in Hd as (_ & _ & ->).
      unfold mret, M_ret in Hok. injection Hok as _ <-.
      rewrite new_calls_app in Hcalls.
      destruct (Hplain fs pid) as [Hnf Hnd]. by destruct Hcalls.
  - intros fs pid cmd s z zst ns Hns Hc Hz Hr Htids Hzyg Hino Hdev.
    assert (Hsh : mnt_ns_separated (zygote_map s) (st_after_read_ns fs pid) = false).
    { apply not_true_iff_false. intros Hsep.
      rewrite mnt_ns_separated_spec in Hsep. apply (Hsep z zst Hzyg).
      by rewrite (Hread fs pid ns Hns). }
    rewrite (check_pid_classify fs pid cmd) by done.
    rewrite classify_shared by done.
    erewrite bind_Ok by (by apply detach_pid_spec).
    eexists. split; [reflexivity|].
    rewrite new_calls_app. destruct (Hplain fs pid) as [Hnf Hnd].
    repeat split; try done.
    unfold Bitset.mem. simpl. apply in_range_spec in Hr.
    rewrite Z.clearbit_eq by lia. done.
  - intros fs pid cmd s procs Hns Hc Hz Hr Htids Hprocs Hin Hsep.
    assert (Hcl : classify fs pid cmd s = Target).
    { unfold classify. rewrite Hprocs. apply match_procs_iff. split; [done|].
      apply mnt_ns_separated_spec. by rewrite (Hunread fs pid Hns). }
    rewrite (check_pid_classify fs pid cmd) by done. rewrite Hcl.
    erewrite bind_Ok by (by apply detach_pid_spec).
    unfold mbind, M_bind, call, mret, M_ret. simpl.
    eexists. split; [reflexivity|].
    by rewrite <- app_assoc, new_calls_app.
  - intros fs pid s Hns. rewrite new_zygote_spec. by rewrite Hns.
Qed.

(** C8: two registrations of the same PID in a row leave the monitor as
    one registration from the later of the two namespace readings that
    succeeded.  After a first registration that read the namespace, the
    second makes no request at all: it only stores its own reading, the
    PIDs registered stay the same.  The pair of calls makes either no request
    or the requests of one attachment. *)
Theorem C8_register_twice (fs1 fs2 : procfs) (pid : Z) (s : state) :
  exists s1 s2,
    new_zygote fs1 pid s = Ok (tt, s1) /\
    new_zygote fs2 pid s1 = Ok (tt, s2) /\
    new_zygote (observed_ns (latest (stat_mnt_ns fs1 pid) (stat_mnt_ns fs2 pid)))
      pid s = Ok (tt, s2) /\
    (is_Some (stat_mnt_ns fs1 pid) ->
       calls s2 = calls s1 /\
       dom (zygote_map s2) = dom (zygote_map s1) /\
       (forall z, z <> pid -> zygote_map s2 !! z = zygote_map s1 !! z) /\
       uid_proc_map s2 = uid_proc_map s1 /\
       attaches s2 = attaches s1 /\ detaches s2 = detaches s1) /\
    (forall ns, stat_mnt_ns fs2 pid = Some ns -> zygote_map s2 !! pid = Some ns) /\
    (stat_mnt_ns fs2 pid = None -> s2 = s1) /\
    (new_calls s s2 = [] \/ new_calls s s2 = attach_calls pid).
Proof.
  eexists _, _. split; [apply new_zygote_spec|]. split; [apply new_zygote_spec|].
  rewrite new_zygote_spec. simpl.
  destruct (stat_mnt_ns fs1 pid) as [n1|] eqn:H1;
    destruct (stat_mnt_ns fs2 pid) as [n2|] eqn:H2; simpl.
  - rewrite lookup_insert_eq, insert_insert_eq.
    refine (conj eq_refl (conj _ (conj _ (conj _ _)))).
    + intros _. refine (conj eq_refl (conj _ (conj _ _))); [| |done].
      * by rewrite !dom_insert_L.
      * intros z Hz. by rewrite !lookup_insert_ne.
    + intros ns [= <-]. apply lookup_insert_eq.
    + done.
    + destruct (zygote_map s !! pid).
      * left. apply new_calls_none.
      * right. apply new_calls_app.
  - refine (conj eq_refl (conj _ (conj _ (conj _ _)))); try done.
    destruct (zygote_map s !! pid).
    + left. apply new_calls_none.
    + right. apply new_calls_app.
  - refine (conj eq_refl (conj _ (conj _ (conj _ _)))).
    + by intros [? ?].
    + intros ns [= <-]. apply lookup_insert_eq.
    + done.
    + destruct (zygote_map s !! pid).
      * left. apply new_calls_none.
      * right. apply new_calls_app.
  - refine (conj eq_refl (conj _ (conj _ (conj _ _)))); try done.
    left. apply new_calls_same.
Qed.

End Classification.

Lemma C2_unread_mnt_ns_is_handed_off_witness :
  stat_mnt_ns Scenario.fs_unread_ns 101 = None /\
  exists s',
    check_pid Scenario.fs_unread_ns 101 (Scenario.candidate 101) = Ok (true, s') /\
    new_calls (Scenario.candidate 101) s' =
      [PtraceDetach 101 SIGSTOP; ForkHideDaemon 101].
Proof.
  split; [reflexivity|].
  destruct (proj1 (proj2 (proj2 C2_unread_mnt_ns_is_handed_off))
              Scenario.fs_unread_ns 101 (str "com.x") (Scenario.candidate 101)
              [str "com.x"])
    as (s' & Hok & Hnew); try reflexivity.
  - repeat constructor.
  - left. reflexivity.
  - apply mnt_ns_separated_spec. vm_compute. reflexivity.
  - exists s'. split; [exact Hok|]. rewrite Hnew. reflexivity.
Defined.

Lemma C8_register_twice_witness :
  exists s1 s2,
    new_zygote (observed_ns (Some (mkStat 5 7 0))) 100
      (mkState ∅ ∅ 0 0 []) = Ok (tt, s1) /\
    new_zygote (observed_ns (Some (mkStat 5 8 0))) 100 s1 = Ok (tt, s2) /\
    calls s2 = calls s1 /\ zygote_map s2 !! 100 = Some (mkStat 5 8 0).
Proof.
  destruct (C8_register_twice (observed_ns (Some (mkStat 5 7 0)))
              (observed_ns (Some (mkStat 5 8 0))) 100 (mkState ∅ ∅ 0 0 []))
    as (s1 & s2 & H1 & H2 & _ & Hsame & Hns & _).
  exists s1, s2. split; [exact H1|]. split; [exact H2|]. split.
  - apply Hsame. simpl. eauto.
  - apply Hns. reflexivity.
Defined.

(** C1 as stated fails on scenario 3: child 102, in [attaches], command
    line zygote64.  Neither [check_pid] nor the loop around it asks for a
    detach, and 102 is still in [attaches] afterwards. *)
Lemma C1_counterexample :
  ~ (forall fs pid cmd s,
       cmdline fs pid = Some cmd ->
       strncmp_eq cmd (str "zygote") 6 = true ->
       exists b s',
         check_pid fs pid s = Ok (b, s') /\
         In (PtraceDetach pid 0) (new_calls s s')) /\
  ~ (forall w cmd s,
       cmdline (w_fs w) (w_pid w) = Some cmd ->
       strncmp_eq cmd (str "zygote") 6 = true ->
       is_classified w s = true ->
       exists s',
         proc_monitor_step w s = Ok (tt, s') /\
         In (PtraceDetach (w_pid w) 0) (new_calls s s') /\
         ~ Bitset.mem (attaches s') (w_pid w) /\
         zygote_map s' = zygote_map s).
Proof.
  split.
  - intros Hclaim.
    destruct (Hclaim Scenario.fs_zygote_child 102 (str "zygote64")
                (Scenario.candidate 102) eq_refl eq_refl)
      as (b & s' & Hok & Hin).
    rewrite (check_pid_zygote _ _ (str "zygote64")) in Hok by reflexivity.
    injection Hok as _ <-. by rewrite new_calls_same in Hin.
  - intros Hclaim.
    destruct (Hclaim (Scenario.wake_clone 102 151 Scenario.fs_zygote_child)
                (str "zygote64") (Scenario.candidate 102)
                eq_refl eq_refl eq_refl)
      as (s' & Hok & _ & Hout & _).
    rewrite proc_monitor_step_classified in Hok by reflexivity.
    erewrite bind_Ok in Hok
      by (by apply (check_pid_zygote _ _ (str "zygote64"))).
    unfold call in Hok. injection Hok as <-.
    apply Hout. reflexivity.
Qed.

(** C4 as stated fails when process 101, in [attaches], has vanished: the
    loop asks for no detach and 101 is still in [attaches] afterwards. *)
Lemma C4_counterexample :
  ~ (forall w s,
       cmdline (w_fs w) (w_pid w) = None ->
       is_classified w s = true ->
       exists s',
         proc_monitor_step w s = Ok (tt, s') /\
         In (PtraceDetach (w_pid w) 0) (new_calls s s') /\
         ~ Bitset.mem (attaches s') (w_pid w)).
Proof.
  intros Hclaim.
  destruct (Hclaim (Scenario.wake_clone 101 151 Scenario.no_proc)
              (Scenario.candidate 101) eq_refl eq_refl)
    as (s' & Hok & _ & Hout).
  rewrite proc_monitor_step_classified in Hok by reflexivity.
  erewrite bind_Ok in Hok by (by apply check_pid_vanished).
  unfold mret, M_ret in Hok. injection Hok as <-.
  apply Hout. reflexivity.
Qed.

(** * The attach and detach sets along a run *)



(** A wake-up in which [detach_pid] is not reached asks nothing of the
    task directory: the first stop of thread 151, whose task directory
    lists 101 while 101 is in [attaches], is consistent. *)
Example scenario_unwalked_task_dir :
  consistent_run
    [Scenario.wake_fork 100 101;
     mkWake 151 (stop_status SIGSTOP 0) 0
       (Scenario.one_process 151 (str "com.x") 1010123 (mkStat 5 9 0) [101; 151] [])]
    Scenario.idle = true.
Proof. vm_compute. reflexivity. Qed.


(** * The scenarios of the specification, run on the model *)

(** Scenario 1, baseline match: on the CLONE event of 101 the child is
    detached with [SIGSTOP] and the hide daemon is started for it. *)
Example scenario_baseline_match :
  proc_monitor_step (Scenario.wake_clone 101 151 Scenario.fs_baseline)
    (Scenario.candidate 101) =
  Ok (tt, mkState Scenario.registry Scenario.uid_map 0 0
            [PtraceGetEventMsg 101; PtraceDetach 101 SIGSTOP; ForkHideDaemon 101]).
Proof. vm_compute. reflexivity. Qed.

(** Scenario 2, same-namespace child: plain detach, no hide daemon. *)
Example scenario_same_namespace :
  proc_monitor_step (Scenario.wake_clone 101 151 Scenario.fs_same_ns)
    (Scenario.candidate 101) =
  Ok (tt, mkState Scenario.registry Scenario.uid_map 0 0
            [PtraceGetEventMsg 101; PtraceDetach 101 0]).
Proof. vm_compute. reflexivity. Qed.

(** Scenario 5, spawner exit: 100 leaves the registry and is detached. *)
Example scenario_spawner_exit :
  proc_monitor_step (mkWake 100 (stop_status SIGTRAP PTRACE_EVENT_EXIT) 0 Scenario.no_proc)
    Scenario.idle =
  Ok (tt, mkState ∅ Scenario.uid_map 0 0
            [PtraceGetEventMsg 100; PtraceDetach 100 0]).
Proof. vm_compute. reflexivity. Qed.

(** Scenario 6, thread fan-out: 151 is detached on the spot, 152 is marked
    in [detaches] and sent a stop, and is detached at its next wake-up. *)
Example scenario_thread_fan_out :
  fmap calls (match proc_monitor Scenario.run_fan_out Scenario.idle with
              | Ok s => Some s
              | _ => None
              end) =
  Some [PtraceGetEventMsg 100; PtraceCont 100 0;
        PtraceSetOptions 101 88; PtraceCont 101 0;
        PtraceGetEventMsg 101; PtraceDetach 101 SIGSTOP;
        WaitPid 151 true; PtraceDetach 151 0;
        WaitPid 152 true; TgKill 101 152 SIGSTOP;
        ForkHideDaemon 101; PtraceDetach 152 0].
Proof. vm_compute. reflexivity. Qed.

(** The record of scenario 1 puts com.x under uid 10123. *)
Example scenario_package_record :
  parse_packages_xml parse_decimal Scenario.rules Scenario.record_com_x ∅ =
  Ok {[ 10123 := [str "com.x"] ]}.
Proof. vm_compute. reflexivity. Qed.

(** * More on the package database *)

Section PackageDatabaseMore.

Variable parse_int : text -> Z.
Variable hs : hide_set_t.

Lemma grows_refl m : grows_by_rules hs m m.
Proof. intros uid. by exists []. Qed.

Lemma grows_trans m1 m2 m3 :
  grows_by_rules hs m1 m2 -> grows_by_rules hs m2 m3 -> grows_by_rules hs m1 m3.
Proof.
  intros H12 H23 uid.
  destruct (H12 uid) as (e1 & He1 & Hm2), (H23 uid) as (e2 & He2 & Hm3).
  exists (e1 ++ e2). split; [by apply Forall_app|].
  destruct e2 as [|x e2]; [by rewrite app_nil_r, Hm3|].
  rewrite Hm3, Hm2. destruct e1 as [|y e1]; simpl; [done|].
  by rewrite <- app_assoc.
Qed.

Lemma emplace_back_grows uid pkg proc m :
  In (pkg, proc) hs -> grows_by_rules hs m (emplace_back uid proc m).
Proof.
  intros Hin uid'. unfold emplace_back.
  destruct (decide (uid' = uid)) as [->|Hne].
  - exists [proc]. split; [repeat constructor; by exists pkg|].
    by rewrite lookup_insert_eq.
  - exists []. split; [constructor|]. by rewrite lookup_insert_ne.
Qed.

Lemma add_procs_grows pkg uid m :
  grows_by_rules hs m (add_procs hs pkg uid m).
Proof.
  unfold add_procs.
  assert (Hgen : forall l m0,
            (forall h, In h l -> In h hs) ->
            grows_by_rules hs m0
              (foldl (fun m1 h => if bool_decide (h.1 = pkg)
                                  then emplace_back uid h.2 m1 else m1) m0 l)).
  { induction l as [|h l IH]; intros m0 Hl; [apply grows_refl|].
    simpl. eapply grows_trans; [|apply IH; intros; apply Hl; by right].
    case_bool_decide; [|apply grows_refl].
    apply (emplace_back_grows uid h.1). destruct h. apply Hl. by left. }
  by apply Hgen.
Qed.

Lemma on_attribute_grows key value pkg m pkg' m' :
  on_attribute parse_int hs key value pkg m = Some (pkg', m') ->
  grows_by_rules hs m m'.
Proof.
  unfold on_attribute. repeat case_bool_decide; simpl; intros [= <- <-];
    try apply grows_refl; apply add_procs_grows.
Qed.

Lemma attr_loop_grows fuel :
  forall b tok pkg m m',
    attr_loop parse_int fuel hs b tok pkg m = Ok m' -> grows_by_rules hs m m'.
Proof.
  induction fuel as [|fuel IH]; intros b tok pkg m m' Hok; [done|].
  cbn [attr_loop] in Hok.
  destruct (b !! tok) as [c|]; [|done].
  case_bool_decide; [injection Hok as <-; apply grows_refl|].
  destruct (strchr b tok EQUALS) as [eql| |]; [|injection Hok as <-; apply grows_refl|done].
  destruct (strchr _ (eql + 2) DQUOTE) as [q| |]; [|done|done].
  destruct (on_attribute parse_int hs _ _ pkg m) as [[pkg1 m1]|] eqn:Hattr;
    [|injection Hok as <-; apply grows_refl].
  eapply grows_trans; [by eapply on_attribute_grows|by eapply IH].
Qed.

Lemma parse_packages_xml_grows s m m' :
  parse_packages_xml parse_int hs s m = Ok m' -> grows_by_rules hs m m'.
Proof.
  unfold parse_packages_xml. destruct (negb _).
  - intros [= <-]. apply grows_refl.
  - apply attr_loop_grows.
Qed.

Lemma file_readline_grows lines :
  forall m m', file_readline parse_int hs lines m = Ok m' -> grows_by_rules hs m m'.
Proof.
  induction lines as [|l lines IH]; intros m m' Hok.
  - injection Hok as <-. apply grows_refl.
  - simpl in Hok.
    destruct (parse_packages_xml parse_int hs l m) as [m1| |] eqn:Hl; [|done|done].
    eapply grows_trans; [by eapply parse_packages_xml_grows|by apply IH].
Qed.

(** X1: whatever bytes the package database holds, reading it only appends
    process names of rules to the lists of [uid_proc_map]: for every uid
    the list afterwards is the list before followed by such names, and no
    list is removed or created empty. *)
Theorem X1_records_only_append (lines : list text) (m m' : gmap Z (list text)) :
  file_readline parse_int hs lines m = Ok m' ->
  forall uid, exists extra,
    Forall (rule_proc hs) extra /\
    m' !! uid = match extra with
                | [] => m !! uid
                | _ :: _ => Some (default [] (m !! uid) ++ extra)
                end.
Proof. apply file_readline_grows. Qed.

(** X2: after a refresh that returns, every uid of [uid_proc_map] has a
    non-empty list, and every name in it is the process name of a rule of
    [hide_set]; with no rules the map is empty. *)
Theorem X2_refreshed_map_holds_rule_names (lines : list text)
    (m m' : gmap Z (list text)) :
  update_uid_map parse_int hs lines m = Ok m' ->
  (forall uid procs, m' !! uid = Some procs ->
     procs <> [] /\ Forall (rule_proc hs) procs) /\
  (hs = [] -> m' = ∅).
Proof.
  intros Hok. unfold update_uid_map in Hok.
  apply file_readline_grows in Hok.
  assert (Hall : forall uid procs, m' !! uid = Some procs ->
                   procs <> [] /\ Forall (rule_proc hs) procs).
  { intros uid procs Hm'. destruct (Hok uid) as (extra & Hextra & Hlook).
    rewrite Hm', lookup_empty in Hlook.
    destruct extra as [|x extra]; [done|]. simpl in Hlook.
    injection Hlook as ->. done. }
  split; [done|].
  intros ->. apply map_eq. intros uid. rewrite lookup_empty.
  destruct (m' !! uid) as [procs|] eqn:Hm'; [|done].
  destruct (Hall uid procs Hm') as [Hne Hprocs].
  destruct procs as [|p procs]; [done|].
  inversion Hprocs as [|? ? [pkg []] _].
Qed.

Lemma add_procs_lookup pkg uid m uid' :
  add_procs hs pkg uid m !! uid' =
    if decide (uid' = uid) then
      match procs_of hs pkg with
      | [] => m !! uid
      | _ :: _ => Some (default [] (m !! uid) ++ procs_of hs pkg)
      end
    else m !! uid'.
Proof.
  unfold add_procs, procs_of. generalize hs as l. intros l. revert m.
  induction l as [|h l IH]; intros m; simpl.
  - by case_decide; subst.
  - rewrite IH. case_bool_decide as Hh; simpl; [|done].
    unfold emplace_back. case_decide as Hu.
    + subst uid'. rewrite lookup_insert_eq. simpl.
      destruct (map snd (List.filter _ l)); simpl; [done|].
      by rewrite <- app_assoc.
    + by rewrite lookup_insert_ne.
Qed.

Lemma match_pkg_some p proc pkg :
  In (p, proc) hs -> match_pkg hs p pkg = p.
Proof.
  intros Hin. unfold match_pkg.
  destruct (List.find _ hs) as [h|] eqn:Hf.
  - apply List.find_some in Hf as [_ Heq]. by apply bool_decide_eq_true in Heq.
  - apply (List.find_none _ _ Hf) in Hin. simpl in Hin.
    by rewrite bool_decide_eq_true_2 in Hin.
Qed.

(** Attributes that are neither [name] nor a uid key change nothing. *)
Lemma run_attrs_plain pre rest pkg m :
  Forall (fun kv => kv.1 <> str "name" /\ ~ is_uid_key kv.1) pre ->
  run_attrs parse_int hs (pre ++ rest) pkg m = run_attrs parse_int hs rest pkg m.
Proof.
  induction pre as [|[k v] pre IH]; intros Hpre; [done|].
  inversion Hpre as [|? ? [Hn Hu] Hpre']; subst. simpl in Hn, Hu.
  cbn [app run_attrs fst snd]. rewrite (on_attribute_other parse_int hs) by done.
  by apply IH.
Qed.

(** X3: a well-formed record whose first attribute is the name of a
    package with rules, followed by one [userId] or [sharedUserId]
    attribute among attributes of other keys, appends the process names of
    exactly the rules for that package, in rule order, to the list of that
    uid, and leaves every other uid as it was. *)
Theorem X3_record_adds_rules_of_package
    (p u k : text) (mid post : list (text * text)) (m : gmap Z (list text)) :
  Forall wf_attr ((str "name", p) :: mid ++ (k, u) :: post) ->
  is_uid_key k ->
  Forall (fun kv => kv.1 <> str "name" /\ ~ is_uid_key kv.1) mid ->
  Forall (fun kv => kv.1 <> str "name" /\ ~ is_uid_key kv.1) post ->
  p <> [] ->
  (exists proc, In (p, proc) hs) ->
  exists m',
    parse_packages_xml parse_int hs
      (package_line ((str "name", p) :: mid ++ (k, u) :: post)) m = Ok m' /\
    m' !! parse_int u = Some (default [] (m !! parse_int u) ++ procs_of hs p) /\
    procs_of hs p <> [] /\
    forall uid, uid <> parse_int u -> m' !! uid = m !! uid.
Proof.
  intros Hwf Hk Hmid Hpost Hp [proc Hin].
  exists (add_procs hs p (parse_int u) m).
  assert (Hprocs : procs_of hs p <> []).
  { unfold procs_of. intros Hnil. apply map_eq_nil in Hnil.
    assert (Hf : In (p, proc) (List.filter (fun h => bool_decide (h.1 = p)) hs)).
    { apply filter_In. split; [done|]. by apply bool_decide_eq_true. }
    by rewrite Hnil in Hf. }
  split; [|split; [|split; [done|]]].
  - rewrite (parse_package_line parse_int hs) by done.
    cbn [run_attrs fst snd].
    rewrite (on_attribute_name parse_int hs), (match_pkg_some p proc) by done.
    rewrite bool_decide_eq_false_2 by done.
    rewrite run_attrs_plain by done. cbn [run_attrs fst snd].
    rewrite (on_attribute_uid parse_int hs) by done. f_equal.
    apply (run_attrs_no_uid parse_int hs).
    eapply Forall_impl; [exact Hpost|]. by intros kv [_ Hu].
  - rewrite add_procs_lookup. rewrite decide_True by done.
    by destruct (procs_of hs p).
  - intros uid Hne. rewrite add_procs_lookup. by rewrite decide_False.
Qed.

Lemma strchr_at_null l c r i :
  c <> NUL ->
  Forall (fun x => x <> c /\ x <> NUL) l ->
  strchr_at (l ++ NUL :: r) c i = Null.
Proof.
  intros Hc. revert i; induction l as [|x l IH]; intros i Hl; simpl.
  - case_bool_decide; [congruence|]. try case_bool_decide; done.
  - inversion Hl as [|? ? [Hx Hn] Hl']; subst.
    rewrite !bool_decide_eq_false_2 by done. by apply IH.
Qed.

(** The loop on a run of attributes each followed by one more byte. *)
Lemma attr_loop_spaced kvs :
  forall fuel b tok pkg m tail,
    Forall wf_attr kvs ->
    drop tok b = spaced kvs ++ tail ->
    exists b' tok',
      drop tok' b' = tail /\
      attr_loop parse_int (length kvs + fuel) hs b tok pkg m =
        match scan_attrs parse_int hs kvs pkg m with
        | inl m' => Ok m'
        | inr (pkg', m') => attr_loop parse_int fuel hs b' tok' pkg' m'
        end.
Proof.
  induction kvs as [|[k v] rest IH]; intros fuel b tok pkg m tail Hwf Hd.
  - by exists b, tok.
  - inversion Hwf as [|? ? [Hk Hv] Hrest]; subst. simpl in Hk, Hv.
    assert (Hshape : spaced ((k, v) :: rest) ++ tail =
                     k ++ EQUALS :: DQUOTE :: v ++ DQUOTE :: BLANK ::
                       (spaced rest ++ tail)).
    { unfold spaced. cbn [flat_map]. unfold attribute. cbn [fst snd].
      repeat (rewrite <- app_assoc; simpl). done. }
    rewrite Hshape in Hd.
    destruct (attr_loop_round parse_int hs (length rest + fuel) b tok k DQUOTE v _ _
                pkg m Hd Hk Hv) as (b1 & tok1 & Hd1 & Hloop).
    cbn [length Nat.add scan_attrs fst snd]. rewrite Hloop.
    destruct (on_attribute parse_int hs k v pkg m) as [[pkg1 m1]|].
    + by apply IH.
    + by exists tail, 0%nat.
Qed.

Lemma attributes_snoc pre last :
  attributes (pre ++ [last]) = spaced pre ++ attribute last.
Proof.
  induction pre as [|kv pre IH]; [done|].
  change ((kv :: pre) ++ [last]) with (kv :: (pre ++ [last])).
  destruct (pre ++ [last]) as [|kv' rest] eqn:Hl; [by destruct pre|].
  change (attributes (kv :: kv' :: rest))
    with (attribute kv ++ [BLANK] ++ attributes (kv' :: rest)).
  rewrite IH. unfold spaced. cbn [flat_map]. by rewrite <- !app_assoc.
Qed.

Lemma spaced_length kvs : (length kvs <= length (spaced kvs))%nat.
Proof.
  induction kvs as [|kv kvs IH]; [done|].
  unfold spaced in *. cbn [flat_map]. rewrite !length_app. simpl. lia.
Qed.

(** X4: a record line that stops right behind the closing quote of its
    last attribute, without the final [>], loses that quote to the
    terminator the parser writes over the last byte of every line: unless
    an earlier [name] attribute has already ended the record, the search
    for the quote answers [nullptr] and the parser stores through it. *)
Theorem X4_record_without_closing_bracket
    (pre : list (text * text)) (last : text * text) (m : gmap Z (list text)) :
  Forall wf_attr (pre ++ [last]) ->
  parse_packages_xml parse_int hs
    (str "<package " ++ attributes (pre ++ [last])) m =
    match scan_attrs parse_int hs pre [] m with
    | inl m' => Ok m'
    | inr _ => Fault
    end.
Proof.
  intros Hwf. apply Forall_app in Hwf as [Hpre Hlast].
  inversion Hlast as [|? ? [Hk Hv] _]; subst. destruct last as [k v].
  simpl in Hk, Hv.
  unfold parse_packages_xml. rewrite str_starts_app. cbn [negb].
  rewrite attributes_snoc. set (P := str "<package ").
  set (tail := k ++ EQUALS :: DQUOTE :: v ++ [NUL; NUL]).
  assert (Hbuf : <[(length (P ++ spaced pre ++ attribute (k, v)) - 1)%nat := NUL]>
                   ((P ++ spaced pre ++ attribute (k, v)) ++ [NUL]) =
                 P ++ spaced pre ++ tail).
  { unfold attribute, tail. cbn [fst snd].
    replace ((P ++ spaced pre ++ k ++ [EQUALS; DQUOTE] ++ v ++ [DQUOTE]) ++ [NUL])
      with ((P ++ spaced pre ++ k ++ [EQUALS; DQUOTE] ++ v) ++ [DQUOTE; NUL])
      by (repeat (rewrite <- app_assoc; simpl); done).
    replace (length (P ++ spaced pre ++ k ++ [EQUALS; DQUOTE] ++ v ++ [DQUOTE]) - 1)%nat
      with (length (P ++ spaced pre ++ k ++ [EQUALS; DQUOTE] ++ v) + 0)%nat
      by (rewrite !length_app; simpl; lia).
    rewrite insert_app_r. simpl.
    repeat (rewrite <- app_assoc; simpl). done. }
  rewrite Hbuf.
  pose proof (spaced_length pre) as Hlen.
  replace (length (P ++ spaced pre ++ attribute (k, v)))
    with (length pre + S (length (P ++ spaced pre ++ attribute (k, v)) - length pre - 1))%nat
    by (rewrite !length_app; unfold attribute; rewrite !length_app; simpl; lia).
  destruct (attr_loop_spaced pre
              (S (length (P ++ spaced pre ++ attribute (k, v)) - length pre - 1))
              (P ++ spaced pre ++ tail) 9 [] m tail Hpre)
    as (b' & tok' & Hd & ->).
  { change 9%nat with (length P + 0)%nat. by rewrite drop_app_add. }
  destruct (scan_attrs parse_int hs pre [] m) as [m'|[pkg' m']]; [done|].
  cbn [attr_loop].
  assert (Hfrom : forall n, drop (tok' + n) b' = drop n (drop tok' b'))
    by (intros n; by rewrite drop_drop).
  assert (Hhead : exists c, b' !! tok' = Some c /\ c <> NUL).
  { pose proof (lookup_drop b' tok' 0) as Hl. rewrite Nat.add_0_r in Hl.
    rewrite <- Hl, Hd. unfold tail.
    destruct Hk as [|c k' [_ Hc] _]; simpl; eauto. }
  destruct Hhead as (c & -> & Hc).
  rewrite bool_decide_eq_false_2 by done.
  assert (Heq : strchr b' tok' EQUALS = Found (tok' + length k)%nat).
  { unfold strchr. rewrite Hd. unfold tail. by apply strchr_at_skip. }
  rewrite Heq.
  assert (Hq : strchr (<[(tok' + length k)%nat := NUL]> b')
                 (tok' + length k + 2) DQUOTE = Null).
  { unfold strchr. rewrite drop_insert_lt by lia.
    replace (tok' + length k + 2)%nat with (tok' + (length k + 2))%nat by lia.
    rewrite Hfrom, Hd. unfold tail. rewrite drop_app_add. simpl.
    rewrite ?drop_0. apply strchr_at_null; [by vm_compute|done]. }
  by rewrite Hq.
Qed.

(** X5: lines that do not start with the record tag never matter to a
    refresh: with them left out of the database the result is the same. *)
Theorem X5_other_lines_are_skipped (lines : list text) (m : gmap Z (list text)) :
  file_readline parse_int hs (List.filter is_package_line lines) m =
  file_readline parse_int hs lines m.
Proof.
  revert m; induction lines as [|l lines IH]; intros m; [done|].
  cbn [List.filter]. unfold is_package_line at 1.
  destruct (str_starts l (str "<package ")) eqn:Hl.
  - cbn [file_readline].
    destruct (parse_packages_xml parse_int hs l m); simpl; [apply IH|done|done].
  - cbn [file_readline]. unfold parse_packages_xml at 1. rewrite Hl. simpl.
    apply IH.
Qed.

End PackageDatabaseMore.

Lemma X1_records_only_append_witness :
  exists extra,
    Forall (rule_proc Scenario.rules) extra /\
    ({[ 10123 := [str "com.x"] ]} : gmap Z (list text)) !! 10123 =
      match extra with
      | [] => (∅ : gmap Z (list text)) !! 10123
      | _ :: _ => Some (default [] ((∅ : gmap Z (list text)) !! 10123) ++ extra)
      end.
Proof.
  apply (X1_records_only_append parse_decimal Scenario.rules
           [Scenario.record_com_x] ∅ {[ 10123 := [str "com.x"] ]}).
  vm_compute. reflexivity.
Defined.

Lemma X2_refreshed_map_holds_rule_names_witness :
  [str "com.x"] <> [] /\ Forall (rule_proc Scenario.rules) [str "com.x"].
Proof.
  apply (proj1 (X2_refreshed_map_holds_rule_names parse_decimal Scenario.rules
                  [Scenario.record_com_x] ∅ Scenario.uid_map
                  ltac:(vm_compute; reflexivity)) 10123).
  reflexivity.
Defined.

Lemma X3_record_adds_rules_of_package_witness :
  exists m',
    parse_packages_xml parse_decimal Scenario.rules
      (package_line ((str "name", str "com.x") ::
                     [(str "codePath", str "/data/app/x")] ++
                     (str "userId", str "10123") :: [])) ∅ = Ok m' /\
    m' !! 10123 = Some [str "com.x"].
Proof.
  destruct (X3_record_adds_rules_of_package parse_decimal Scenario.rules
              (str "com.x") (str "10123") (str "userId")
              [(str "codePath", str "/data/app/x")] [] ∅)
    as (m' & Hok & Hlook & _).
  - repeat constructor; vm_compute; by intros [=].
  - by left.
  - repeat constructor; [by vm_compute|].
    intros [Hu|Hu]; vm_compute in Hu; discriminate Hu.
  - constructor.
  - by vm_compute.
  - exists (str "com.x"). by left.
  - exists m'. split; [exact Hok|]. exact Hlook.
Defined.

Lemma X4_record_without_closing_bracket_witness :
  parse_packages_xml parse_decimal Scenario.rules
    (str "<package " ++
       attributes ([(str "name", str "com.x")] ++ [(str "userId", str "10123")])) ∅ =
  Fault.
Proof.
  apply (X4_record_without_closing_bracket parse_decimal Scenario.rules
           [(str "name", str "com.x")] (str "userId", str "10123") ∅).
  repeat constructor; vm_compute; by intros [=].
Defined.

(** * The branches of the loop body *)

Section LoopBranches.

Ltac norm_calls := repeat (rewrite <- app_assoc; simpl).

Lemma is_classified_intro w s :
  passes_first_test w s = true -> is_event_stop w = true ->
  zygote_map s !! w_pid w = None ->
  (WEVENT (w_status w) =? PTRACE_EVENT_CLONE) = true ->
  Z.testbit (attaches s) (w_pid w) = true ->
  is_classified w s = true.
Proof.
  unfold passes_first_test, is_event_stop, is_classified.
  rewrite !andb_true_iff. intros [[Hr Hst] Hd] [Hsig _] Hz Hev Ha.
  rewrite Hr, Hst, Hd, Hsig, Hev, Ha. simpl.
  by rewrite bool_decide_eq_true_2.
Qed.

Lemma is_classified_elim w s :
  is_classified w s = true ->
  Bitset.in_range (w_pid w) = true /\ WIFSTOPPED (w_status w) = true /\
  Z.testbit (detaches s) (w_pid w) = false /\
  (WSTOPSIG (w_status w) =? SIGTRAP) = true /\
  (WEVENT (w_status w) =? 0) = false /\
  zygote_map s !! w_pid w = None /\
  Z.testbit (attaches s) (w_pid w) = true.
Proof.
  unfold is_classified. rewrite !andb_true_iff, negb_true_iff.
  intros [[[[[[Hr Hst] Hd] Hsig] Hev] Hz] Ha].
  apply bool_decide_eq_true in Hz. apply Z.eqb_eq in Hev as Hev'.
  repeat split; try done. by rewrite Hev'.
Qed.

Lemma passes_first_test_elim w s :
  passes_first_test w s = true ->
  Bitset.in_range (w_pid w) = true /\ WIFSTOPPED (w_status w) = true /\
  Z.testbit (detaches s) (w_pid w) = false.
Proof.
  unfold passes_first_test. rewrite !andb_true_iff, negb_true_iff.
  by intros [[Hr Hst] Hd].
Qed.

(** Past the first test with a stop that is no event stop. *)
Lemma proc_monitor_step_signal w s :
  passes_first_test w s = true -> is_event_stop w = false ->
  proc_monitor_step w s =
    if WSTOPSIG (w_status w) =? SIGSTOP then
      Ok (tt, add_calls s [PtraceSetOptions (w_pid w) child_options;
                           PtraceCont (w_pid w) 0])
    else Ok (tt, add_calls s [PtraceCont (w_pid w) (WSTOPSIG (w_status w))]).
Proof.
  intros (Hr & Hst & Hd)%passes_first_test_elim Hev.
  unfold is_event_stop in Hev. unfold proc_monitor_step.
  apply in_range_spec in Hr as Hr'.
  rewrite (proj2 (Z.ltb_ge _ _)) by lia.
  rewrite Hst, Hev. simpl.
  unfold mbind at 1, M_bind at 1, detaches_get, rbind, Bitset.get.
  rewrite Hr, Hd. simpl.
  destruct (WSTOPSIG (w_status w) =? SIGSTOP);
    unfold mbind, M_bind, call, add_calls; simpl; by norm_calls.
Qed.

(** Every pass of the loop body that returns is one of the branches. *)
Theorem proc_monitor_step_cases w s u s' :
  proc_monitor_step w s = Ok (u, s') -> step_case w s s'.
Proof.
  intros Hok.
  destruct (w_pid w <? 0) eqn:Hneg.
  { unfold proc_monitor_step in Hok. rewrite Hneg in Hok.
    injection Hok as _ <-. apply case_wait_failed. by apply Z.ltb_lt. }
  apply Z.ltb_ge in Hneg.
  destruct (Bitset.in_range (w_pid w)) eqn:Hr.
  2:{ rewrite proc_monitor_step_out_of_range in Hok; [done|].
      apply in_range_false in Hr. lia. }
  destruct (WIFSTOPPED (w_status w)) eqn:Hst.
  2:{ rewrite proc_monitor_step_skip, detach_task_spec in Hok by auto.
      injection Hok as _ <-. apply case_detach_now; auto. }
  destruct (Z.testbit (detaches s) (w_pid w)) eqn:Hd.
  { rewrite proc_monitor_step_skip, detach_task_spec in Hok;
      [|done|done|right; unfold Bitset.get; by rewrite Hr, Hd].
    injection Hok as _ <-. apply case_detach_now; auto. }
  assert (Hpass : passes_first_test w s = true)
    by (unfold passes_first_test; by rewrite Hr, Hst, Hd).
  destruct (is_event_stop w) eqn:Hes.
  2:{ rewrite proc_monitor_step_signal in Hok by done.
      destruct (WSTOPSIG (w_status w) =? SIGSTOP) eqn:Hsig;
        injection Hok as _ <-.
      - apply case_first_stop; try done. by apply Z.eqb_eq.
      - apply case_signal; try done. by apply Z.eqb_neq. }
  unfold is_event_stop in Hes. apply andb_true_iff in Hes as [Hsig Hev].
  apply negb_true_iff in Hev.
  assert (Hes : is_event_stop w = true)
    by (unfold is_event_stop; by rewrite Hsig, Hev).
  rewrite proc_monitor_step_past_skip in Hok by done. cbv zeta in Hok.
  destruct (bool_decide (is_Some (zygote_map s !! w_pid w))) eqn:Hz.
  - apply bool_decide_eq_true in Hz as Hz'.
    destruct ((WEVENT (w_status w) =? PTRACE_EVENT_FORK) ||
              (WEVENT (w_status w) =? PTRACE_EVENT_VFORK)) eqn:Hfork.
    + unfold mbind, M_bind, attaches_set, rbind, Bitset.set, call in Hok.
      simpl in Hok.
      destruct (Bitset.in_range (w_msg w)) eqn:Hm; [|done].
      injection Hok as _ <-. norm_calls.
      apply case_zygote_fork; [|done].
      unfold is_zygote_fork. by rewrite Hr, Hst, Hd, Hsig, Hfork, Hz.
    + unfold mbind at 1, M_bind at 1, set_zygote_map in Hok.
      rewrite detach_task_spec in Hok by done.
      injection Hok as _ <-. simpl. norm_calls.
      by apply case_zygote_gone.
  - apply bool_decide_eq_false in Hz.
    assert (Hnone : zygote_map s !! w_pid w = None).
    { destruct (zygote_map s !! w_pid w) eqn:Hl; [|done]. destruct Hz. eauto. }
    destruct (WEVENT (w_status w) =? PTRACE_EVENT_CLONE) eqn:Hclone.
    2:{ rewrite detach_task_spec in Hok by done.
        injection Hok as _ <-. simpl. norm_calls.
        apply case_other_event; try done. by apply Z.eqb_neq. }
    destruct (Z.testbit (attaches s) (w_pid w)) eqn:Ha.
    2:{ unfold call in Hok. injection Hok as _ <-. simpl. norm_calls.
        apply case_clone_unattached; try done. by apply Z.eqb_eq. }
    assert (Hcl : is_classified w s = true) by (by apply is_classified_intro).
    destruct (cmdline (w_fs w) (w_pid w)) as [cmd|] eqn:Hc.
    2:{ erewrite bind_Ok in Hok by (by apply check_pid_vanished).
        unfold mret, M_ret in Hok. injection Hok as _ <-.
        by apply case_vanished. }
    destruct (strncmp_eq cmd (str "zygote") 6) eqn:Hzy.
    { erewrite bind_Ok in Hok by (by apply (check_pid_zygote _ _ cmd)).
      unfold call in Hok. injection Hok as _ <-. simpl. norm_calls.
      by apply (case_still_zygote w s cmd). }
    unfold mbind at 1, M_bind at 1 in Hok.
    rewrite (check_pid_classify _ _ cmd) in Hok by done.
    match type of Hok with
    | context [classify ?fs ?pid ?c ?s1] =>
        change (classify fs pid c s1) with (classify fs pid c s) in Hok
    end.
    destruct (classify (w_fs w) (w_pid w) cmd s) eqn:Hcls.
    + unfold mbind at 1, M_bind at 1 in Hok.
      destruct (detach_pid _ _ SIGSTOP _) as [[u1 s1]| |] eqn:Hdp; try done.
      apply detach_pid_inv in Hdp as (_ & Hall & ->).
      unfold mbind, M_bind, call, mret, M_ret in Hok. simpl in Hok.
      injection Hok as _ <-. norm_calls.
      by apply (case_target w s cmd).
    + unfold mbind at 1, M_bind at 1 in Hok.
      destruct (detach_pid _ _ 0 _) as [[u1 s1]| |] eqn:Hdp; try done.
      apply detach_pid_inv in Hdp as (_ & Hall & ->).
      unfold mret, M_ret in Hok. injection Hok as _ <-. simpl. norm_calls.
      by apply (case_not_target w s cmd).
Qed.

(** Conversely, each branch is a pass of the loop body that returns. *)
Theorem step_case_runs w s s' :
  step_case w s s' -> proc_monitor_step w s = Ok (tt, s').
Proof.
  intros Hcase. destruct Hcase.
  - unfold proc_monitor_step. by rewrite (proj2 (Z.ltb_lt _ _)).
  - rewrite proc_monitor_step_skip, detach_task_spec; try done.
    + apply in_range_spec in H. lia.
    + destruct H0 as [?|Hd]; [by left|right].
      unfold Bitset.get. by rewrite H, Hd.
  - rewrite proc_monitor_step_zygote_fork by done.
    unfold mbind, M_bind, attaches_set, rbind, Bitset.set, call. simpl.
    rewrite H0. simpl. by norm_calls.
  - apply passes_first_test_elim in H as (Hr & Hst & Hd).
    unfold is_event_stop in H0. apply andb_true_iff in H0 as [Hsig Hev].
    apply negb_true_iff in Hev. unfold is_fork_event in H2.
    rewrite proc_monitor_step_past_skip by done. cbv zeta.
    rewrite bool_decide_eq_true_2, H2 by done.
    unfold mbind at 1, M_bind at 1, set_zygote_map.
    rewrite detach_task_spec by done. simpl. by norm_calls.
  - apply passes_first_test_elim in H as (Hr & Hst & Hd).
    unfold is_event_stop in H0. apply andb_true_iff in H0 as [Hsig Hev].
    apply negb_true_iff in Hev.
    rewrite proc_monitor_step_past_skip by done. cbv zeta.
    rewrite bool_decide_eq_false_2 by (rewrite H1; by intros [? ?]).
    rewrite H2, Z.eqb_refl, H3. unfold call, add_calls. simpl. by norm_calls.
  - rewrite proc_monitor_step_classified by done.
    erewrite bind_Ok by (by apply check_pid_vanished). done.
  - rewrite proc_monitor_step_classified by done.
    erewrite bind_Ok by (by apply (check_pid_zygote _ _ cmd)).
    unfold call, add_calls. simpl. by norm_calls.
  - rewrite proc_monitor_step_classified by done.
    apply is_classified_elim in H as (Hr & _).
    unfold mbind at 1, M_bind at 1.
    rewrite (check_pid_classify _ _ cmd) by done.
    match goal with
    | |- context [classify ?fs ?pid ?c ?s1] =>
        change (classify fs pid c s1) with (classify fs pid c s)
    end.
    rewrite H2. erewrite bind_Ok by (by apply detach_pid_spec).
    unfold mbind, M_bind, call, mret, M_ret. simpl. by norm_calls.
  - rewrite proc_monitor_step_classified by done.
    apply is_classified_elim in H as (Hr & _).
    unfold mbind at 1, M_bind at 1.
    rewrite (check_pid_classify _ _ cmd) by done.
    match goal with
    | |- context [classify ?fs ?pid ?c ?s1] =>
        change (classify fs pid c s1) with (classify fs pid c s)
    end.
    rewrite H2. erewrite bind_Ok by (by apply detach_pid_spec).
    unfold mret, M_ret. simpl. by norm_calls.
  - apply passes_first_test_elim in H as (Hr & Hst & Hd).
    unfold is_event_stop in H0. apply andb_true_iff in H0 as [Hsig Hev].
    apply negb_true_iff in Hev.
    rewrite proc_monitor_step_past_skip by done. cbv zeta.
    rewrite bool_decide_eq_false_2 by (rewrite H1; by intros [? ?]).
    rewrite (proj2 (Z.eqb_neq _ _)) by done.
    rewrite detach_task_spec by done. simpl. by norm_calls.
  - rewrite proc_monitor_step_signal by done.
    by rewrite H1, Z.eqb_refl.
  - rewrite proc_monitor_step_signal by done.
    by rewrite (proj2 (Z.eqb_neq _ _)).
Qed.

(** With every number the kernel reports below [PID_MAX], some branch
    applies. *)
Theorem step_case_total w s :
  w_pid w < PID_MAX ->
  (is_zygote_fork w s = true -> Bitset.in_range (w_msg w) = true) ->
  (forall cmd,
     is_classified w s = true ->
     cmdline (w_fs w) (w_pid w) = Some cmd ->
     strncmp_eq cmd (str "zygote") 6 = false ->
     Forall (fun tid => stop_requested (w_fs w) (w_pid w) tid = true ->
                        Bitset.in_range tid = true)
            (task_dir (w_fs w) (w_pid w))) ->
  exists s', step_case w s s'.
Proof.
  intros Hpid Hmsg Htids.
  destruct (Z.lt_ge_cases (w_pid w) 0) as [Hneg|Hneg].
  { eexists. by apply case_wait_failed. }
  assert (Hr : Bitset.in_range (w_pid w) = true) by (by apply in_range_spec).
  destruct (WIFSTOPPED (w_status w)) eqn:Hst.
  2:{ eexists. apply case_detach_now; auto. }
  destruct (Z.testbit (detaches s) (w_pid w)) eqn:Hd.
  { eexists. apply case_detach_now; auto. }
  assert (Hpass : passes_first_test w s = true)
    by (unfold passes_first_test; by rewrite Hr, Hst, Hd).
  destruct (is_event_stop w) eqn:Hes.
  2:{ destruct (decide (WSTOPSIG (w_status w) = SIGSTOP)).
      - eexists. by apply case_first_stop.
      - eexists. by apply case_signal. }
  destruct (zygote_map s !! w_pid w) as [zst|] eqn:Hz.
  - destruct (is_fork_event w) eqn:Hfork.
    + assert (Hzf : is_zygote_fork w s = true).
      { unfold is_event_stop in Hes. apply andb_true_iff in Hes as [Hsig _].
        unfold is_fork_event in Hfork. unfold is_zygote_fork.
        rewrite Hr, Hst, Hd, Hsig, Hfork, Hz. done. }
      eexists. apply case_zygote_fork; auto.
    + eexists. apply case_zygote_gone; try done.
  - destruct (decide (WEVENT (w_status w) = PTRACE_EVENT_CLONE)) as [Hclone|Hclone].
    2:{ eexists. by apply case_other_event. }
    destruct (Z.testbit (attaches s) (w_pid w)) eqn:Ha.
    2:{ eexists. by apply case_clone_unattached. }
    assert (Hcl : is_classified w s = true).
    { apply is_classified_intro; try done. by rewrite Hclone. }
    destruct (cmdline (w_fs w) (w_pid w)) as [cmd|] eqn:Hc.
    2:{ eexists. by apply case_vanished. }
    destruct (strncmp_eq cmd (str "zygote") 6) eqn:Hzy.
    { eexists. by apply (case_still_zygote w s cmd). }
    destruct (classify (w_fs w) (w_pid w) cmd s) eqn:Hcls.
    + eexists. apply (case_target w s cmd); eauto.
    + eexists. apply (case_not_target w s cmd); eauto.
Qed.

End LoopBranches.

(** * Discovery and the file watcher *)

Section Discovery.

Variable pt : proctable.
Variable fs : procfs.

Lemma check_zygote_entry_spec pid s :
  check_zygote_entry pt fs pid s =
    Ok (tt, match zygote_ns pt fs pid with
            | None => s
            | Some st =>
                mkState (<[pid := st]> (zygote_map s)) (uid_proc_map s)
                  (attaches s) (detaches s)
                  (match zygote_map s !! pid with
                   | Some _ => calls s
                   | None => calls s ++ attach_calls pid
                   end)
            end).
Proof.
  unfold check_zygote_entry, zygote_ns.
  destruct (cmdline fs pid) as [buf|]; [|done].
  destruct (strncmp_eq buf (str "zygote") 6 && (parse_ppid pt pid =? 1)); [|done].
  apply new_zygote_spec.
Qed.

(** A crawl over entries that are all registered with the namespace they
    show changes nothing. *)
Lemma check_zygote_entries_settled pids :
  forall s,
    (forall p st, In p pids -> zygote_ns pt fs p = Some st ->
                  zygote_map s !! p = Some st) ->
    for_each pids (check_zygote_entry pt fs) s = Ok (tt, s).
Proof.
  induction pids as [|p pids IH]; intros s Hs; [done|].
  cbn [for_each].
  assert (Hp : check_zygote_entry pt fs p s = Ok (tt, s)).
  { rewrite check_zygote_entry_spec.
    destruct (zygote_ns pt fs p) as [st|] eqn:Hns; [|done].
    rewrite (Hs p st) by (by left || done).
    rewrite insert_id by (apply Hs; by left || done).
    by rewrite state_eta. }
  rewrite (bind_Ok _ _ _ _ _ Hp). apply IH. intros q st Hq. apply Hs. by right.
Qed.

(** What a crawl over [pids] leaves. *)
Lemma check_zygote_entries pids :
  forall s, exists s' l,
    for_each pids (check_zygote_entry pt fs) s = Ok (tt, s') /\
    uid_proc_map s' = uid_proc_map s /\
    attaches s' = attaches s /\ detaches s' = detaches s /\
    calls s' = calls s ++ l /\
    (forall p st, In p pids -> zygote_ns pt fs p = Some st ->
                  zygote_map s' !! p = Some st) /\
    (forall p, ~ (In p pids /\ is_Some (zygote_ns pt fs p)) ->
               zygote_map s' !! p = zygote_map s !! p) /\
    (forall c, In c l ->
       exists p, In p pids /\ is_Some (zygote_ns pt fs p) /\
                 zygote_map s !! p = None /\ In c (attach_calls p)) /\
    (forall p, In p pids -> is_Some (zygote_ns pt fs p) ->
               zygote_map s !! p = None -> In (PtraceAttach p) l).
Proof.
  induction pids as [|p0 pids IH]; intros s.
  - exists s, []. rewrite app_nil_r.
    repeat split; try done; try (by intros ? ? []); by intros ? [].
  - cbn [for_each]. rewrite (bind_Ok _ _ _ _ _ (check_zygote_entry_spec p0 s)).
    destruct (zygote_ns pt fs p0) as [st0|] eqn:Hns0.
    + match goal with
      | |- context [for_each pids _ ?s1] =>
          destruct (IH s1) as (s' & l & Hrun & Hum & Ha & Hd & Hcalls & Hin & Hout & Hl & Hatt)
      end.
      cbn [zygote_map uid_proc_map attaches detaches calls] in *.
      exists s', ((match zygote_map s !! p0 with
                   | Some _ => []
                   | None => attach_calls p0
                   end) ++ l).
      split; [exact Hrun|]. repeat split; try done.
      * rewrite Hcalls. destruct (zygote_map s !! p0); simpl; [done|].
        by rewrite <- app_assoc.
      * intros p st [<-|Hp] Hns.
        -- destruct (in_dec Z.eq_dec p0 pids) as [Hp0|Hno].
           ++ by apply Hin.
           ++ rewrite Hout by (by intros [? ?]).
              rewrite lookup_insert_eq. congruence.
        -- by apply Hin.
      * intros p Hp. rewrite Hout by (intros [? ?]; apply Hp; split; [by right|done]).
        apply lookup_insert_ne. intros <-. apply Hp. split; [by left|eauto].
      * intros c [Hc|Hc]%in_app_or.
        -- destruct (zygote_map s !! p0) eqn:Hz; [done|].
           exists p0. repeat split; [by left|eauto|done|done].
        -- destruct (Hl c Hc) as (p & Hp & Hq & Hz & Hcp).
           exists p. repeat split; [by right|done| |done].
           destruct (decide (p = p0)) as [->|Hne].
           ++ by rewrite lookup_insert_eq in Hz.
           ++ by rewrite lookup_insert_ne in Hz.
      * intros p [<-|Hp] Hq Hz.
        -- rewrite Hz. apply in_or_app. left. by left.
        -- destruct (decide (p = p0)) as [->|Hne].
           ++ rewrite Hz. apply in_or_app. left. by left.
           ++ apply in_or_app. right. apply Hatt; try done.
              by rewrite lookup_insert_ne.
    + destruct (IH s) as (s' & l & Hrun & Hum & Ha & Hd & Hcalls & Hin & Hout & Hl & Hatt).
      exists s', l. split; [exact Hrun|]. repeat split; try done.
      * intros p st [<-|Hp] Hns; [congruence|by apply Hin].
      * intros p Hp. apply Hout. intros [Hpin Hq]. apply Hp. split; [by right|done].
      * intros c Hc. destruct (Hl c Hc) as (p & Hp & Hq & Hz & Hcp).
        exists p. repeat split; [by right|done|done|done].
      * intros p [<-|Hp] Hq Hz; [rewrite Hns0 in Hq; by destruct Hq|].
        by apply Hatt.
Qed.

(** X6: [check_zygote] never faults.  Afterwards [zygote_map] holds, for
    every entry of /proc whose command line starts with zygote, whose
    parent is PID 1 and whose mount namespace can be read, exactly that
    namespace, and is unchanged everywhere else; it attaches to exactly
    those of them that were not registered before, and touches neither
    [uid_proc_map] nor the two bitsets. *)
Theorem X6_check_zygote_registers_zygotes_of_init (s : state) :
  exists s',
    check_zygote pt fs s = Ok (tt, s') /\
    (forall p st, In p (proc_pids pt) -> zygote_ns pt fs p = Some st ->
                  zygote_map s' !! p = Some st) /\
    (forall p, ~ (In p (proc_pids pt) /\ is_Some (zygote_ns pt fs p)) ->
               zygote_map s' !! p = zygote_map s !! p) /\
    (forall p, In (PtraceAttach p) (new_calls s s') <->
               In p (proc_pids pt) /\ is_Some (zygote_ns pt fs p) /\
               zygote_map s !! p = None) /\
    uid_proc_map s' = uid_proc_map s /\
    attaches s' = attaches s /\ detaches s' = detaches s.
Proof.
  destruct (check_zygote_entries (proc_pids pt) s)
    as (s' & l & Hrun & Hum & Ha & Hd & Hcalls & Hin & Hout & Hl & Hatt).
  exists s'. split; [exact Hrun|]. split; [exact Hin|]. split; [exact Hout|].
  split; [|by rewrite Hum, Ha, Hd].
  intros p. unfold new_calls. rewrite Hcalls, drop_app_length. split.
  - intros Hp. destruct (Hl _ Hp) as (q & Hq & Hns & Hz & Hc).
    unfold attach_calls in Hc. simpl in Hc.
    destruct Hc as [[= ->]|[Hc|[Hc|[Hc|[]]]]]; try discriminate Hc. done.
  - intros (Hp & Hns & Hz). by apply Hatt.
Qed.

(** X7: a second [check_zygote] over the same /proc changes nothing and
    makes no request: scanning twice is scanning once. *)
Theorem X7_rescan_is_idempotent (s : state) :
  (check_zygote pt fs ;; check_zygote pt fs) s = check_zygote pt fs s.
Proof.
  destruct (check_zygote_entries (proc_pids pt) s)
    as (s' & l & Hrun & _ & _ & _ & _ & Hin & _).
  unfold check_zygote. rewrite (bind_Ok _ _ _ _ _ Hrun), Hrun.
  by apply check_zygote_entries_settled.
Qed.

Lemma check_zygote_run s :
  exists s',
    check_zygote pt fs s = Ok (tt, s') /\
    check_zygote pt fs s' = Ok (tt, s') /\
    uid_proc_map s' = uid_proc_map s /\
    attaches s' = attaches s /\ detaches s' = detaches s /\
    (forall p st, In p (proc_pids pt) -> zygote_ns pt fs p = Some st ->
                  zygote_map s' !! p = Some st).
Proof.
  destruct (check_zygote_entries (proc_pids pt) s)
    as (s' & l & Hrun & Hum & Ha & Hd & _ & Hin & _).
  exists s'. split; [exact Hrun|]. split; [|done].
  by apply check_zygote_entries_settled.
Qed.

End Discovery.

Section Watcher.

Variable parse_int : text -> Z.
Variable hs : hide_set_t.

Lemma update_uid_map_st_spec lines s :
  update_uid_map_st parse_int hs lines s =
    match file_readline parse_int hs lines ∅ with
    | Ok m => Ok (tt, mkState (zygote_map s) m (attaches s) (detaches s) (calls s))
    | Fault => Fault
    | Timeout => Timeout
    end.
Proof.
  unfold update_uid_map_st, update_uid_map.
  by destruct (file_readline parse_int hs lines ∅).
Qed.

Lemma inotify_event_spec i s :
  inotify_event parse_int hs i s =
    if poll_ret i <=? 0 then Ok (tt, s)
    else if is_packages_event i then
      match file_readline parse_int hs (packages_xml i) ∅ with
      | Ok m =>
          check_zygote (seen_procs i) (seen_fs i)
            (mkState (zygote_map s) m (attaches s) (detaches s) (calls s))
      | Fault => Fault
      | Timeout => Timeout
      end
    else check_zygote (seen_procs i) (seen_fs i) s.
Proof.
  unfold inotify_event. destruct (poll_ret i <=? 0); [done|].
  destruct (is_packages_event i).
  - unfold mbind, M_bind. rewrite update_uid_map_st_spec.
    by destruct (file_readline parse_int hs (packages_xml i) ∅).
  - done.
Qed.

(** X8: a watcher event handled twice with the same findings leaves what
    handling it once leaves, whether the event concerns packages.xml or
    not (and faults the second time only if it did the first time). *)
Theorem X8_watcher_event_twice_is_once (i : inotify_input) (s : state) :
  (inotify_event parse_int hs i ;; inotify_event parse_int hs i) s =
  inotify_event parse_int hs i s.
Proof.
  unfold mbind, M_bind. rewrite (inotify_event_spec i s).
  destruct (poll_ret i <=? 0) eqn:Hp.
  { rewrite inotify_event_spec. by rewrite Hp. }
  destruct (is_packages_event i) eqn:Hev.
  - destruct (file_readline parse_int hs (packages_xml i) ∅) as [m1| |] eqn:Hf;
      [|done|done].
    match goal with
    | |- context [check_zygote _ _ ?s1] =>
        destruct (check_zygote_run (seen_procs i) (seen_fs i) s1)
          as (s' & Hrun & Hagain & Hum & _)
    end.
    rewrite Hrun. rewrite inotify_event_spec, Hp, Hev, Hf.
    simpl in Hum. by rewrite <- Hum, state_eta.
  - destruct (check_zygote_run (seen_procs i) (seen_fs i) s)
      as (s' & Hrun & Hagain & _).
    rewrite Hrun. by rewrite inotify_event_spec, Hp, Hev.
Qed.

(** X9: what a watcher event can do.  With nothing to read the state is
    left as it is.  Otherwise the two bitsets are left alone, [zygote_map]
    is rescanned, and [uid_proc_map] is replaced, by the refreshed map,
    exactly when the event is a close-after-write of a file named
    packages.xml; a package database the parser faults on takes the
    handler down before the rescan. *)
Theorem X9_watcher_event_effects (i : inotify_input) (s : state) :
  (poll_ret i <= 0 -> inotify_event parse_int hs i s = Ok (tt, s)) /\
  (0 < poll_ret i -> is_packages_event i = true ->
   update_uid_map parse_int hs (packages_xml i) (uid_proc_map s) = Fault ->
   inotify_event parse_int hs i s = Fault) /\
  (forall s',
     0 < poll_ret i ->
     inotify_event parse_int hs i s = Ok (tt, s') ->
     attaches s' = attaches s /\ detaches s' = detaches s /\
     (if is_packages_event i
      then update_uid_map parse_int hs (packages_xml i) (uid_proc_map s) =
             Ok (uid_proc_map s')
      else uid_proc_map s' = uid_proc_map s) /\
     (forall p st, In p (proc_pids (seen_procs i)) ->
                   zygote_ns (seen_procs i) (seen_fs i) p = Some st ->
                   zygote_map s' !! p = Some st)).
Proof.
  refine (conj _ (conj _ _)).
  - intros Hp. rewrite inotify_event_spec. by rewrite (proj2 (Z.leb_le _ _)).
  - intros Hp Hev Hf. rewrite inotify_event_spec.
    rewrite (proj2 (Z.leb_gt _ _)), Hev by done.
    unfold update_uid_map in Hf. by rewrite Hf.
  - intros s' Hp Hok. rewrite inotify_event_spec in Hok.
    rewrite (proj2 (Z.leb_gt _ _)) in Hok by done.
    destruct (is_packages_event i).
    + unfold update_uid_map.
      destruct (file_readline parse_int hs (packages_xml i) ∅) as [m1| |];
        [|done|done].
      match type of Hok with
      | check_zygote _ _ ?s1 = _ =>
          destruct (check_zygote_run (seen_procs i) (seen_fs i) s1)
            as (s2 & Hrun & _ & Hum & Ha & Hd & Hin)
      end.
      rewrite Hrun in Hok. injection Hok as <-.
      simpl in *. by rewrite Hum.
    + destruct (check_zygote_run (seen_procs i) (seen_fs i) s)
        as (s2 & Hrun & _ & Hum & Ha & Hd & Hin).
      rewrite Hrun in Hok. by injection Hok as <-.
Qed.

End Watcher.

(** * What the loop body does and never does *)

Section LoopProperties.

Lemma is_zygote_fork_elim w s :
  is_zygote_fork w s = true ->
  passes_first_test w s = true /\ is_event_stop w = true /\
  is_fork_event w = true /\ is_Some (zygote_map s !! w_pid w).
Proof.
  unfold is_zygote_fork, passes_first_test, is_event_stop, is_fork_event.
  rewrite !andb_true_iff. intros [[[[[Hr Hst] Hd] Hsig] Hev] Hz].
  apply bool_decide_eq_true in Hz. repeat split; try done.
  apply negb_true_iff.
  apply orb_true_iff in Hev as [Hev|Hev]; apply Z.eqb_eq in Hev;
    by rewrite Hev.
Qed.

Lemma is_classified_passes w s :
  is_classified w s = true ->
  passes_first_test w s = true /\ is_event_stop w = true /\
  zygote_map s !! w_pid w = None /\
  WEVENT (w_status w) = PTRACE_EVENT_CLONE /\
  Z.testbit (attaches s) (w_pid w) = true.
Proof.
  unfold is_classified, passes_first_test, is_event_stop.
  rewrite !andb_true_iff. intros [[[[[[Hr Hst] Hd] Hsig] Hev] Hz] Ha].
  apply bool_decide_eq_true in Hz. apply Z.eqb_eq in Hev.
  repeat split; try done. by rewrite Hev.
Qed.

Lemma step_case_calls w s s' :
  step_case w s s' -> exists l, calls s' = calls s ++ l /\ new_calls s s' = l.
Proof.
  intros Hcase. destruct Hcase; unfold add_calls;
    try (eexists; split; [reflexivity|apply new_calls_app]).
  exists []. split; [by rewrite app_nil_r|apply new_calls_same].
Qed.

(** X10: the loop body indexes a bitset out of bounds in three ways and
    no other.  It returns exactly when the woken PID is below [PID_MAX],
    the child named by a zygote's fork event is in [0, PID_MAX), and, when
    a PID with a readable command line not starting with zygote is
    classified, every thread [detach_pid] has to stop is in
    [0, PID_MAX). *)
Theorem X10_loop_returns_iff_in_bounds (w : wake) (s : state) :
  (exists s', proc_monitor_step w s = Ok (tt, s')) <->
  (w_pid w < PID_MAX /\
   (is_zygote_fork w s = true -> Bitset.in_range (w_msg w) = true) /\
   (forall cmd,
      is_classified w s = true ->
      cmdline (w_fs w) (w_pid w) = Some cmd ->
      strncmp_eq cmd (str "zygote") 6 = false ->
      Forall (fun tid => stop_requested (w_fs w) (w_pid w) tid = true ->
                         Bitset.in_range tid = true)
             (task_dir (w_fs w) (w_pid w)))).
Proof.
  split.
  - intros [s' Hok]. refine (conj _ (conj _ _)).
    + destruct (Z.lt_ge_cases (w_pid w) PID_MAX) as [|Hge]; [done|].
      by rewrite proc_monitor_step_out_of_range in Hok.
    + intros Hzf. destruct (Bitset.in_range (w_msg w)) eqn:Hm; [done|].
      rewrite proc_monitor_step_zygote_fork in Hok by done.
      rewrite bind_Fault in Hok; [done|].
      unfold attaches_set, rbind, Bitset.set. simpl. by rewrite Hm.
    + intros cmd Hcl Hc Hz.
      match goal with |- ?G => destruct (decide G) as [|Hex]; [done|] end.
      apply not_Forall_Exists in Hex; [|apply _].
      apply Exists_exists in Hex as (tid & Hin & Hbad).
      apply list_elem_of_In in Hin. unfold compose in Hbad. cbv beta in Hbad.
      destruct (stop_requested (w_fs w) (w_pid w) tid) eqn:Hs;
        [|exfalso; apply Hbad; intros Hx; discriminate Hx].
      destruct (Bitset.in_range tid) eqn:Hr;
        [exfalso; apply Hbad; intros _; reflexivity|].
      rewrite proc_monitor_step_classified in Hok by done.
      rewrite bind_Fault in Hok; [done|].
      rewrite (check_pid_classify _ _ cmd) by done.
      destruct (classify _ _ _ _); apply bind_Fault;
        by apply (detach_pid_fault_tid _ _ _ tid).
  - intros (Hpid & Hmsg & Htids).
    destruct (step_case_total w s Hpid Hmsg Htids) as [s' Hcase].
    exists s'. by apply step_case_runs.
Qed.

(** X11: the loop body never changes [uid_proc_map], and changes
    [zygote_map] in one way only: it erases the woken PID, exactly when
    that PID is registered, gets past the first test and is in an event
    stop other than FORK and VFORK.  A registered PID woken with a status
    that is no stop is therefore detached and left registered. *)
Theorem X11_loop_erases_zygote_only_on_event (w : wake) (s s' : state) :
  proc_monitor_step w s = Ok (tt, s') ->
  uid_proc_map s' = uid_proc_map s /\
  (if passes_first_test w s && is_event_stop w && negb (is_fork_event w) &&
      bool_decide (is_Some (zygote_map s !! w_pid w))
   then zygote_map s' = delete (w_pid w) (zygote_map s)
   else zygote_map s' = zygote_map s).
Proof.
  intros Hok. apply proc_monitor_step_cases in Hok.
  destruct Hok; cbn [uid_proc_map zygote_map add_calls]; (split; [done|]).
  - assert (Hr : Bitset.in_range (w_pid w) = false)
      by (apply in_range_false; lia).
    unfold passes_first_test. by rewrite Hr.
  - unfold passes_first_test. destruct H0 as [-> | ->];
      by rewrite ?andb_false_r.
  - apply is_zygote_fork_elim in H as (_ & _ & -> & _).
    by rewrite ?andb_false_r.
  - rewrite H, H0, H2. by rewrite bool_decide_eq_true_2.
  - rewrite H1. rewrite bool_decide_eq_false_2 by (by intros [? ?]).
    by rewrite ?andb_false_r.
  - apply is_classified_passes in H as (_ & _ & -> & _).
    rewrite bool_decide_eq_false_2 by (by intros [? ?]).
    by rewrite ?andb_false_r.
  - apply is_classified_passes in H as (_ & _ & -> & _).
    rewrite bool_decide_eq_false_2 by (by intros [? ?]).
    by rewrite ?andb_false_r.
  - apply is_classified_passes in H as (_ & _ & -> & _).
    rewrite bool_decide_eq_false_2 by (by intros [? ?]).
    by rewrite ?andb_false_r.
  - apply is_classified_passes in H as (_ & _ & -> & _).
    rewrite bool_decide_eq_false_2 by (by intros [? ?]).
    by rewrite ?andb_false_r.
  - rewrite H1. rewrite bool_decide_eq_false_2 by (by intros [? ?]).
    by rewrite ?andb_false_r.
  - rewrite H0. by rewrite ?andb_false_r.
  - rewrite H0. by rewrite ?andb_false_r.
Qed.

Lemma thread_calls_no_cont fs pid tids p sig :
  ~ In (PtraceCont p sig) (flat_map (thread_calls fs pid) tids).
Proof.
  intros Hin. apply thread_calls_kinds in Hin as [[t Ht]|[(t & _ & Ht)|[t Ht]]];
    discriminate Ht.
Qed.

Lemma thread_calls_no_detach_self fs pid tids sig :
  ~ In (PtraceDetach pid sig) (flat_map (thread_calls fs pid) tids).
Proof.
  intros Hin. apply thread_calls_kinds in Hin as [[t Ht]|[(t & Hne & Ht)|[t Ht]]];
    try discriminate Ht. injection Ht as -> _. done.
Qed.

Lemma thread_calls_no_daemon fs pid tids p :
  ~ In (ForkHideDaemon p) (flat_map (thread_calls fs pid) tids).
Proof.
  intros Hin. apply thread_calls_kinds in Hin as [[t Ht]|[(t & _ & Ht)|[t Ht]]];
    discriminate Ht.
Qed.

(** X12: every wake-up of a PID that is not negative is answered by a
    resume or by a detach of that PID, never by both; the one exception is
    a classified PID whose command line cannot be opened, for which the
    loop asks for the event message and nothing else. *)
Theorem X12_every_wake_up_is_answered (w : wake) (s s' : state) :
  proc_monitor_step w s = Ok (tt, s') ->
  0 <= w_pid w ->
  ~ ((exists sig, In (PtraceCont (w_pid w) sig) (new_calls s s')) /\
     (exists sig, In (PtraceDetach (w_pid w) sig) (new_calls s s'))) /\
  ((exists sig, In (PtraceCont (w_pid w) sig) (new_calls s s')) \/
   (exists sig, In (PtraceDetach (w_pid w) sig) (new_calls s s')) \/
   (is_classified w s = true /\ cmdline (w_fs w) (w_pid w) = None /\
    new_calls s s' = [PtraceGetEventMsg (w_pid w)])).
Proof.
  intros Hok Hpid. apply proc_monitor_step_cases in Hok.
  destruct Hok; unfold add_calls; rewrite ?new_calls_app.
  - lia.
  - split; [|right; left; exists 0; by left].
    intros [[sig Hc] _]. by destruct Hc as [Hc|[]].
  - split; [|left; exists 0; right; by left].
    intros [_ [sig Hd]]. by destruct Hd as [Hd|[Hd|[]]].
  - split; [|right; left; exists 0; right; by left].
    intros [[sig Hc] _]. by destruct Hc as [Hc|[Hc|[]]].
  - split; [|left; exists 0; right; by left].
    intros [_ [sig Hd]]. by destruct Hd as [Hd|[Hd|[]]].
  - split; [|by right; right].
    intros [[sig Hc] _]. by destruct Hc as [Hc|[]].
  - split; [|left; exists 0; right; by left].
    intros [_ [sig Hd]]. by destruct Hd as [Hd|[Hd|[]]].
  - split; [|right; left; exists SIGSTOP; right; by left].
    intros [[sig Hc] _]. simpl in Hc. destruct Hc as [Hc|[Hc|Hc]]; try done.
    apply in_app_or in Hc as [Hc|[Hc|[]]]; [|done].
    by apply thread_calls_no_cont in Hc.
  - split; [|right; left; exists 0; right; by left].
    intros [[sig Hc] _]. simpl in Hc. destruct Hc as [Hc|[Hc|Hc]]; try done.
    by apply thread_calls_no_cont in Hc.
  - split; [|right; left; exists 0; right; by left].
    intros [[sig Hc] _]. by destruct Hc as [Hc|[Hc|[]]].
  - split; [|left; exists 0; right; by left].
    intros [_ [sig Hd]]. by destruct Hd as [Hd|[Hd|[]]].
  - split; [|left; eexists; by left].
    intros [_ [sig Hd]]. by destruct Hd as [Hd|[]].
Qed.

(** X13: the hide daemon is started only for the woken PID, only by
    classification, and only as the last request of the pass, after that
    PID has been detached with [SIGSTOP] and its threads have been seen
    to; the PID is then out of [attaches] and is not resumed. *)
Theorem X13_hide_daemon_only_after_stopping_detach
    (w : wake) (s s' : state) (p : Z) :
  proc_monitor_step w s = Ok (tt, s') ->
  In (ForkHideDaemon p) (new_calls s s') ->
  p = w_pid w /\ is_classified w s = true /\
  new_calls s s' =
    PtraceGetEventMsg p :: PtraceDetach p SIGSTOP ::
      flat_map (thread_calls (w_fs w) p) (task_dir (w_fs w) p) ++
      [ForkHideDaemon p] /\
  ~ Bitset.mem (attaches s') p /\
  (forall sig, ~ In (PtraceCont p sig) (new_calls s s')) /\
  exists cmd, cmdline (w_fs w) p = Some cmd /\ classify (w_fs w) p cmd s = Target.
Proof.
  intros Hok Hin. apply proc_monitor_step_cases in Hok.
  destruct Hok; unfold add_calls in Hin |- *;
    rewrite ?new_calls_app, ?new_calls_same in Hin |- *; simpl in Hin;
    try (by repeat (destruct Hin as [Hin|Hin]; try discriminate Hin)).
  - destruct Hin as [Hin|[Hin|Hin]]; try discriminate Hin.
    apply in_app_or in Hin as [Hin|[Hin|[]]];
      [by apply thread_calls_no_daemon in Hin|].
    injection Hin as <-. repeat split; try done.
    + unfold Bitset.mem. simpl. by rewrite Z.clearbit_eq.
    + intros sig Hc. simpl in Hc. destruct Hc as [Hc|[Hc|Hc]]; try done.
      apply in_app_or in Hc as [Hc|[Hc|[]]]; [|done].
      by apply thread_calls_no_cont in Hc.
    + eauto.
  - destruct Hin as [Hin|[Hin|Hin]]; try discriminate Hin.
    by apply thread_calls_no_daemon in Hin.
Qed.

(** X14: a PID enters [attaches] only as the child named by a zygote's
    FORK or VFORK event, and a TID enters [detaches] only as a thread of a
    classified PID that [detach_pid] could not detach on the spot. *)
Theorem X14_how_pids_enter_the_sets (w : wake) (s s' : state) (i : Z) :
  proc_monitor_step w s = Ok (tt, s') ->
  (Bitset.mem (attaches s') i ->
   Bitset.mem (attaches s) i \/ (is_zygote_fork w s = true /\ i = w_msg w)) /\
  (Bitset.mem (detaches s') i ->
   Bitset.mem (detaches s) i \/
   (is_classified w s = true /\ In i (task_dir (w_fs w) (w_pid w)) /\
    stop_requested (w_fs w) (w_pid w) i = true)).
Proof.
  intros Hok. apply proc_monitor_step_cases in Hok.
  assert (Hclear : forall b n, Z.testbit (Z.clearbit b n) i = true ->
                               Z.testbit b i = true).
  { intros b n Hb. rewrite Z.clearbit_eqb in Hb.
    by apply andb_true_iff in Hb as [Hb _]. }
  unfold Bitset.mem.
  destruct Hok; cbn [attaches detaches add_calls]; split; intros Hi;
    try (by left); try (left; by eapply Hclear).
  - apply in_range_spec in H0. rewrite Z.setbit_eqb in Hi by lia.
    apply orb_true_iff in Hi as [Heq|Hi]; [|by left].
    apply Z.eqb_eq in Heq. by right.
  - apply mark_stops_mem in Hi as [Hi|[Hin Hs]]; [by left| |done].
    by right.
  - apply mark_stops_mem in Hi as [Hi|[Hin Hs]]; [by left| |done].
    by right.
Qed.

(** ** Wait statuses *)

Lemma testbit_small x k n : 0 <= x < 2 ^ k -> k <= n -> Z.testbit x n = false.
Proof.
  intros [Hx Hk] Hn. destruct (Z.eq_dec x 0) as [->|Hne]; [apply Z.bits_0|].
  apply Z.bits_above_log2; [lia|].
  assert (Z.log2 x < k); [|lia].
  apply Z.log2_lt_pow2; lia.
Qed.

(** The bits of a stop status: seven ones, a zero, the signal, the event. *)
Lemma status_bits sig ev n :
  0 <= sig < 256 -> 0 <= ev < 65536 -> 0 <= n ->
  Z.testbit (stop_status sig ev) n =
    if n <? 7 then true
    else if n <? 8 then false
    else if n <? 16 then Z.testbit sig (n - 8)
    else Z.testbit ev (n - 16).
Proof.
  intros Hs He Hn. unfold stop_status.
  rewrite !Z.lor_spec, !Z.shiftl_spec by lia.
  change 127 with (Z.ones 7). rewrite Z.testbit_ones by lia.
  destruct (n <? 7) eqn:H7.
  { apply Z.ltb_lt in H7. rewrite (proj2 (Z.leb_le 0 n)) by lia.
    simpl. rewrite orb_true_r. reflexivity. }
  apply Z.ltb_ge in H7. rewrite andb_false_r, orb_false_r.
  destruct (n <? 8) eqn:H8.
  { apply Z.ltb_lt in H8. rewrite !Z.testbit_neg_r by lia. reflexivity. }
  apply Z.ltb_ge in H8.
  destruct (n <? 16) eqn:H16.
  { apply Z.ltb_lt in H16. rewrite (Z.testbit_neg_r ev) by lia. reflexivity. }
  apply Z.ltb_ge in H16.
  rewrite (testbit_small sig 8 (n - 8)) by lia. rewrite orb_false_r. reflexivity.
Qed.

Lemma status_decode sig ev :
  0 <= sig < 256 -> 0 <= ev < 65536 ->
  WIFSTOPPED (stop_status sig ev) = true /\
  WSTOPSIG (stop_status sig ev) = sig /\
  WEVENT (stop_status sig ev) = ev.
Proof.
  intros Hs He. refine (conj _ (conj _ _)).
  - unfold WIFSTOPPED, WTERMSIG. apply Z.eqb_eq. apply Z.bits_inj'. intros n Hn.
    rewrite Z.land_spec, status_bits by lia.
    change 127 with (Z.ones 7). rewrite Z.testbit_ones by lia.
    rewrite (proj2 (Z.leb_le 0 n)) by lia. simpl.
    destruct (n <? 7); [reflexivity|]. apply andb_false_r.
  - unfold WSTOPSIG. apply Z.bits_inj'. intros n Hn.
    rewrite Z.shiftr_spec, Z.land_spec, status_bits by lia.
    change 65280 with (Z.shiftl (Z.ones 8) 8).
    rewrite Z.shiftl_spec, Z.testbit_ones by lia.
    replace (n + 8 - 8) with n by lia.
    rewrite (proj2 (Z.leb_le 0 n)) by lia. simpl.
    rewrite (proj2 (Z.ltb_ge (n + 8) 7)), (proj2 (Z.ltb_ge (n + 8) 8)) by lia.
    destruct (n <? 8) eqn:H8.
    + apply Z.ltb_lt in H8. rewrite (proj2 (Z.ltb_lt (n + 8) 16)) by lia.
      apply andb_true_r.
    + apply Z.ltb_ge in H8. rewrite andb_false_r.
      symmetry. apply (testbit_small sig 8); lia.
  - unfold WEVENT. apply Z.bits_inj'. intros n Hn.
    rewrite Z.shiftr_spec, Z.land_spec, status_bits by lia.
    change 4294901760 with (Z.shiftl (Z.ones 16) 16).
    rewrite Z.shiftl_spec, Z.testbit_ones by lia.
    replace (n + 16 - 16) with n by lia.
    rewrite (proj2 (Z.leb_le 0 n)) by lia. simpl.
    rewrite (proj2 (Z.ltb_ge (n + 16) 7)), (proj2 (Z.ltb_ge (n + 16) 8)),
      (proj2 (Z.ltb_ge (n + 16) 16)) by lia.
    destruct (n <? 16) eqn:H16.
    + apply andb_true_r.
    + apply Z.ltb_ge in H16. rewrite andb_false_r.
      symmetry. apply (testbit_small ev 16); lia.
Qed.

(** X15: the wait-status macros take apart what the kernel puts together.
    For a stop status made of a signal below 256 and an event code below
    65536, [WIFSTOPPED] holds, [WSTOPSIG] gives the signal and [WEVENT]
    gives the event code. *)
Theorem X15_stop_status_is_decoded (sig ev : Z) :
  0 <= sig < 256 -> 0 <= ev < 65536 ->
  WIFSTOPPED (stop_status sig ev) = true /\
  WSTOPSIG (stop_status sig ev) = sig /\
  WEVENT (stop_status sig ev) = ev.
Proof. apply status_decode. Qed.

(** X16: a stop without event code, of a PID that is not in [detaches],
    always ends in a resume, whatever [attaches] and [zygote_map] hold.
    A [SIGSTOP] is swallowed: the PID is given the options of a child
    (clone, exec, exit) and resumed without signal, a registered zygote
    included.  Any other signal, a plain [SIGTRAP] included, is passed on
    unchanged. *)
Theorem X16_plain_stops_are_resumed
    (pid sig msg : Z) (fs : procfs) (s : state) :
  Bitset.in_range pid = true ->
  Z.testbit (detaches s) pid = false ->
  0 <= sig < 256 ->
  proc_monitor_step (mkWake pid (stop_status sig 0) msg fs) s =
    Ok (tt, add_calls s
              (if sig =? SIGSTOP
               then [PtraceSetOptions pid child_options; PtraceCont pid 0]
               else [PtraceCont pid sig])).
Proof.
  intros Hr Hd Hsig.
  destruct (status_decode sig 0 Hsig) as (Hst & Hss & Hev); [lia|].
  rewrite proc_monitor_step_signal.
  - cbn [w_pid w_status]. rewrite Hss. by destruct (sig =? SIGSTOP).
  - unfold passes_first_test. cbn [w_pid w_status]. by rewrite Hr, Hst, Hd.
  - unfold is_event_stop. cbn [w_status]. rewrite Hev. apply andb_false_r.
Qed.

(** ** Classification and the fan-out *)

(** X17: with its command line readable and the numbers involved in
    bounds, [check_pid] hands a PID to the hide daemon exactly when the
    command line does not start with zygote, the list [uid_proc_map] holds
    for the owner's uid modulo 100000 contains the command line, and the
    compared [struct stat] differs in inode or device from every entry of
    [zygote_map]. *)
Theorem X17_handed_off_iff_rule_and_namespace
    (fs : procfs) (pid : Z) (cmd : text) (s : state) :
  cmdline fs pid = Some cmd ->
  Bitset.in_range pid = true ->
  Forall (fun tid => stop_requested fs pid tid = true ->
                     Bitset.in_range tid = true) (task_dir fs pid) ->
  (exists s', check_pid fs pid s = Ok (true, s') /\
              In (ForkHideDaemon pid) (new_calls s s')) <->
  (strncmp_eq cmd (str "zygote") 6 = false /\
   (exists procs,
      uid_proc_map s !! (st_uid (st_after_lstat fs pid) mod 100000) = Some procs /\
      In cmd procs) /\
   forall z zst, zygote_map s !! z = Some zst ->
     ~ (st_ino zst = st_ino (st_after_read_ns fs pid) /\
        st_dev zst = st_dev (st_after_read_ns fs pid))).
Proof.
  intros Hc Hr Htids.
  assert (Hcls : classify fs pid cmd s = Target <->
                 (exists procs,
                    uid_proc_map s !! (st_uid (st_after_lstat fs pid) mod 100000)
                      = Some procs /\ In cmd procs) /\
                 mnt_ns_separated (zygote_map s) (st_after_read_ns fs pid) = true).
  { unfold classify.
    destruct (uid_proc_map s !! _) as [procs|].
    - rewrite match_procs_iff. split.
      + intros [Hin Hsep]. split; [by exists procs|done].
      + intros [(procs' & [= <-] & Hin) Hsep]. done.
    - split; [done|]. by intros [(procs' & Hx & _) _]. }
  split.
  - intros (s' & Hok & Hin).
    destruct (strncmp_eq cmd (str "zygote") 6) eqn:Hz.
    { rewrite (check_pid_zygote fs pid cmd) in Hok by done. discriminate Hok. }
    split; [done|].
    rewrite (check_pid_classify fs pid cmd) in Hok by done.
    destruct (classify fs pid cmd s) eqn:Hcl.
    + destruct (proj1 Hcls eq_refl) as [Hprocs Hsep]. split; [done|].
      by apply mnt_ns_separated_spec.
    + erewrite bind_Ok in Hok by (by apply detach_pid_spec).
      unfold mret, M_ret in Hok. injection Hok as <-.
      rewrite new_calls_app in Hin. destruct Hin as [Hin|Hin]; [done|].
      by apply thread_calls_no_daemon in Hin.
  - intros (Hz & Hprocs & Hsep).
    rewrite (check_pid_classify fs pid cmd) by done.
    rewrite (proj2 Hcls) by (split; [done|by apply mnt_ns_separated_spec]).
    erewrite bind_Ok by (by apply detach_pid_spec).
    unfold mbind, M_bind, call, mret, M_ret. simpl.
    eexists. split; [reflexivity|].
    rewrite <- app_assoc, new_calls_app. simpl.
    right. apply in_or_app. right. by left.
Qed.

Lemma stop_requested_iff fs pid tid :
  stop_requested fs pid tid = true <-> tid <> pid /\ waitable fs tid = false.
Proof.
  unfold stop_requested.
  rewrite andb_true_iff, bool_decide_eq_true, negb_true_iff. done.
Qed.

Lemma mark_stops_intro fs pid tids :
  forall d i,
    Forall (fun tid => stop_requested fs pid tid = true -> Bitset.in_range tid = true)
           tids ->
    Z.testbit d i = true \/ (In i tids /\ stop_requested fs pid i = true) ->
    Z.testbit (mark_stops fs pid tids d) i = true.
Proof.
  induction tids as [|t tids IH]; intros d i Hall Hi.
  - by destruct Hi as [?|[[] _]].
  - inversion Hall as [|? ? Ht Hrest]; subst.
    unfold mark_stops. simpl. fold (mark_stops fs pid tids).
    apply IH; [done|].
    destruct Hi as [Hd|[[<-|Hin] Hs]].
    + left. destruct (stop_requested fs pid t) eqn:Hst; [|done].
      specialize (Ht eq_refl). apply in_range_spec in Ht.
      rewrite Z.setbit_eqb by lia. rewrite Hd. apply orb_true_r.
    + left. rewrite Hs. specialize (Ht Hs). apply in_range_spec in Ht.
      apply Z.setbit_eq. lia.
    + by right.
Qed.

(** X18: [detach_pid] takes the PID out of [attaches] and nothing else,
    and puts into [detaches] exactly the listed threads other than the PID
    that were not waitable; [zygote_map] and [uid_proc_map] stay as they
    are. *)
Theorem X18_detach_pid_marks_unready_threads
    (fs : procfs) (pid signal : Z) (s s' : state) :
  detach_pid fs pid signal s = Ok (tt, s') ->
  (forall i, Bitset.mem (attaches s') i <-> Bitset.mem (attaches s) i /\ i <> pid) /\
  (forall i, Bitset.mem (detaches s') i <->
             Bitset.mem (detaches s) i \/
             (In i (task_dir fs pid) /\ i <> pid /\ waitable fs i = false)) /\
  zygote_map s' = zygote_map s /\ uid_proc_map s' = uid_proc_map s.
Proof.
  intros Hok. apply detach_pid_inv in Hok as (Hr & Hall & ->).
  unfold Bitset.mem. cbn [attaches detaches zygote_map uid_proc_map].
  refine (conj _ (conj _ (conj eq_refl eq_refl))).
  - intros i. rewrite Z.clearbit_eqb, andb_true_iff, negb_true_iff, Z.eqb_neq.
    split; intros [? ?]; split; congruence.
  - intros i. rewrite <- stop_requested_iff. split.
    + by apply mark_stops_mem.
    + by apply mark_stops_intro.
Qed.

(** X19: a thread [detach_pid] has marked is detached without signal at
    its next wake-up, whatever status and event that wake-up carries, and
    leaves both bitsets; it is neither classified nor resumed. *)
Theorem X19_marked_thread_is_detached_at_next_wake
    (fs : procfs) (pid signal tid : Z) (s s1 : state) (w : wake) :
  detach_pid fs pid signal s = Ok (tt, s1) ->
  In tid (task_dir fs pid) -> tid <> pid -> waitable fs tid = false ->
  w_pid w = tid ->
  proc_monitor_step w s1 =
    Ok (tt, mkState (zygote_map s1) (uid_proc_map s1)
              (Z.clearbit (attaches s1) tid) (Z.clearbit (detaches s1) tid)
              (calls s1 ++ [PtraceDetach tid 0])).
Proof.
  intros Hok Hin Hne Hw <-.
  apply detach_pid_inv in Hok as (Hr & Hall & ->).
  assert (Hs : stop_requested fs pid (w_pid w) = true)
    by (by apply stop_requested_iff).
  assert (Hrt : Bitset.in_range (w_pid w) = true).
  { rewrite Forall_forall in Hall. apply Hall; [by apply list_elem_of_In|done]. }
  apply in_range_spec in Hrt as Hrt'.
  rewrite proc_monitor_step_skip; [by apply detach_task_spec|lia|].
  right. unfold Bitset.get. rewrite Hrt. cbn [detaches].
  rewrite mark_stops_intro; [done|done|]. right. by split.
Qed.

(** ** The registry *)

Lemma registered_attached_frame s s' l :
  registered_attached s ->
  calls s' = calls s ++ l ->
  (forall p, is_Some (zygote_map s' !! p) ->
             is_Some (zygote_map s !! p) \/ In (PtraceAttach p) l) ->
  registered_attached s'.
Proof.
  intros Hinv Hcalls Hreg p Hp. rewrite Hcalls. apply in_or_app.
  destruct (Hreg p Hp) as [Hold|Hnew]; [left; by apply Hinv|by right].
Qed.

(** X20: whoever is in [zygote_map] has been attached to.  This holds
    with an empty registry and is kept by [new_zygote], [check_zygote],
    [inotify_event] and the loop body. *)
Theorem X20_registered_pids_have_been_attached :
  (forall s, zygote_map s = ∅ -> registered_attached s) /\
  (forall fs pid s s',
     registered_attached s -> new_zygote fs pid s = Ok (tt, s') ->
     registered_attached s') /\
  (forall pt fs s s',
     registered_attached s -> check_zygote pt fs s = Ok (tt, s') ->
     registered_attached s') /\
  (forall parse_int hs i s s',
     registered_attached s -> inotify_event parse_int hs i s = Ok (tt, s') ->
     registered_attached s') /\
  (forall w s s',
     registered_attached s -> proc_monitor_step w s = Ok (tt, s') ->
     registered_attached s').
Proof.
  assert (Hnew : forall fs pid s s',
            registered_attached s -> new_zygote fs pid s = Ok (tt, s') ->
            registered_attached s').
  { intros fs pid s s' Hinv Hok. rewrite new_zygote_spec in Hok.
    injection Hok as <-. destruct (stat_mnt_ns fs pid) as [st|]; [|done].
    intros p Hp. cbn [zygote_map calls] in *.
    destruct (decide (p = pid)) as [->|Hne].
    - destruct (zygote_map s !! pid) eqn:Hz.
      + apply Hinv. rewrite Hz. eauto.
      + apply in_or_app. right. by left.
    - rewrite lookup_insert_ne in Hp by done.
      destruct (zygote_map s !! pid); [by apply Hinv|].
      apply in_or_app. left. by apply Hinv. }
  assert (Hscan : forall pt fs s s',
            registered_attached s -> check_zygote pt fs s = Ok (tt, s') ->
            registered_attached s').
  { intros pt fs s s' Hinv Hok.
    destruct (check_zygote_entries pt fs (proc_pids pt) s)
      as (s2 & l & Hrun & _ & _ & _ & Hcalls & Hin & Hout & _ & Hatt).
    unfold check_zygote in Hok. rewrite Hrun in Hok. injection Hok as <-.
    apply (registered_attached_frame s s2 l Hinv Hcalls). intros p Hp.
    destruct (zygote_map s !! p) eqn:Hz; [left; eauto|right].
    destruct (in_dec Z.eq_dec p (proc_pids pt)) as [Hpin|Hpout];
      [destruct (zygote_ns pt fs p) eqn:Hns|].
    - apply Hatt; eauto.
    - rewrite Hout, Hz in Hp by (rewrite Hns; by intros [_ [? ?]]).
      by destruct Hp.
    - rewrite Hout, Hz in Hp by (by intros [? _]). by destruct Hp. }
  refine (conj _ (conj Hnew (conj Hscan (conj _ _)))).
  - intros s Hz p Hp. rewrite Hz, lookup_empty in Hp. by destruct Hp.
  - intros parse_int hs i s s' Hinv Hok. rewrite inotify_event_spec in Hok.
    destruct (poll_ret i <=? 0); [by injection Hok as <-|].
    destruct (is_packages_event i); [|by eapply Hscan].
    destruct (file_readline parse_int hs (packages_xml i) ∅) as [m1| |];
      [|done|done].
    eapply Hscan; [|exact Hok]. exact Hinv.
  - intros w s s' Hinv Hok. apply proc_monitor_step_cases in Hok.
    destruct (step_case_calls w s s' Hok) as (l & Hcalls & _).
    apply (registered_attached_frame s s' l Hinv Hcalls). intros p Hp. left.
    destruct Hok; cbn [zygote_map add_calls] in Hp; try done.
    apply lookup_delete_is_Some in Hp. by destruct Hp.
Qed.

End LoopProperties.

Lemma X6_check_zygote_registers_zygotes_of_init_witness :
  exists s',
    check_zygote Startup.procs Startup.fs Startup.fresh = Ok (tt, s') /\
    zygote_map s' !! 100 = Some Scenario.spawner_ns /\
    In (PtraceAttach 100) (new_calls Startup.fresh s').
Proof.
  destruct (X6_check_zygote_registers_zygotes_of_init
              Startup.procs Startup.fs Startup.fresh)
    as (s' & Hok & Hin & _ & Hatt & _).
  exists s'. split; [exact Hok|]. split.
  - apply Hin; [right; left; reflexivity|reflexivity].
  - apply Hatt. split; [right; left; reflexivity|].
    split; [eexists; reflexivity|reflexivity].
Defined.

Lemma X9_watcher_event_effects_witness :
  exists s',
    inotify_event parse_decimal Scenario.rules Startup.packages_written
      Startup.fresh = Ok (tt, s') /\
    update_uid_map parse_decimal Scenario.rules [Scenario.record_com_x] ∅ =
      Ok (uid_proc_map s') /\
    zygote_map s' !! 100 = Some Scenario.spawner_ns.
Proof.
  eexists. split; [vm_compute; reflexivity|].
  match goal with
  | |- context [uid_proc_map ?s'] =>
      destruct (proj2 (proj2 (X9_watcher_event_effects parse_decimal
                                Scenario.rules Startup.packages_written
                                Startup.fresh)) s')
        as (_ & _ & Hu & Hz)
  end.
  - reflexivity.
  - vm_compute. reflexivity.
  - split; [exact Hu|].
    apply Hz; [right; left; reflexivity|reflexivity].
Defined.

Lemma X10_loop_returns_iff_in_bounds_witness :
  exists s',
    proc_monitor_step (Scenario.wake_clone 101 151 Scenario.fs_fan_out)
      (Scenario.candidate 101) = Ok (tt, s').
Proof.
  apply (proj2 (X10_loop_returns_iff_in_bounds
                  (Scenario.wake_clone 101 151 Scenario.fs_fan_out)
                  (Scenario.candidate 101))).
  split; [reflexivity|]. split.
  - intros H. vm_compute in H. discriminate H.
  - intros cmd _ _ _. repeat constructor.
Defined.

Lemma X11_loop_erases_zygote_only_on_event_witness :
  exists s',
    proc_monitor_step (Scenario.wake_clone 100 151 Scenario.no_proc)
      Scenario.idle = Ok (tt, s') /\
    uid_proc_map s' = Scenario.uid_map /\
    zygote_map s' = delete 100 Scenario.registry.
Proof.
  eexists. split; [vm_compute; reflexivity|].
  match goal with
  | |- uid_proc_map ?s' = _ /\ _ =>
      destruct (X11_loop_erases_zygote_only_on_event
                  (Scenario.wake_clone 100 151 Scenario.no_proc)
                  Scenario.idle s') as [Hu Hz]
  end.
  - vm_compute. reflexivity.
  - split; [exact Hu|exact Hz].
Defined.

Lemma X12_every_wake_up_is_answered_witness :
  exists s',
    proc_monitor_step (Scenario.wake_sigstop 101) (Scenario.candidate 101) =
      Ok (tt, s') /\
    (exists sig, In (PtraceCont 101 sig) (new_calls (Scenario.candidate 101) s')) /\
    ~ (exists sig, In (PtraceDetach 101 sig) (new_calls (Scenario.candidate 101) s')).
Proof.
  eexists. split; [vm_compute; reflexivity|].
  match goal with
  | |- (exists sig, In _ (new_calls _ ?s')) /\ _ =>
      destruct (X12_every_wake_up_is_answered (Scenario.wake_sigstop 101)
                  (Scenario.candidate 101) s') as [Hnot _]
  end.
  - vm_compute. reflexivity.
  - vm_compute. discriminate.
  - assert (Hc : exists sig,
               In (PtraceCont 101 sig)
                  [PtraceSetOptions 101 child_options; PtraceCont 101 0])
      by (exists 0; right; left; reflexivity).
    split; [exact Hc|].
    intros Hd. apply Hnot. split; [exact Hc|exact Hd].
Defined.

Lemma X13_hide_daemon_only_after_stopping_detach_witness :
  exists s',
    proc_monitor_step (Scenario.wake_clone 101 151 Scenario.fs_fan_out)
      (Scenario.candidate 101) = Ok (tt, s') /\
    new_calls (Scenario.candidate 101) s' =
      PtraceGetEventMsg 101 :: PtraceDetach 101 SIGSTOP ::
        flat_map (thread_calls Scenario.fs_fan_out 101) [101; 151; 152] ++
        [ForkHideDaemon 101] /\
    ~ Bitset.mem (attaches s') 101.
Proof.
  eexists. split; [vm_compute; reflexivity|].
  match goal with
  | |- new_calls _ ?s' = _ /\ _ =>
      destruct (X13_hide_daemon_only_after_stopping_detach
                  (Scenario.wake_clone 101 151 Scenario.fs_fan_out)
                  (Scenario.candidate 101) s' 101)
        as (_ & _ & Hcalls & Hout & _)
  end.
  - vm_compute. reflexivity.
  - vm_compute. do 6 right. left. reflexivity.
  - split; [exact Hcalls|exact Hout].
Defined.

Lemma X14_how_pids_enter_the_sets_witness :
  exists s',
    proc_monitor_step (Scenario.wake_fork 100 101) Scenario.idle = Ok (tt, s') /\
    (Bitset.mem (attaches s') 101 ->
     Bitset.mem (attaches Scenario.idle) 101 \/
     (is_zygote_fork (Scenario.wake_fork 100 101) Scenario.idle = true /\
      101 = w_msg (Scenario.wake_fork 100 101))).
Proof.
  eexists. split; [vm_compute; reflexivity|].
  match goal with
  | |- Bitset.mem (attaches ?s') _ -> _ =>
      apply (X14_how_pids_enter_the_sets (Scenario.wake_fork 100 101)
               Scenario.idle s' 101)
  end.
  vm_compute. reflexivity.
Defined.

Lemma X15_stop_status_is_decoded_witness :
  WIFSTOPPED (stop_status SIGTRAP PTRACE_EVENT_FORK) = true /\
  WSTOPSIG (stop_status SIGTRAP PTRACE_EVENT_FORK) = SIGTRAP /\
  WEVENT (stop_status SIGTRAP PTRACE_EVENT_FORK) = PTRACE_EVENT_FORK.
Proof.
  apply (X15_stop_status_is_decoded SIGTRAP PTRACE_EVENT_FORK).
  - vm_compute. split; [discriminate|reflexivity].
  - vm_compute. split; [discriminate|reflexivity].
Defined.

Lemma X16_plain_stops_are_resumed_witness :
  proc_monitor_step (mkWake 100 (stop_status SIGSTOP 0) 0 Scenario.no_proc)
    Scenario.idle =
  Ok (tt, add_calls Scenario.idle
            [PtraceSetOptions 100 child_options; PtraceCont 100 0]).
Proof.
  apply (X16_plain_stops_are_resumed 100 SIGSTOP 0 Scenario.no_proc Scenario.idle).
  - reflexivity.
  - reflexivity.
  - vm_compute. split; [discriminate|reflexivity].
Defined.

Lemma X17_handed_off_iff_rule_and_namespace_witness :
  exists s',
    check_pid Scenario.fs_baseline 101 (Scenario.candidate 101) = Ok (true, s') /\
    In (ForkHideDaemon 101) (new_calls (Scenario.candidate 101) s').
Proof.
  apply (proj2 (X17_handed_off_iff_rule_and_namespace Scenario.fs_baseline 101
                  (str "com.x") (Scenario.candidate 101)
                  eq_refl eq_refl ltac:(repeat constructor))).
  split; [reflexivity|]. split.
  - exists [str "com.x"]. split; [reflexivity|left; reflexivity].
  - apply mnt_ns_separated_spec. vm_compute. reflexivity.
Defined.

Lemma X18_detach_pid_marks_unready_threads_witness :
  exists s',
    detach_pid Scenario.fs_fan_out 101 SIGSTOP (Scenario.candidate 101) =
      Ok (tt, s') /\
    Bitset.mem (detaches s') 152 /\ ~ Bitset.mem (attaches s') 101.
Proof.
  eexists. split; [vm_compute; reflexivity|].
  match goal with
  | |- Bitset.mem (detaches ?s') _ /\ _ =>
      destruct (X18_detach_pid_marks_unready_threads Scenario.fs_fan_out 101
                  SIGSTOP (Scenario.candidate 101) s') as (Ha & Hd & _)
  end.
  - vm_compute. reflexivity.
  - split.
    + apply Hd. right. split; [do 2 right; left; reflexivity|].
      split; [discriminate|reflexivity].
    + intros Hm. apply Ha in Hm as [_ Hne]. apply Hne. reflexivity.
Defined.

Lemma X19_marked_thread_is_detached_at_next_wake_witness :
  exists s1,
    detach_pid Scenario.fs_fan_out 101 SIGSTOP (Scenario.candidate 101) =
      Ok (tt, s1) /\
    proc_monitor_step (Scenario.wake_clone 152 0 Scenario.no_proc) s1 =
      Ok (tt, mkState (zygote_map s1) (uid_proc_map s1)
                (Z.clearbit (attaches s1) 152) (Z.clearbit (detaches s1) 152)
                (calls s1 ++ [PtraceDetach 152 0])).
Proof.
  eexists. split; [vm_compute; reflexivity|].
  apply (X19_marked_thread_is_detached_at_next_wake Scenario.fs_fan_out 101
           SIGSTOP 152 (Scenario.candidate 101)).
  - vm_compute. reflexivity.
  - do 2 right. left. reflexivity.
  - discriminate.
  - reflexivity.
  - reflexivity.
Defined.

Lemma X20_registered_pids_have_been_attached_witness :
  exists s',
    check_zygote Startup.procs Startup.fs Startup.fresh = Ok (tt, s') /\
    registered_attached s'.
Proof.
  eexists. split; [vm_compute; reflexivity|].
  apply (proj1 (proj2 (proj2 X20_registered_pids_have_been_attached))
           Startup.procs Startup.fs Startup.fresh).
  - apply (proj1 X20_registered_pids_have_been_attached). reflexivity.
  - vm_compute. reflexivity.
Defined.

(** * Whole runs of the loop *)

Section WholeRun.

Lemma step_case_keeps w s s' :
  step_case w s s' ->
  uid_proc_map s' = uid_proc_map s /\
  zygote_map s' ⊆ zygote_map s /\
  exists l, calls s' = calls s ++ l /\ forall p, ~ In (PtraceAttach p) l.
Proof.
  assert (Hthreads : forall fs pid tids p,
            ~ In (PtraceAttach p) (flat_map (thread_calls fs pid) tids)).
  { intros fs pid tids p Hin.
    apply thread_calls_kinds in Hin as [[t Ht]|[(t & _ & Ht)|[t Ht]]];
      discriminate Ht. }
  intros Hcase.
  destruct Hcase; cbn [uid_proc_map zygote_map calls add_calls];
    (split; [done|]); (split; [reflexivity || apply delete_subseteq|]);
    try (exists []; split; [by rewrite app_nil_r|by intros p []]);
    (eexists; split; [reflexivity|]); intros p Hin; simpl in Hin;
    repeat (destruct Hin as [Hin|Hin]; [discriminate Hin|]);
    try done.
  - apply in_app_or in Hin as [Hin|[Hin|[]]]; [by eapply Hthreads|done].
  - by eapply Hthreads.
Qed.

(** X21: over any run of wake-ups the loop leaves [uid_proc_map] as it
    is, never adds to or changes an entry of [zygote_map], only appends to
    what it has asked of the kernel, and never asks for an attach: new
    tracees come from the fork options of the spawners alone. *)
Theorem X21_loop_never_registers_or_attaches (ws : list wake) (s s' : state) :
  proc_monitor ws s = Ok s' ->
  uid_proc_map s' = uid_proc_map s /\
  zygote_map s' ⊆ zygote_map s /\
  (exists l, calls s' = calls s ++ l) /\
  (forall p, ~ In (PtraceAttach p) (new_calls s s')) /\
  (registered_attached s -> registered_attached s').
Proof.
  intros Hrun.
  assert (H : uid_proc_map s' = uid_proc_map s /\
              zygote_map s' ⊆ zygote_map s /\
              exists l, calls s' = calls s ++ l /\
                        forall p, ~ In (PtraceAttach p) l).
  { revert s Hrun. induction ws as [|w ws IH]; intros s Hrun.
    - injection Hrun as <-. split; [done|]. split; [done|].
      exists []. split; [by rewrite app_nil_r|by intros p []].
    - cbn [proc_monitor] in Hrun.
      destruct (proc_monitor_step w s) as [[[] s1]| |] eqn:Hstep;
        [|done|done].
      apply proc_monitor_step_cases, step_case_keeps in Hstep
        as (Hu1 & Hz1 & l1 & Hc1 & Hl1).
      apply IH in Hrun as (Hu & Hz & l & Hc & Hl).
      split; [congruence|]. split; [by transitivity (zygote_map s1)|].
      exists (l1 ++ l). split; [by rewrite Hc, Hc1, app_assoc|].
      intros p Hin. apply in_app_or in Hin as [Hin|Hin];
        [by eapply Hl1|by eapply Hl]. }
  destruct H as (Hu & Hz & l & Hc & Hl).
  split; [done|]. split; [done|]. split; [by exists l|]. split.
  - intros p. unfold new_calls. rewrite Hc, drop_app_length. apply Hl.
  - intros Hinv p Hp. rewrite Hc. apply in_or_app. left. apply Hinv.
    destruct Hp as [st Hp]. exists st. by eapply lookup_weaken.
Qed.

End WholeRun.

Lemma X21_loop_never_registers_or_attaches_witness :
  exists s',
    proc_monitor Scenario.run_fan_out Scenario.idle = Ok s' /\
    uid_proc_map s' = Scenario.uid_map /\
    zygote_map s' ⊆ Scenario.registry /\
    forall p, ~ In (PtraceAttach p) (new_calls Scenario.idle s').
Proof.
  eexists. split; [vm_compute; reflexivity|].
  match goal with
  | |- uid_proc_map ?s' = _ /\ _ =>
      destruct (X21_loop_never_registers_or_attaches Scenario.run_fan_out
                  Scenario.idle s') as (Hu & Hz & _ & Hl & _)
  end.
  - vm_compute. reflexivity.
  - split; [exact Hu|]. split; [exact Hz|exact Hl].
Defined.
